(** * DDoS protection service: a shallow embedding and its checked properties

    The Go packages [blacklist], [ratelimit], [filter], [botnet], [monitor],
    [health] and [ddos] are embedded as Rocq modules of the same names.
    Conventions:

    - a [time.Time] is a [Z], the nanoseconds elapsed since the Unix epoch,
      and a [time.Duration] is a [Z] of nanoseconds; every method that reads
      the clock takes the instant [now] as an argument;
    - a Go [map[string]T] is a [gmap string T];
    - a receiver that is mutated is returned next to the result;
    - the Redis server reached through the [*redis.Client] handle is one
      shared store, threaded through every method that talks to it, so that
      the IP manager and the Redis limiter see each other's writes;
    - a [float64] is a binary64 number of IEEE 754, a [spec_float] of the
      standard library; every operation rounds to nearest, ties to even, on
      its own;
    - a string is a string of bytes, read as UTF-8 where the library does;
    - mutexes are omitted: each method body is one atomic step;
    - logging and the Prometheus instruments are omitted. *)

From Stdlib Require Import ZArith QArith Qminmax Qabs Ascii String Lia Lqa SpecFloat.
From stdpp Require Import gmap strings list pretty sorting.

Open Scope Z_scope.

(** ** Machine integers *)

(** Go's [int] and [int64] on the supported platforms: 64-bit two's
    complement; arithmetic wraps silently. *)
Definition wrap64 (z : Z) : Z := (z + 2 ^ 63) mod 2 ^ 64 - 2 ^ 63.

Definition add64 (a b : Z) : Z := wrap64 (a + b).

(** ** Floating point *)

(** Go's [float64].  The operations are those of [SpecFloat] at the
    precision of binary64; none of them is fused with another. *)
Module float64.

Abbreviation t := spec_float.

Definition prec : Z := 53.
Definition emax : Z := 1024.

(** The conversion [float64(i)] of an integer. *)
Definition of_int (i : Z) : t := binary_normalize prec emax i 0 false.

Definition add : t → t → t := SFadd prec emax.
Definition mul : t → t → t := SFmul prec emax.
Definition div : t → t → t := SFdiv prec emax.
Definition ltb : t → t → bool := SFltb.
Definition leb : t → t → bool := SFleb.

(** The constant that the source writes as the decimal [n/d], [0.05] being
    [lit 5 100]: the binary64 number nearest to it. *)
Definition lit (n d : Z) : t := div (of_int n) (of_int d).

(** The conversion [int(x)], which drops the fraction.  A value that is no
    [int] (a NaN, an infinity, a number out of range) gives the least
    [int], as the conversion instruction of amd64 does. *)
Definition to_int (x : t) : Z :=
  match x with
  | S754_zero _ => 0
  | S754_finite s m e =>
      let a := if 0 <=? e then Z.pos m * 2 ^ e else Z.pos m / 2 ^ (- e) in
      let v := if s then - a else a in
      if (- 2 ^ 63 <=? v) && (v <? 2 ^ 63) then v else - 2 ^ 63
  | _ => - 2 ^ 63
  end.

(** The rational a finite number stands for, and 0 for the others. *)
Definition to_Q (x : t) : Q :=
  match x with
  | S754_finite s m e => (inject_Z (if s then Z.neg m else Z.pos m) * Qpower 2 e)%Q
  | _ => 0%Q
  end.

End float64.

(** ** Package time *)

Module time.

Abbreviation Time := Z.
Abbreviation Duration := Z.

Definition Microsecond : Duration := 1000.
Definition Millisecond : Duration := 1000000.
Definition Second : Duration := 1000000000.
Definition Minute : Duration := 60 * Second.

Definition Add (t : Time) (d : Duration) : Time := t + d.
Definition Sub (t u : Time) : Duration := t - u.
Definition Before (t u : Time) : bool := t <? u.
Definition After (t u : Time) : bool := u <? t.

(** Seconds since the epoch, rounded towards minus infinity. *)
Definition Unix (t : Time) : Z := t / Second.
Definition UnixNano (t : Time) : Z := t.

(** Wall-clock fields, read in UTC. *)
Definition Minute_of (t : Time) : Z := (t / Minute) mod 60.
Definition Second_of (t : Time) : Z := (t / Second) mod 60.

(** The zero [time.Time] is January 1 of year 1, 00:00 UTC. *)
Definition zero : Time := - 62135596800 * Second.
Definition IsZero (t : Time) : bool := t =? zero.

(** [fmtFrac]: the point and the last [prec] decimal digits of [v] without
    the zeros that end them, nothing when they are all zeros, before [acc];
    and [v] without these digits. *)
Fixpoint fmtFrac (prec : nat) (v : Z) (print : bool) (acc : string) : string * Z :=
  match prec with
  | O => (if print then String "." acc else acc, v)
  | S prec' =>
      let digit := v mod 10 in
      let print := print || negb (digit =? 0) in
      fmtFrac prec' (v / 10) print
              (if print then String (ascii_of_nat (48 + Z.to_nat digit)) acc else acc)
  end.

(** [d.String()], which [%v] prints: 1.5s, 2h45m0s, and below a second the
    largest unit that leaves a whole part, as in 1.2ms. *)
Definition Duration_String (d : Duration) : string :=
  let u := Z.abs d in
  let text :=
    if u <? Second then
      if u =? 0 then "0s"
      else
        let '(prec, unit) :=
          if u <? Microsecond then (0%nat, "ns")
          else if u <? Millisecond then (3%nat, String "194" (String "181" "s"))
          else (6%nat, "ms") in
        let '(frac, v) := fmtFrac prec u false unit in
        pretty v +:+ frac
    else
      let '(frac, v) := fmtFrac 9 u false "s" in
      let seconds := pretty (v mod 60) +:+ frac in
      let v := v / 60 in
      if 0 <? v then
        let minutes := pretty (v mod 60) +:+ "m" +:+ seconds in
        let v := v / 60 in
        if 0 <? v then pretty v +:+ "h" +:+ minutes else minutes
      else seconds in
  if d <? 0 then "-" +:+ text else text.

(** [d.Seconds()]: the whole seconds plus the rest as a fraction. *)
Definition Seconds (d : Duration) : float64.t :=
  let sec := Z.quot d Second in
  let nsec := Z.rem d Second in
  float64.add (float64.of_int sec)
              (float64.div (float64.of_int nsec) (float64.of_int 1000000000)).

End time.

(** ** Packages unicode/utf8 and unicode of the Go library *)

Module utf8.

Definition RuneError : Z := 0xFFFD.
Definition RuneSelf : Z := 0x80.
Definition UTFMax : nat := 4.

Definition byte (c : ascii) : Z := Z.of_nat (nat_of_ascii c).

(** [s[i]], and 0 where the string has no byte. *)
Definition at_ (s : string) (i : nat) : Z :=
  match String.get i s with
  | Some c => byte c
  | None => 0
  end.

Definition between (lo hi b : Z) : bool := (lo <=? b) && (b <=? hi).

(** The table [first]: for a leading byte, the number of bytes of the
    encoding and the range of the second byte; nothing for a byte that
    leads no encoding. *)
Definition first (s0 : Z) : option (nat * Z * Z) :=
  if between 0xC2 0xDF s0 then Some (2%nat, 0x80, 0xBF)
  else if s0 =? 0xE0 then Some (3%nat, 0xA0, 0xBF)
  else if between 0xE1 0xEC s0 || between 0xEE 0xEF s0 then Some (3%nat, 0x80, 0xBF)
  else if s0 =? 0xED then Some (3%nat, 0x80, 0x9F)
  else if s0 =? 0xF0 then Some (4%nat, 0x90, 0xBF)
  else if between 0xF1 0xF3 s0 then Some (4%nat, 0x80, 0xBF)
  else if s0 =? 0xF4 then Some (4%nat, 0x80, 0x8F)
  else None.

(** [DecodeRuneInString]: the first rune of [s] and its width in bytes.  The
    empty string gives [(RuneError, 0)], bytes that are no encoding give
    [(RuneError, 1)]. *)
Definition DecodeRuneInString (s : string) : Z * nat :=
  let n := String.length s in
  if (n <? 1)%nat then (RuneError, 0%nat)
  else
    let s0 := at_ s 0 in
    if s0 <? RuneSelf then (s0, 1%nat)
    else
      match first s0 with
      | None => (RuneError, 1%nat)
      | Some (sz, lo, hi) =>
          if (n <? sz)%nat then (RuneError, 1%nat)
          else
            let s1 := at_ s 1 in
            if (s1 <? lo) || (hi <? s1) then (RuneError, 1%nat)
            else if (sz <=? 2)%nat
            then (Z.lor (Z.shiftl (Z.land s0 0x1F) 6) (Z.land s1 0x3F), 2%nat)
            else
              let s2 := at_ s 2 in
              if (s2 <? 0x80) || (0xBF <? s2) then (RuneError, 1%nat)
              else if (sz <=? 3)%nat
              then (Z.lor (Z.lor (Z.shiftl (Z.land s0 0x0F) 12)
                                 (Z.shiftl (Z.land s1 0x3F) 6))
                          (Z.land s2 0x3F), 3%nat)
              else
                let s3 := at_ s 3 in
                if (s3 <? 0x80) || (0xBF <? s3) then (RuneError, 1%nat)
                else (Z.lor (Z.lor (Z.lor (Z.shiftl (Z.land s0 0x07) 18)
                                          (Z.shiftl (Z.land s1 0x3F) 12))
                                   (Z.shiftl (Z.land s2 0x3F) 6))
                            (Z.land s3 0x3F), 4%nat)
      end.

(** Whether a byte can lead an encoding: it is no continuation byte. *)
Definition RuneStart (b : Z) : bool := negb (Z.land b 0xC0 =? 0x80).

(** The loop of [DecodeLastRuneInString] that walks back from [start] to
    the byte that leads the last rune, over [lim] at the lowest; [k] bounds
    the number of turns. *)
Fixpoint lastStart (s : string) (k : nat) (start lim : Z) : Z :=
  match k with
  | O => start
  | S k' =>
      if start <? lim then start
      else if RuneStart (at_ s (Z.to_nat start)) then start
      else lastStart s k' (start - 1) lim
  end.

(** [DecodeLastRuneInString]: the last rune of [s] and its width. *)
Definition DecodeLastRuneInString (s : string) : Z * nat :=
  let end_ := String.length s in
  if (end_ =? 0)%nat then (RuneError, 0%nat)
  else
    let r := at_ s (end_ - 1) in
    if r <? RuneSelf then (r, 1%nat)
    else
      let lim := Z.max 0 (Z.of_nat end_ - Z.of_nat UTFMax) in
      let start := Z.max 0 (lastStart s (S UTFMax) (Z.of_nat end_ - 2) lim) in
      let '(r, size) := DecodeRuneInString (String.substring (Z.to_nat start)
                                              (end_ - Z.to_nat start) s) in
      if (Z.to_nat start + size =? end_)%nat then (r, size) else (RuneError, 1%nat).

End utf8.

Module unicode.

(** [IsSpace]: the white space of Unicode. *)
Definition IsSpace (r : Z) : bool :=
  if (0 <=? r) && (r <=? 0xFF)
  then utf8.between 0x09 0x0D r || (r =? 0x20) || (r =? 0x85) || (r =? 0xA0)
  else (r =? 0x1680) || utf8.between 0x2000 0x200A r || utf8.between 0x2028 0x2029 r ||
       (r =? 0x202F) || (r =? 0x205F) || (r =? 0x3000).

End unicode.

(** ** Package strings of the Go library (the functions the service calls) *)

Module strings.

Fixpoint drop (n : nat) (s : string) : string :=
  match n, s with
  | O, _ => s
  | S n', EmptyString => EmptyString
  | S n', String _ s' => drop n' s'
  end.

(** [s[0:n]]. *)
Definition take (n : nat) (s : string) : string := String.substring 0 n s.

(** [indexFunc(s, f, truth)], from the index [i] on: the index of the first
    rune on which [f] answers [truth], and -1 when there is none; [k]
    bounds the number of runes. *)
Fixpoint indexFunc_from (f : Z → bool) (truth : bool) (k : nat) (s : string) (i : nat) : Z :=
  match k with
  | O => -1
  | S k' =>
      if (String.length s <=? i)%nat then -1
      else
        let '(r, size) := utf8.DecodeRuneInString (drop i s) in
        if Bool.eqb (f r) truth then Z.of_nat i
        else indexFunc_from f truth k' s (i + size)
  end.

Definition indexFunc (s : string) (f : Z → bool) (truth : bool) : Z :=
  indexFunc_from f truth (String.length s) s 0.

(** [lastIndexFunc(s, f, truth)], below the index [i]. *)
Fixpoint lastIndexFunc_from (f : Z → bool) (truth : bool) (k : nat) (s : string) (i : nat)
  : Z :=
  match k with
  | O => -1
  | S k' =>
      if (i =? 0)%nat then -1
      else
        let '(r, size) := utf8.DecodeLastRuneInString (take i s) in
        let i' := (i - size)%nat in
        if Bool.eqb (f r) truth then Z.of_nat i'
        else lastIndexFunc_from f truth k' s i'
  end.

Definition lastIndexFunc (s : string) (f : Z → bool) (truth : bool) : Z :=
  lastIndexFunc_from f truth (String.length s) s (String.length s).

Definition TrimLeftFunc (s : string) (f : Z → bool) : string :=
  let i := indexFunc s f false in
  if i =? -1 then EmptyString else drop (Z.to_nat i) s.

Definition TrimRightFunc (s : string) (f : Z → bool) : string :=
  let i := lastIndexFunc s f false in
  let i :=
    if (0 <=? i) && (utf8.RuneSelf <=? utf8.at_ s (Z.to_nat i))
    then i + Z.of_nat (utf8.DecodeRuneInString (drop (Z.to_nat i) s)).2
    else i + 1 in
  take (Z.to_nat i) s.

Definition TrimFunc (s : string) (f : Z → bool) : string :=
  TrimRightFunc (TrimLeftFunc s f) f.

(** [TrimSpace]: the white space of Unicode is cut off both ends.  The
    library runs over ASCII bytes first and falls back to [TrimFunc] at the
    first byte that is not ASCII; the result is that of [TrimFunc]. *)
Definition TrimSpace (s : string) : string := TrimFunc s unicode.IsSpace.

(** [fields sep skip s] returns the field that starts at the head of [s]
    and the list of the fields after it; [skip] counts the bytes of a
    separator that are still to be passed over. *)
Fixpoint fields (sep : string) (skip : nat) (s : string) : string * list string :=
  match s with
  | EmptyString => (EmptyString, [])
  | String c s' =>
      match skip with
      | S k => fields sep k s'
      | O =>
          if String.prefix sep s
          then let '(hd, tl) := fields sep (String.length sep - 1) s' in
               (EmptyString, hd :: tl)
          else let '(hd, tl) := fields sep O s' in
               (String c hd, tl)
      end
  end.

Fixpoint explode (s : string) : list string :=
  match s with
  | EmptyString => []
  | String c s' => String c EmptyString :: explode s'
  end.

Definition Split (s sep : string) : list string :=
  match sep with
  | EmptyString => explode s
  | _ => let '(hd, tl) := fields sep O s in hd :: tl
  end.

Fixpoint Contains (s substr : string) : bool :=
  String.prefix substr s ||
  match s with
  | EmptyString => false
  | String _ s' => Contains s' substr
  end.

(** [Cut s sep] is [(before, after, found)]. *)
Fixpoint Cut (s sep : string) : string * string * bool :=
  if String.prefix sep s then (EmptyString, drop (String.length sep) s, true)
  else match s with
       | EmptyString => (EmptyString, EmptyString, false)
       | String c s' =>
           let '(b, a, f) := Cut s' sep in
           if f then (String c b, a, true) else (s, EmptyString, false)
       end.

Definition isUpper (c : ascii) : bool :=
  let n := nat_of_ascii c in ((65 <=? n) && (n <=? 90))%nat.
Definition isLower (c : ascii) : bool :=
  let n := nat_of_ascii c in ((97 <=? n) && (n <=? 122))%nat.
Definition toLower (c : ascii) : ascii :=
  if isUpper c then ascii_of_nat (nat_of_ascii c + 32) else c.
Definition toUpper (c : ascii) : ascii :=
  if isLower c then ascii_of_nat (nat_of_ascii c - 32) else c.

(** Whether two runes are equal under simple case folding.  Outside ASCII
    only the two runes that fold onto an ASCII letter are known here:
    U+212A, the Kelvin sign, onto k, and U+017F, the long s, onto s. *)
Definition equalFoldRune (sr tr : Z) : bool :=
  if sr =? tr then true
  else
    let lo := Z.min sr tr in
    let hi := Z.max sr tr in
    if hi <? utf8.RuneSelf then utf8.between 65 90 lo && (hi =? lo + 32)
    else ((lo =? 75) || (lo =? 107)) && (hi =? 0x212A) ||
         ((lo =? 83) || (lo =? 115)) && (hi =? 0x17F).

(** The loop of [EqualFold] over the runes of [s], which [k] bounds. *)
Fixpoint EqualFold_runes (k : nat) (s t : string) : bool :=
  match k with
  | O => false
  | S k' =>
      match s with
      | EmptyString => (String.length t =? 0)%nat
      | _ =>
          if (String.length t =? 0)%nat then false
          else
            let '(sr, ssize) := utf8.DecodeRuneInString s in
            let '(tr, tsize) := utf8.DecodeRuneInString t in
            equalFoldRune sr tr && EqualFold_runes k' (drop ssize s) (drop tsize t)
      end
  end.

(** [EqualFold]: equality under simple case folding, rune by rune.  The
    answer is the library's whenever one of the strings is ASCII, as the
    names of the methods are. *)
Definition EqualFold (s t : string) : bool :=
  EqualFold_runes (S (String.length s)) s t.

Fixpoint Join (elems : list string) (sep : string) : string :=
  match elems with
  | [] => EmptyString
  | [e] => e
  | e :: rest => e +:+ sep +:+ Join rest sep
  end.

End strings.

(** ** Errors *)

Inductive error :=
| Errorf (msg : string)      (* an error made by [fmt.Errorf] *)
| RedisError.                (* any error returned by the Redis client *)

(** ** The Redis client and the server behind it *)

(** The commands follow the Redis command reference, and their arguments
    the go-redis v8 client the service is built on. *)
Module redis.

(** The handle built by [redis.NewClient]. *)
Record Client := { Addr : string; Password : string; DB : Z }.

(** A sorted set: its members with their scores, members unique. *)
Abbreviation ZSet := (list (Z * Z)).

(** The server: string keys and sorted-set keys, each with an optional
    absolute expiry; [calls] counts the round trips made so far and
    [down n] tells whether round trip number [n] fails. *)
Record Server := {
  strs : gmap string (string * option Z);
  zsets : gmap string (ZSet * option Z);
  calls : nat;
  down : nat → bool
}.

Definition live {A} (now : Z) (e : A * option Z) : bool :=
  match e.2 with
  | None => true
  | Some t => now <? t
  end.

(** One round trip: [(ok, server with the call counted)]. *)
Definition roundtrip (s : Server) : bool * Server :=
  (negb (down s (calls s)),
   {| strs := strs s; zsets := zsets s; calls := S (calls s); down := down s |}).

Definition get_str (now : Z) (key : string) (s : Server) : option string :=
  match strs s !! key with
  | Some e => if live now e then Some e.1 else None
  | None => None
  end.

Definition get_zset (now : Z) (key : string) (s : Server) : option (ZSet * option Z) :=
  match zsets s !! key with
  | Some e => if live now e then Some e else None
  | None => None
  end.

Definition put_zset (key : string) (v : option (ZSet * option Z)) (s : Server) : Server :=
  {| strs := strs s;
     zsets := match v with
              | Some e => <[key := e]> (zsets s)
              | None => delete key (zsets s)
              end;
     calls := calls s; down := down s |}.

(** EXISTS key: [None] is an error, [Some n] the number of keys found. *)
Definition Exists (now : Z) (key : string) (s : Server) : option Z * Server :=
  let '(ok, s1) := roundtrip s in
  if ok then
    (Some (match get_str now key s1, get_zset now key s1 with
           | None, None => 0
           | _, _ => 1
           end), s1)
  else (None, s1).

(** The expiry the client sends with SET: none unless the duration is
    positive, and then in milliseconds, one at least. *)
Definition formatMs (dur : Z) : Z :=
  if (0 <? dur) && (dur <? time.Millisecond) then 1 else Z.quot dur time.Millisecond.

Definition KeepTTL : Z := -1.

Definition Set_ (now : Z) (key value : string) (expiration : Z) (s : Server)
  : option error * Server :=
  let '(ok, s1) := roundtrip s in
  if ok then
    let ttl :=
      if 0 <? expiration then Some (now + formatMs expiration * time.Millisecond)
      else if expiration =? KeepTTL then
             match strs s1 !! key with
             | Some e => if live now e then e.2 else None
             | None => None
             end
           else None in
    (None, {| strs := <[key := (value, ttl)]> (strs s1);
              zsets := delete key (zsets s1);
              calls := calls s1; down := down s1 |})
  else (Some RedisError, s1).

Definition Del (now : Z) (key : string) (s : Server) : option error * Server :=
  let '(ok, s1) := roundtrip s in
  if ok then
    (None, {| strs := delete key (strs s1);
              zsets := delete key (zsets s1);
              calls := calls s1; down := down s1 |})
  else (Some RedisError, s1).

(** The commands the limiter queues on a pipeline. *)
Inductive Cmd :=
| ZRemRangeByScore (key : string) (min max : Z)
| ZCard (key : string)
| ZAdd (key : string) (score member : Z)
| Expire (key : string) (expiration : Z).

(** The seconds the client sends with EXPIRE. *)
Definition formatSec (dur : Z) : Z :=
  if (0 <? dur) && (dur <? time.Second) then 1 else Z.quot dur time.Second.

Definition in_range (min max : Z) (e : Z * Z) : bool := (min <=? e.2) && (e.2 <=? max).

Definition zrem (min max : Z) (z : ZSet) : ZSet :=
  List.filter (fun e => negb (in_range min max e)) z.

Definition has_member (m : Z) (z : ZSet) : bool :=
  existsb (fun e => e.1 =? m) z.

Definition zadd (score member : Z) (z : ZSet) : ZSet :=
  if has_member member z
  then List.map (fun e => if e.1 =? member then (member, score) else e) z
  else z ++ [(member, score)].

(** One command against the store: the integer reply and the new store.
    A sorted set left empty is deleted, as the server does. *)
Definition apply (now : Z) (c : Cmd) (s : Server) : Z * Server :=
  match c with
  | ZRemRangeByScore key min max =>
      match get_zset now key s with
      | Some (z, ttl) =>
          let z' := zrem min max z in
          (Z.of_nat (length z) - Z.of_nat (length z'),
           put_zset key (match z' with [] => None | _ => Some (z', ttl) end) s)
      | None => (0, put_zset key None s)
      end
  | ZCard key =>
      match get_zset now key s with
      | Some (z, _) => (Z.of_nat (length z), s)
      | None => (0, s)
      end
  | ZAdd key score member =>
      match get_zset now key s with
      | Some (z, ttl) =>
          ((if has_member member z then 0 else 1),
           put_zset key (Some (zadd score member z, ttl)) s)
      | None => (1, put_zset key (Some ([(member, score)], None)) s)
      end
  | Expire key expiration =>
      match get_zset now key s with
      | Some (z, _) =>
          let secs := formatSec expiration in
          (1, put_zset key
                (if 0 <? secs then Some (z, Some (now + secs * time.Second)) else None) s)
      | None => (0, s)
      end
  end.

Fixpoint apply_all (now : Z) (cs : list Cmd) (s : Server) : list Z * Server :=
  match cs with
  | [] => ([], s)
  | c :: cs' =>
      let '(r, s1) := apply now c s in
      let '(rs, s2) := apply_all now cs' s1 in
      (r :: rs, s2)
  end.

(** [pipe.Exec]: the queued commands travel in one round trip; when it
    fails no command reaches the server and no reply is filled in. *)
Definition Exec (now : Z) (cs : list Cmd) (s : Server) : option (list Z) * Server :=
  let '(ok, s1) := roundtrip s in
  if ok then let '(rs, s2) := apply_all now cs s1 in (Some rs, s2)
  else (None, s1).

(** A server with no key, whose round trips fail as [d] says. *)
Definition empty (d : nat → bool) : Server :=
  {| strs := ∅; zsets := ∅; calls := O; down := d |}.

End redis.

(** ** Package blacklist *)

Module blacklist.

Record IPManager := {
  client : option redis.Client;
  blacklistedIPs : gmap string time.Time;
  whitelistedIPs : gmap string bool;
  autoBlacklist : bool;
  threshold : Z;
  blacklistDur : time.Duration;
  redisPrefix : string
}.

Definition NewIPManager (client : option redis.Client) (autoBlacklist : bool)
    (threshold : Z) (blacklistDur : time.Duration) : IPManager :=
  {| client := client;
     blacklistedIPs := ∅;
     whitelistedIPs := ∅;
     autoBlacklist := autoBlacklist;
     threshold := threshold;
     blacklistDur := blacklistDur;
     redisPrefix := "blacklist:" |}.

Definition set_blacklistedIPs (m : gmap string time.Time) (im : IPManager) : IPManager :=
  {| client := client im; blacklistedIPs := m; whitelistedIPs := whitelistedIPs im;
     autoBlacklist := autoBlacklist im; threshold := threshold im;
     blacklistDur := blacklistDur im; redisPrefix := redisPrefix im |}.

Definition set_whitelistedIPs (m : gmap string bool) (im : IPManager) : IPManager :=
  {| client := client im; blacklistedIPs := blacklistedIPs im; whitelistedIPs := m;
     autoBlacklist := autoBlacklist im; threshold := threshold im;
     blacklistDur := blacklistDur im; redisPrefix := redisPrefix im |}.

(** [im.whitelistedIPs[ip]]: a missing key reads as [false]. *)
Definition whitelisted_local (im : IPManager) (ip : string) : bool :=
  default false (whitelistedIPs im !! ip).

Definition IsWhitelisted (im : IPManager) (now : time.Time) (ip : string)
    (srv : redis.Server) : bool * redis.Server :=
  if whitelisted_local im ip then (true, srv)
  else match client im with
       | Some _ =>
           let redisKey := "whitelist:" +:+ ip in
           let '(r, srv1) := redis.Exists now redisKey srv in
           (match r with Some n => 0 <? n | None => false end, srv1)
       | None => (false, srv)
       end.

Definition IsBlacklisted (im : IPManager) (now : time.Time) (ip : string)
    (srv : redis.Server) : bool * IPManager * redis.Server :=
  let '(w, srv1) := IsWhitelisted im now ip srv in
  if w then (false, im, srv1)
  else
    let check_redis (im1 : IPManager) :=
      match client im1 with
      | Some _ =>
          let redisKey := redisPrefix im1 +:+ ip in
          let '(r, srv2) := redis.Exists now redisKey srv1 in
          (match r with Some n => 0 <? n | None => false end, im1, srv2)
      | None => (false, im1, srv1)
      end in
    match blacklistedIPs im !! ip with
    | Some expiry =>
        if time.Before now expiry then (true, im, srv1)
        else check_redis (set_blacklistedIPs (delete ip (blacklistedIPs im)) im)
    | None => check_redis im
    end.

Definition BlacklistIP (im : IPManager) (now : time.Time) (ip : string)
    (duration : time.Duration) (srv : redis.Server)
  : option error * IPManager * redis.Server :=
  if whitelisted_local im ip
  then (Some (Errorf ("cannot blacklist whitelisted IP: " +:+ ip)), im, srv)
  else
    let expiry := time.Add now duration in
    let im1 := set_blacklistedIPs (<[ip := expiry]> (blacklistedIPs im)) im in
    match client im1 with
    | Some _ =>
        let redisKey := redisPrefix im1 +:+ ip in
        let '(e, srv1) := redis.Set_ now redisKey "1" duration srv in
        (e, im1, srv1)
    | None => (None, im1, srv)
    end.

Definition WhitelistIP (im : IPManager) (now : time.Time) (ip : string)
    (srv : redis.Server) : option error * IPManager * redis.Server :=
  let im1 := set_whitelistedIPs (<[ip := true]> (whitelistedIPs im)) im in
  match client im1 with
  | Some _ =>
      let redisKey := "whitelist:" +:+ ip in
      let '(e, srv1) := redis.Set_ now redisKey "1" 0 srv in
      (e, im1, srv1)
  | None => (None, im1, srv)
  end.

Definition RemoveFromBlacklist (im : IPManager) (now : time.Time) (ip : string)
    (srv : redis.Server) : option error * IPManager * redis.Server :=
  let im1 := set_blacklistedIPs (delete ip (blacklistedIPs im)) im in
  match client im1 with
  | Some _ =>
      let redisKey := redisPrefix im1 +:+ ip in
      let '(e, srv1) := redis.Del now redisKey srv in
      (e, im1, srv1)
  | None => (None, im1, srv)
  end.

Definition RemoveFromWhitelist (im : IPManager) (now : time.Time) (ip : string)
    (srv : redis.Server) : option error * IPManager * redis.Server :=
  let im1 := set_whitelistedIPs (delete ip (whitelistedIPs im)) im in
  match client im1 with
  | Some _ =>
      let redisKey := "whitelist:" +:+ ip in
      let '(e, srv1) := redis.Del now redisKey srv in
      (e, im1, srv1)
  | None => (None, im1, srv)
  end.

Definition ShouldAutoBlacklist (im : IPManager) (now : time.Time) (ip : string)
    (requestCount : Z) (srv : redis.Server) : bool * redis.Server :=
  if negb (autoBlacklist im) then (false, srv)
  else
    let '(w, srv1) := IsWhitelisted im now ip srv in
    if w then (false, srv1) else (threshold im <? requestCount, srv1).

Definition CleanupExpiredEntries (im : IPManager) (now : time.Time) : IPManager :=
  set_blacklistedIPs
    (filter (fun kv => negb (time.After now kv.2) = true) (blacklistedIPs im)) im.

Definition GetBlacklistedIPs (im : IPManager) (now : time.Time) : gmap string time.Time :=
  filter (fun kv => time.Before now kv.2 = true) (blacklistedIPs im).

Definition GetWhitelistedIPs (im : IPManager) : list string :=
  (map_to_list (whitelistedIPs im)).*1.

End blacklist.

(** ** Package rate (golang.org/x/time/rate) *)

Module rate.

(** Modelled from the spec: the token bucket of golang.org/x/time/rate is an
    external library, not under src/.  Section 4.2: a bucket is created with
    [tokens = B]; on allow it is refilled by [(now - last_refill) * rate]
    clamped to [B], then if [tokens >= 1] one token is taken and the answer
    is true, else the answer is false.  Tokens are exact rationals here,
    and the rate, a [float64], is read as the rational it stands for. *)
Record Limiter := {
  limit : float64.t;    (* tokens per second *)
  burst : Z;
  tokens : Q;
  last : time.Time
}.

Definition NewLimiter (now : time.Time) (r : float64.t) (b : Z) : Limiter :=
  {| limit := r; burst := b; tokens := inject_Z b; last := now |}.

Definition Allow (l : Limiter) (now : time.Time) : bool * Limiter :=
  let elapsed := (inject_Z (time.Sub now (last l)) / inject_Z time.Second)%Q in
  let refilled :=
    Qmin (inject_Z (burst l)) (tokens l + elapsed * float64.to_Q (limit l))%Q in
  if Qle_bool 1 refilled
  then (true, {| limit := limit l; burst := burst l; tokens := (refilled - 1)%Q; last := now |})
  else (false, {| limit := limit l; burst := burst l; tokens := refilled; last := now |}).

End rate.

(** ** Package ratelimit *)

Module ratelimit.

(** The interface [Limiter]. *)
Class Limiter (L : Type) := {
  Allow : L → time.Time → string → redis.Server → bool * L * redis.Server;
  GetLimit : L → Z;
  GetBurst : L → Z
}.

Module TokenBucketLimiter.

Record t := {
  limiters : gmap string rate.Limiter;
  limit : float64.t;
  burst : Z
}.

Definition New (requestsPerMinute burstSize : Z) : t :=
  {| limiters := ∅;
     limit := float64.div (float64.of_int requestsPerMinute) (float64.of_int 60);
     burst := burstSize |}.

Definition Allow (tbl : t) (now : time.Time) (key : string) : bool * t :=
  let limiter :=
    match limiters tbl !! key with
    | Some l => l
    | None => rate.NewLimiter now (limit tbl) (burst tbl)
    end in
  let '(ok, limiter') := rate.Allow limiter now in
  (ok, {| limiters := <[key := limiter']> (limiters tbl);
          limit := limit tbl; burst := burst tbl |}).

Definition GetLimit (tbl : t) : Z :=
  float64.to_int (float64.mul (limit tbl) (float64.of_int 60)).

Definition GetBurst (tbl : t) : Z := burst tbl.

End TokenBucketLimiter.

Module RedisLimiter.

Record t := {
  client : redis.Client;
  limit : Z;
  window : time.Duration;
  prefix : string
}.

Definition New (client : redis.Client) (limit : Z) (window : time.Duration) : t :=
  {| client := client; limit := limit; window := window; prefix := "rate_limit:" |}.

(** The four commands queued by [Allow] at the instant [now]. *)
Definition pipeline (rl : t) (now : time.Time) (redisKey : string) : list redis.Cmd :=
  [ redis.ZRemRangeByScore redisKey 0 (time.Unix (time.Add now (- window rl)));
    redis.ZCard redisKey;
    redis.ZAdd redisKey (time.Unix now) (time.UnixNano now);
    redis.Expire redisKey (window rl) ].

Definition Allow (rl : t) (now : time.Time) (key : string) (srv : redis.Server)
  : bool * redis.Server :=
  let redisKey := prefix rl +:+ key in
  let '(r, srv1) := redis.Exec now (pipeline rl now redisKey) srv in
  match r with
  | None => (true, srv1)                       (* fail-open *)
  | Some replies => (nth 1 replies 0 <? limit rl, srv1)
  end.

Definition GetLimit (rl : t) : Z := limit rl.

Definition GetBurst (rl : t) : Z := float64.to_int (time.Seconds (window rl)).

End RedisLimiter.

Module SlidingWindowLimiter.

Record t := {
  requests : gmap string (list time.Time);
  limit : Z;
  window : time.Duration
}.

Definition New (limit : Z) (window : time.Duration) : t :=
  {| requests := ∅; limit := limit; window := window |}.

Definition Allow (swl : t) (now : time.Time) (key : string) : bool * t :=
  let cutoff := time.Add now (- window swl) in
  let requests_ := default [] (requests swl !! key) in
  let validRequests := List.filter (fun reqTime => time.After reqTime cutoff) requests_ in
  if limit swl <=? Z.of_nat (length validRequests) then (false, swl)
  else (true, {| requests := <[key := validRequests ++ [now]]> (requests swl);
                 limit := limit swl; window := window swl |}).

Definition GetLimit (swl : t) : Z := limit swl.

Definition GetBurst (swl : t) : Z := float64.to_int (time.Seconds (window swl)).

(** [Cleanup]: every key keeps its instants after the cutoff, [now] minus
    twice the window, a product of 64 bits; a key left with none is
    deleted. *)
Definition Cleanup (swl : t) (now : time.Time) : t :=
  let cutoff := time.Add now (wrap64 (- window swl * 2)) in
  {| requests :=
       omap (fun requests_ =>
               match List.filter (fun reqTime => time.After reqTime cutoff) requests_ with
               | [] => None
               | validRequests => Some validRequests
               end) (requests swl);
     limit := limit swl; window := window swl |}.

End SlidingWindowLimiter.

#[global] Instance TokenBucket_Limiter : Limiter TokenBucketLimiter.t := {
  Allow l now key srv := let '(b, l') := TokenBucketLimiter.Allow l now key in (b, l', srv);
  GetLimit := TokenBucketLimiter.GetLimit;
  GetBurst := TokenBucketLimiter.GetBurst
}.

#[global] Instance Redis_Limiter : Limiter RedisLimiter.t := {
  Allow l now key srv := let '(b, srv') := RedisLimiter.Allow l now key srv in (b, l, srv');
  GetLimit := RedisLimiter.GetLimit;
  GetBurst := RedisLimiter.GetBurst
}.

#[global] Instance SlidingWindow_Limiter : Limiter SlidingWindowLimiter.t := {
  Allow l now key srv := let '(b, l') := SlidingWindowLimiter.Allow l now key in (b, l', srv);
  GetLimit := SlidingWindowLimiter.GetLimit;
  GetBurst := SlidingWindowLimiter.GetBurst
}.

End ratelimit.

(** ** Package net/http: requests and their headers *)

Module http.

(** The bytes allowed in a header field name (RFC 7230 token). *)
Definition validHeaderFieldByte (c : ascii) : bool :=
  let n := nat_of_ascii c in
  strings.isUpper c || strings.isLower c || ((48 <=? n) && (n <=? 57))%nat ||
  existsb (Ascii.eqb c)
    ["!"; "#"; "$"; "%"; "&"; "'"; "*"; "+"; "-"; "."; "^"; "_"; "`"; "|"; "~"]%char.

Fixpoint forall_bytes (p : ascii → bool) (s : string) : bool :=
  match s with
  | EmptyString => true
  | String c s' => p c && forall_bytes p s'
  end.

Fixpoint exists_byte (p : ascii → bool) (s : string) : bool :=
  match s with
  | EmptyString => false
  | String c s' => p c || exists_byte p s'
  end.

Fixpoint canonical (upper : bool) (s : string) : string :=
  match s with
  | EmptyString => EmptyString
  | String c s' =>
      let c' := if upper then strings.toUpper c else strings.toLower c in
      String c' (canonical (Ascii.eqb c' "-") s')
  end.

(** [textproto.CanonicalMIMEHeaderKey]: a key with a byte that is no token
    byte is returned unchanged. *)
Definition CanonicalMIMEHeaderKey (s : string) : string :=
  if forall_bytes validHeaderFieldByte s then canonical true s else s.

(** [http.Header] is a [map[string][]string]. *)
Abbreviation Header := (gmap string (list string)).

(** [h.Get(key)]: the first value stored under the canonical form of [key]. *)
Definition Get (h : Header) (key : string) : string :=
  match h !! CanonicalMIMEHeaderKey key with
  | Some (v :: _) => v
  | _ => EmptyString
  end.

Record Request := {
  Method : string;
  Path : string;              (* req.URL.Path *)
  RawQuery : string;          (* req.URL.RawQuery *)
  Header_ : Header;
  RemoteAddr : string;
  ContentLength : Z
}.

Definition UserAgent (req : Request) : string := Get (Header_ req) "User-Agent".

(** The header map the server hands to a handler has canonical keys. *)
Definition canonical_keys (h : Header) : Prop :=
  ∀ k vs, h !! k = Some vs → CanonicalMIMEHeaderKey k = k.

Definition canonical_keysb (h : Header) : bool :=
  forallb (fun kv : string * list string => String.eqb (CanonicalMIMEHeaderKey kv.1) kv.1)
          (map_to_list h).

Definition StatusOK : Z := 200.
Definition StatusBadRequest : Z := 400.
Definition StatusForbidden : Z := 403.
Definition StatusTooManyRequests : Z := 429.

End http.

(** ** Package regexp: the fragment the built-in patterns are written in *)

Module regexp.

(** A compiled expression, over the bytes of the text.  A rune that is not
    ASCII is the sequence of its bytes in UTF-8; the expressions below begin
    with a literal, which matches at the first byte of a rune only, and
    their classes [.] and [[^>]] stand under a star, where the bytes they
    match are those of whole runes. *)
Inductive Regexp :=
| Fail                                   (* matches nothing *)
| Empty                                  (* matches the empty string *)
| Char (p : ascii → bool)                (* one byte of a class *)
| Cat (r1 r2 : Regexp)
| Alt (r1 r2 : Regexp)
| Star (r : Regexp).

Fixpoint nullable (r : Regexp) : bool :=
  match r with
  | Fail => false
  | Empty => true
  | Char _ => false
  | Cat r1 r2 => nullable r1 && nullable r2
  | Alt r1 r2 => nullable r1 || nullable r2
  | Star _ => true
  end.

Definition cat (r1 r2 : Regexp) : Regexp :=
  match r1, r2 with
  | Fail, _ => Fail
  | _, Fail => Fail
  | Empty, _ => r2
  | _, _ => Cat r1 r2
  end.

Definition alt (r1 r2 : Regexp) : Regexp :=
  match r1, r2 with
  | Fail, _ => r2
  | _, Fail => r1
  | _, _ => Alt r1 r2
  end.

(** Brzozowski derivative: what is left to match after the byte [c]. *)
Fixpoint deriv (c : ascii) (r : Regexp) : Regexp :=
  match r with
  | Fail => Fail
  | Empty => Fail
  | Char p => if p c then Empty else Fail
  | Cat r1 r2 =>
      alt (cat (deriv c r1) r2) (if nullable r1 then deriv c r2 else Fail)
  | Alt r1 r2 => alt (deriv c r1) (deriv c r2)
  | Star r1 => cat (deriv c r1) (Star r1)
  end.

(** Some prefix of [s] matches [r]. *)
Fixpoint matchPrefix (r : Regexp) (s : string) : bool :=
  nullable r ||
  match s with
  | EmptyString => false
  | String c s' => matchPrefix (deriv c r) s'
  end.

(** [re.MatchString(s)]: some substring of [s] matches. *)
Fixpoint MatchString (r : Regexp) (s : string) : bool :=
  matchPrefix r s ||
  match s with
  | EmptyString => false
  | String _ s' => MatchString r s'
  end.

(** Building blocks of the pattern syntax. *)
Fixpoint lit (s : string) : Regexp :=           (* literal text *)
  match s with
  | EmptyString => Empty
  | String c s' => Cat (Char (Ascii.eqb c)) (lit s')
  end.

(** The runes that are not ASCII and that the flag [i] folds onto a letter,
    as their bytes in UTF-8: U+017F, the long s, and U+212A, the Kelvin
    sign. *)
Definition longS : Regexp := lit (String "197" (String "191" EmptyString)).
Definition kelvin : Regexp :=
  lit (String "226" (String "132" (String "170" EmptyString))).

Definition foldRunes (c : ascii) : Regexp :=
  if Ascii.eqb (strings.toLower c) "s" then longS
  else if Ascii.eqb (strings.toLower c) "k" then kelvin
  else Fail.

Fixpoint liti (s : string) : Regexp :=          (* literal text under (?i) *)
  match s with
  | EmptyString => Empty
  | String c s' =>
      Cat (alt (Char (fun x => Ascii.eqb (strings.toLower x) (strings.toLower c)))
               (foldRunes c))
          (liti s')
  end.

Fixpoint alts (rs : list Regexp) : Regexp :=    (* r1|r2|... *)
  match rs with
  | [] => Fail
  | [r] => r
  | r :: rs' => Alt r (alts rs')
  end.

Definition any : Regexp := Char (fun c => negb (Ascii.eqb c "010")).       (* . *)
Definition space : Regexp :=                                               (* \s *)
  Char (fun c => existsb (Ascii.eqb c) ["009"; "010"; "012"; "013"; " "]%char).
Definition word : Regexp :=                                                (* \w *)
  Char (fun c => strings.isUpper c || strings.isLower c || Ascii.eqb c "_" ||
                 ((48 <=? nat_of_ascii c) && (nat_of_ascii c <=? 57))%nat).
Definition wordi : Regexp := Alt word (Alt longS kelvin).                  (* \w under (?i) *)
Definition notChar (c : ascii) : Regexp := Char (fun x => negb (Ascii.eqb x c)).
Definition plus (r : Regexp) : Regexp := Cat r (Star r).                   (* r+ *)

Fixpoint seq (rs : list Regexp) : Regexp :=     (* concatenation *)
  match rs with
  | [] => Empty
  | [r] => r
  | r :: rs' => Cat r (seq rs')
  end.

End regexp.

(** ** Package filter *)

Module filter.

Record RequestFilter := {
  maxRequestSize : Z;
  suspiciousHeaders : list string;
  blockedUserAgents : list string;
  blockedUserAgentRe : list regexp.Regexp;
  maliciousPatterns : list regexp.Regexp;
  requestHistory : gmap string (list time.Time);
  historyWindow : time.Duration;
  maxRequestsPerWindow : Z
}.

Record FilterResult := {
  Allowed : bool;
  Reason : string;
  RiskScore : Z;
  Blocked : bool;
  ShouldLog : bool
}.

(** The eleven patterns of [initMaliciousPatterns], in the order of the
    source; each comment is the pattern as the source writes it. *)
Definition builtinPatterns : list regexp.Regexp :=
  [ (* (?i)(union|select|insert|update|delete|drop|create|alter|exec|execute).*from *)
    regexp.seq [regexp.alts (List.map regexp.liti
                  ["union"; "select"; "insert"; "update"; "delete"; "drop";
                   "create"; "alter"; "exec"; "execute"]);
                regexp.Star regexp.any; regexp.liti "from"];
    (* (?i)(or|and).*1\s*=\s*1 *)
    regexp.seq [regexp.alts (List.map regexp.liti ["or"; "and"]);
                regexp.Star regexp.any; regexp.liti "1";
                regexp.Star regexp.space; regexp.liti "=";
                regexp.Star regexp.space; regexp.liti "1"];
    (* (?i)(or|and).*'1'\s*=\s*'1' *)
    regexp.seq [regexp.alts (List.map regexp.liti ["or"; "and"]);
                regexp.Star regexp.any; regexp.liti "'1'";
                regexp.Star regexp.space; regexp.liti "=";
                regexp.Star regexp.space; regexp.liti "'1'"];
    (* (?i)<script[^>]*>.*</script> *)
    regexp.seq [regexp.liti "<script"; regexp.Star (regexp.notChar ">");
                regexp.liti ">"; regexp.Star regexp.any; regexp.liti "</script>"];
    (* (?i)javascript: *)
    regexp.liti "javascript:";
    (* (?i)on\w+\s*= *)
    regexp.seq [regexp.liti "on"; regexp.plus regexp.wordi;
                regexp.Star regexp.space; regexp.liti "="];
    (* \.\./ *)
    regexp.lit "../";
    (* \.\.\\ : two dots and a backslash (byte 92) *)
    regexp.lit (String "." (String "." (String "092" EmptyString)));
    (* (?i)(cmd|command|exec|system|shell) *)
    regexp.alts (List.map regexp.liti ["cmd"; "command"; "exec"; "system"; "shell"]);
    (* \.(php|asp|jsp|cgi|sh|bat|exe|scr) *)
    regexp.seq [regexp.lit ".";
                regexp.alts (List.map regexp.lit
                  ["php"; "asp"; "jsp"; "cgi"; "sh"; "bat"; "exe"; "scr"])];
    (* (?i)(nmap|nikto|sqlmap|burp|w3af|nessus) *)
    regexp.alts (List.map regexp.liti
                  ["nmap"; "nikto"; "sqlmap"; "burp"; "w3af"; "nessus"]) ].

(** [Compile] stands for [regexp.Compile]; an expression that does not
    compile is skipped. *)
Definition NewRequestFilter (Compile : string → option regexp.Regexp)
    (maxRequestSize : Z) (suspiciousHeaders blockedUserAgents : list string)
  : RequestFilter :=
  {| maxRequestSize := maxRequestSize;
     suspiciousHeaders := suspiciousHeaders;
     blockedUserAgents := blockedUserAgents;
     blockedUserAgentRe := omap (fun ua => Compile ("(?i)" +:+ ua)) blockedUserAgents;
     maliciousPatterns := builtinPatterns;
     requestHistory := ∅;
     historyWindow := 5 * time.Minute;
     maxRequestsPerWindow := 100 |}.

Definition set_requestHistory (m : gmap string (list time.Time)) (rf : RequestFilter)
  : RequestFilter :=
  {| maxRequestSize := maxRequestSize rf;
     suspiciousHeaders := suspiciousHeaders rf;
     blockedUserAgents := blockedUserAgents rf;
     blockedUserAgentRe := blockedUserAgentRe rf;
     maliciousPatterns := maliciousPatterns rf;
     requestHistory := m;
     historyWindow := historyWindow rf;
     maxRequestsPerWindow := maxRequestsPerWindow rf |}.

Definition isBlockedUserAgent (rf : RequestFilter) (userAgent : string) : bool :=
  existsb (fun re => regexp.MatchString re userAgent) (blockedUserAgentRe rf).

Definition hasMaliciousPattern (rf : RequestFilter) (text : string) : bool :=
  existsb (fun pattern => regexp.MatchString pattern text) (maliciousPatterns rf).

(** The map is indexed with the lower-case names as they are written. *)
Definition hasHeaderManipulation (rf : RequestFilter) (headers : http.Header) : bool :=
  let singleValueHeaders := ["host"; "content-type"; "content-length"] in
  if existsb (fun header => (1 <? length (default [] (headers !! header)))%nat)
             singleValueHeaders
  then true
  else existsb (fun kv : string * list string =>
                  existsb (fun value => strings.Contains value (String "000" EmptyString))
                          kv.2)
               (map_to_list headers).

Definition checkSuspiciousHeaders (rf : RequestFilter) (headers : http.Header)
  : list string :=
  let suspicious :=
    List.filter (fun header =>
                   match headers !! header with
                   | Some values => existsb (hasMaliciousPattern rf) values
                   | None => false
                   end)
                (suspiciousHeaders rf) in
  if hasHeaderManipulation rf headers
  then suspicious ++ ["header_manipulation"]
  else suspicious.

Definition isHighFrequency (rf : RequestFilter) (now : time.Time) (ip : string) : bool :=
  let cutoff := time.Add now (- historyWindow rf) in
  match requestHistory rf !! ip with
  | None => false
  | Some requests =>
      let count :=
        length (List.filter (fun reqTime => time.After reqTime cutoff) requests) in
      maxRequestsPerWindow rf <? Z.of_nat count
  end.

Definition updateRequestHistory (rf : RequestFilter) (now : time.Time) (ip : string)
  : RequestFilter :=
  let cutoff := time.Add now (- historyWindow rf) in
  let requests := default [] (requestHistory rf !! ip) in
  let validRequests := List.filter (fun reqTime => time.After reqTime cutoff) requests in
  set_requestHistory (<[ip := validRequests ++ [now]]> (requestHistory rf)) rf.

Definition isSuspiciousMethod (rf : RequestFilter) (method : string) : bool :=
  existsb (fun suspicious => strings.EqualFold method suspicious)
          ["TRACE"; "DEBUG"; "OPTIONS"].

Definition hasMissingHeaders (rf : RequestFilter) (headers : http.Header) : bool :=
  existsb (fun header => String.eqb (http.Get headers header) EmptyString)
          ["user-agent"].

(** The result after the header check, the third step of [FilterRequest]. *)
Definition afterHeaders (rf : RequestFilter) (req : http.Request) : FilterResult :=
  let suspiciousHeaders := checkSuspiciousHeaders rf (http.Header_ req) in
  if (0 <? length suspiciousHeaders)%nat
  then {| Allowed := true;
          Reason := "Suspicious headers: " +:+ strings.Join suspiciousHeaders ", ";
          RiskScore := add64 0 (wrap64 (Z.of_nat (length suspiciousHeaders) * 10));
          Blocked := false;
          ShouldLog := true |}
  else {| Allowed := true; Reason := "Request allowed"; RiskScore := 0;
          Blocked := false; ShouldLog := false |}.

(** The steps after the frequency check: method, missing headers, history
    update and the final decision on the accumulated score. *)
Definition afterFrequency (rf : RequestFilter) (now : time.Time) (req : http.Request)
    (result : FilterResult) : FilterResult * RequestFilter :=
  let r1 :=
    if isSuspiciousMethod rf (http.Method req)
    then {| Allowed := Allowed result; Reason := Reason result;
            RiskScore := add64 (RiskScore result) 15;
            Blocked := Blocked result; ShouldLog := true |}
    else result in
  let r2 :=
    if hasMissingHeaders rf (http.Header_ req)
    then {| Allowed := Allowed r1; Reason := Reason r1;
            RiskScore := add64 (RiskScore r1) 10;
            Blocked := Blocked r1; ShouldLog := true |}
    else r1 in
  let rf' := updateRequestHistory rf now (http.RemoteAddr req) in
  if 100 <? RiskScore r2
  then ({| Allowed := false;
           Reason := "High risk score: " +:+ pretty (RiskScore r2);
           RiskScore := RiskScore r2; Blocked := true; ShouldLog := ShouldLog r2 |}, rf')
  else (r2, rf').

Definition FilterRequest (rf : RequestFilter) (now : time.Time) (req : http.Request)
  : FilterResult * RequestFilter :=
  if maxRequestSize rf <? http.ContentLength req
  then ({| Allowed := false; Reason := "Request size exceeds limit";
           RiskScore := 50; Blocked := true; ShouldLog := false |}, rf)
  else if isBlockedUserAgent rf (http.UserAgent req)
  then ({| Allowed := false; Reason := "Blocked user agent";
           RiskScore := 30; Blocked := true; ShouldLog := false |}, rf)
  else
    let result := afterHeaders rf req in
    if hasMaliciousPattern rf (http.Path req +:+ http.RawQuery req)
    then ({| Allowed := false; Reason := "Malicious pattern detected in URL";
             RiskScore := add64 (RiskScore result) 80; Blocked := true;
             ShouldLog := ShouldLog result |}, rf)
    else if isHighFrequency rf now (http.RemoteAddr req)
    then
      let risk := add64 (RiskScore result) 20 in
      if 50 <? risk
      then ({| Allowed := false; Reason := "High frequency requests detected";
               RiskScore := risk; Blocked := true; ShouldLog := true |}, rf)
      else afterFrequency rf now req
             {| Allowed := Allowed result; Reason := Reason result;
                RiskScore := risk; Blocked := Blocked result; ShouldLog := true |}
    else afterFrequency rf now req result.

Definition CleanupExpiredEntries (rf : RequestFilter) (now : time.Time) : RequestFilter :=
  let cutoff := time.Add now (- historyWindow rf) in
  set_requestHistory
    (omap (fun requests =>
             match List.filter (fun reqTime => time.After reqTime cutoff) requests with
             | [] => None
             | validRequests => Some validRequests
             end)
          (requestHistory rf)) rf.

End filter.

(** ** Package botnet *)

Module botnet.

(** [m[k]++] on a [map[string]int]. *)
Definition incr (k : string) (m : gmap string Z) : gmap string Z :=
  <[k := add64 (default 0 (m !! k)) 1]> m.

Module IPBehavior.
Record t := {
  IP : string;
  RequestCount : Z;
  FirstSeen : time.Time;
  LastSeen : time.Time;
  UserAgents : gmap string Z;
  RequestPaths : gmap string Z;
  ResponseTimes : list time.Duration;
  RequestIntervals : list time.Duration;
  HasJavascript : bool;
  HasCSS : bool;
  HasImages : bool;
  HasFavicon : bool;
  HasRobotsTxt : bool;
  HasSitemap : bool
}.
End IPBehavior.

Module GlobalPatterns.
Record t := {
  TotalRequests : Z;
  CommonUserAgents : gmap string Z;
  CommonPaths : gmap string Z;
  GeographicSpread : gmap string Z;
  NetworkSpread : gmap string Z
}.
End GlobalPatterns.

Module NetworkStats.
Record t := {
  Network : string;
  IPCount : Z;
  RequestCount : Z;
  AvgResponseTime : time.Duration;
  FirstSeen : time.Time
}.
End NetworkStats.

Module BurstPattern.
Record t := {
  StartTime : time.Time;
  EndTime : time.Time;
  IPCount : Z;
  RequestCount : Z
}.
End BurstPattern.

Module BotnetAnalysis.
Record t := {
  IP : string;
  Timestamp : time.Time;
  IsBotnet : bool;
  Confidence : float64.t;
  Indicators : list string;
  RiskScore : Z
}.

(** [analysis.Indicators = append(analysis.Indicators, label);
     analysis.RiskScore += risk]. *)
Definition flag (label : string) (risk : Z) (a : t) : t :=
  {| IP := IP a; Timestamp := Timestamp a; IsBotnet := IsBotnet a;
     Confidence := Confidence a;
     Indicators := Indicators a ++ [label];
     RiskScore := add64 (RiskScore a) risk |}.
End BotnetAnalysis.

(** The fields [geographicData] and [requestIntervals] of the detector, and
    the float fields [SuspiciousScore], [Intensity], [Coordination] and
    [Normal...] of its records are never read nor written; they are left
    out. *)
Record BotnetDetector := {
  requestPatterns : gmap string IPBehavior.t;
  globalPatterns : GlobalPatterns.t;
  networkRanges : gmap string NetworkStats.t;
  burstPatterns : gmap string BurstPattern.t;
  detectionThreshold : float64.t;
  analysisWindow : time.Duration
}.

Definition NewBotnetDetector (threshold : float64.t) (window : time.Duration)
  : BotnetDetector :=
  {| requestPatterns := ∅;
     globalPatterns :=
       {| GlobalPatterns.TotalRequests := 0;
          GlobalPatterns.CommonUserAgents := ∅;
          GlobalPatterns.CommonPaths := ∅;
          GlobalPatterns.GeographicSpread := ∅;
          GlobalPatterns.NetworkSpread := ∅ |};
     networkRanges := ∅;
     burstPatterns := ∅;
     detectionThreshold := threshold;
     analysisWindow := window |}.

Definition set_requestPatterns (m : gmap string IPBehavior.t) (bd : BotnetDetector)
  : BotnetDetector :=
  {| requestPatterns := m; globalPatterns := globalPatterns bd;
     networkRanges := networkRanges bd; burstPatterns := burstPatterns bd;
     detectionThreshold := detectionThreshold bd; analysisWindow := analysisWindow bd |}.

Definition set_globalPatterns (g : GlobalPatterns.t) (bd : BotnetDetector)
  : BotnetDetector :=
  {| requestPatterns := requestPatterns bd; globalPatterns := g;
     networkRanges := networkRanges bd; burstPatterns := burstPatterns bd;
     detectionThreshold := detectionThreshold bd; analysisWindow := analysisWindow bd |}.

Definition set_networkRanges (m : gmap string NetworkStats.t) (bd : BotnetDetector)
  : BotnetDetector :=
  {| requestPatterns := requestPatterns bd; globalPatterns := globalPatterns bd;
     networkRanges := m; burstPatterns := burstPatterns bd;
     detectionThreshold := detectionThreshold bd; analysisWindow := analysisWindow bd |}.

Definition set_burstPatterns (m : gmap string BurstPattern.t) (bd : BotnetDetector)
  : BotnetDetector :=
  {| requestPatterns := requestPatterns bd; globalPatterns := globalPatterns bd;
     networkRanges := networkRanges bd; burstPatterns := m;
     detectionThreshold := detectionThreshold bd; analysisWindow := analysisWindow bd |}.

Definition getCountryFromIP (ip : string) : string :=
  match strings.Split ip "." with
  | p0 :: p1 :: _ => p0 +:+ "." +:+ p1
  | _ => "unknown"
  end.

Definition getNetworkFromIP (ip : string) : string :=
  match strings.Split ip "." with
  | p0 :: p1 :: p2 :: _ => p0 +:+ "." +:+ p1 +:+ "." +:+ p2
  | _ => "unknown"
  end.

(** The sum of the durations, then a division that truncates. *)
Definition calculateAverageResponseTime (times : list time.Duration) : time.Duration :=
  match times with
  | [] => 0
  | _ => Z.quot (fold_left add64 times 0) (Z.of_nat (length times))
  end.

Definition calculateAverageInterval (intervals : list time.Duration) : time.Duration :=
  match intervals with
  | [] => 0
  | _ => Z.quot (fold_left add64 intervals 0) (Z.of_nat (length intervals))
  end.

(** The behaviour record of [ip], created on first sighting. *)
Definition getOrCreateIPBehavior (bd : BotnetDetector) (now : time.Time) (ip : string)
  : IPBehavior.t :=
  match requestPatterns bd !! ip with
  | Some behavior => behavior
  | None =>
      {| IPBehavior.IP := ip;
         IPBehavior.RequestCount := 0;
         IPBehavior.FirstSeen := now;
         IPBehavior.LastSeen := now;
         IPBehavior.UserAgents := ∅;
         IPBehavior.RequestPaths := ∅;
         IPBehavior.ResponseTimes := [];
         IPBehavior.RequestIntervals := [];
         IPBehavior.HasJavascript := false;
         IPBehavior.HasCSS := false;
         IPBehavior.HasImages := false;
         IPBehavior.HasFavicon := false;
         IPBehavior.HasRobotsTxt := false;
         IPBehavior.HasSitemap := false |}
  end.

(** [append(l, x)] kept to its last hundred elements. *)
Definition push100 (l : list time.Duration) (x : time.Duration) : list time.Duration :=
  let l' := l ++ [x] in
  if (100 <? length l')%nat then List.tl l' else l'.

Definition updateBehavioralIndicators (behavior : IPBehavior.t) (path : string)
  : IPBehavior.t :=
  {| IPBehavior.IP := IPBehavior.IP behavior;
     IPBehavior.RequestCount := IPBehavior.RequestCount behavior;
     IPBehavior.FirstSeen := IPBehavior.FirstSeen behavior;
     IPBehavior.LastSeen := IPBehavior.LastSeen behavior;
     IPBehavior.UserAgents := IPBehavior.UserAgents behavior;
     IPBehavior.RequestPaths := IPBehavior.RequestPaths behavior;
     IPBehavior.ResponseTimes := IPBehavior.ResponseTimes behavior;
     IPBehavior.RequestIntervals := IPBehavior.RequestIntervals behavior;
     IPBehavior.HasJavascript :=
       if strings.Contains path "/static/" || strings.Contains path ".js"
       then true else IPBehavior.HasJavascript behavior;
     IPBehavior.HasCSS :=
       if strings.Contains path ".css" then true else IPBehavior.HasCSS behavior;
     IPBehavior.HasImages :=
       if strings.Contains path ".png" || strings.Contains path ".jpg" ||
          strings.Contains path ".gif"
       then true else IPBehavior.HasImages behavior;
     IPBehavior.HasFavicon :=
       if strings.Contains path "favicon.ico" then true else IPBehavior.HasFavicon behavior;
     IPBehavior.HasRobotsTxt :=
       if strings.Contains path "robots.txt" then true else IPBehavior.HasRobotsTxt behavior;
     IPBehavior.HasSitemap :=
       if strings.Contains path "sitemap.xml" then true else IPBehavior.HasSitemap behavior |}.

Definition updateIPBehavior (behavior : IPBehavior.t) (now : time.Time)
    (userAgent path : string) (responseTime : time.Duration) : IPBehavior.t :=
  let intervals :=
    if negb (time.IsZero (IPBehavior.LastSeen behavior))
    then push100 (IPBehavior.RequestIntervals behavior)
                 (time.Sub now (IPBehavior.LastSeen behavior))
    else IPBehavior.RequestIntervals behavior in
  updateBehavioralIndicators
    {| IPBehavior.IP := IPBehavior.IP behavior;
       IPBehavior.RequestCount := add64 (IPBehavior.RequestCount behavior) 1;
       IPBehavior.FirstSeen := IPBehavior.FirstSeen behavior;
       IPBehavior.LastSeen := now;
       IPBehavior.UserAgents := incr userAgent (IPBehavior.UserAgents behavior);
       IPBehavior.RequestPaths := incr path (IPBehavior.RequestPaths behavior);
       IPBehavior.ResponseTimes := push100 (IPBehavior.ResponseTimes behavior) responseTime;
       IPBehavior.RequestIntervals := intervals;
       IPBehavior.HasJavascript := IPBehavior.HasJavascript behavior;
       IPBehavior.HasCSS := IPBehavior.HasCSS behavior;
       IPBehavior.HasImages := IPBehavior.HasImages behavior;
       IPBehavior.HasFavicon := IPBehavior.HasFavicon behavior;
       IPBehavior.HasRobotsTxt := IPBehavior.HasRobotsTxt behavior;
       IPBehavior.HasSitemap := IPBehavior.HasSitemap behavior |}
    path.

Definition updateGlobalPatterns (bd : BotnetDetector) (ip userAgent path : string)
  : BotnetDetector :=
  let patterns := globalPatterns bd in
  set_globalPatterns
    {| GlobalPatterns.TotalRequests := add64 (GlobalPatterns.TotalRequests patterns) 1;
       GlobalPatterns.CommonUserAgents :=
         incr userAgent (GlobalPatterns.CommonUserAgents patterns);
       GlobalPatterns.CommonPaths := incr path (GlobalPatterns.CommonPaths patterns);
       GlobalPatterns.GeographicSpread :=
         incr (getCountryFromIP ip) (GlobalPatterns.GeographicSpread patterns);
       GlobalPatterns.NetworkSpread :=
         incr (getNetworkFromIP ip) (GlobalPatterns.NetworkSpread patterns) |} bd.

Definition when (c : bool) (f : BotnetAnalysis.t → BotnetAnalysis.t)
    (a : BotnetAnalysis.t) : BotnetAnalysis.t :=
  if c then f a else a.

Definition analyzeBehavior (behavior : IPBehavior.t) (analysis : BotnetAnalysis.t)
  : BotnetAnalysis.t :=
  let n := IPBehavior.RequestCount behavior in
  let a1 := when ((20 <? n) && negb (IPBehavior.HasJavascript behavior))
                 (BotnetAnalysis.flag "No JavaScript requests" 20) analysis in
  let a2 := when ((20 <? n) && negb (IPBehavior.HasCSS behavior))
                 (BotnetAnalysis.flag "No CSS requests" 15) a1 in
  let a3 := when (50 <? n)
                 (BotnetAnalysis.flag "Very high request frequency" 25) a2 in
  let a4 := when ((20 <? n) && negb (IPBehavior.HasImages behavior))
                 (BotnetAnalysis.flag "No image requests" 10) a3 in
  let a5 := when ((size (IPBehavior.UserAgents behavior) =? 1)%nat && (20 <? n))
                 (BotnetAnalysis.flag "Single user agent" 10) a4 in
  let a6 := when ((20 <? length (IPBehavior.ResponseTimes behavior))%nat &&
                  (calculateAverageResponseTime (IPBehavior.ResponseTimes behavior)
                     <? 5 * time.Millisecond))
                 (BotnetAnalysis.flag "Suspiciously fast response times" 15) a5 in
  when ((20 <? length (IPBehavior.RequestIntervals behavior))%nat &&
        (calculateAverageInterval (IPBehavior.RequestIntervals behavior)
           <? 50 * time.Millisecond))
       (BotnetAnalysis.flag "Suspiciously regular intervals" 15) a6.

Definition analyzeNetwork (bd : BotnetDetector) (now : time.Time) (ip : string)
    (analysis : BotnetAnalysis.t) : BotnetAnalysis.t * BotnetDetector :=
  let network := getNetworkFromIP ip in
  let networkStats :=
    match networkRanges bd !! network with
    | Some ns => ns
    | None => {| NetworkStats.Network := network; NetworkStats.IPCount := 0;
                 NetworkStats.RequestCount := 0; NetworkStats.AvgResponseTime := 0;
                 NetworkStats.FirstSeen := now |}
    end in
  let networkStats' :=
    {| NetworkStats.Network := NetworkStats.Network networkStats;
       NetworkStats.IPCount := add64 (NetworkStats.IPCount networkStats) 1;
       NetworkStats.RequestCount := NetworkStats.RequestCount networkStats;
       NetworkStats.AvgResponseTime := NetworkStats.AvgResponseTime networkStats;
       NetworkStats.FirstSeen := NetworkStats.FirstSeen networkStats |} in
  (when (100 <? NetworkStats.IPCount networkStats')
        (BotnetAnalysis.flag "High IP count from network" 30) analysis,
   set_networkRanges (<[network := networkStats']> (networkRanges bd)) bd).

Definition analyzeTiming (bd : BotnetDetector) (now : time.Time) (ip : string)
    (analysis : BotnetAnalysis.t) : BotnetAnalysis.t :=
  let windowStart := time.Add now (- analysisWindow bd) in
  let requestCount :=
    size (filter (fun kv => time.After (IPBehavior.LastSeen kv.2) windowStart = true)
                 (requestPatterns bd)) in
  when ((1000 <? requestCount)%nat && (time.Second_of now mod 10 =? 0))
       (BotnetAnalysis.flag "Coordinated timing pattern" 40) analysis.

Definition analyzeGlobalPatterns (bd : BotnetDetector) (analysis : BotnetAnalysis.t)
  : BotnetAnalysis.t :=
  let patterns := globalPatterns bd in
  let a1 := when (50 <? size (GlobalPatterns.GeographicSpread patterns))%nat
                 (BotnetAnalysis.flag "Unusual geographic distribution" 25) analysis in
  when (100 <? size (GlobalPatterns.NetworkSpread patterns))%nat
       (BotnetAnalysis.flag "Unusual network distribution" 30) a1.

Definition analyzeCoordination (bd : BotnetDetector) (now : time.Time) (ip : string)
    (analysis : BotnetAnalysis.t) : BotnetAnalysis.t * BotnetDetector :=
  let burstKey := pretty (time.Minute_of now) +:+ "-" +:+ pretty (time.Second_of now / 10) in
  let burst :=
    match burstPatterns bd !! burstKey with
    | Some b => b
    | None => {| BurstPattern.StartTime := now; BurstPattern.EndTime := time.zero;
                 BurstPattern.IPCount := 0; BurstPattern.RequestCount := 0 |}
    end in
  let burst' :=
    {| BurstPattern.StartTime := BurstPattern.StartTime burst;
       BurstPattern.EndTime := now;
       BurstPattern.IPCount := add64 (BurstPattern.IPCount burst) 1;
       BurstPattern.RequestCount := BurstPattern.RequestCount burst |} in
  (when (100 <? BurstPattern.IPCount burst')
        (BotnetAnalysis.flag "Coordinated burst attack" 50) analysis,
   set_burstPatterns (<[burstKey := burst']> (burstPatterns bd)) bd).

Definition calculateFinalDecision (bd : BotnetDetector) (analysis : BotnetAnalysis.t)
  : BotnetAnalysis.t :=
  let baseConfidence :=
    float64.div (float64.of_int (BotnetAnalysis.RiskScore analysis)) (float64.of_int 200) in
  let indicatorBonus :=
    float64.mul (float64.of_int (Z.of_nat (length (BotnetAnalysis.Indicators analysis))))
                (float64.lit 5 100) in
  let confidence := float64.add baseConfidence indicatorBonus in
  let confidence :=
    if float64.ltb (float64.of_int 1) confidence then float64.of_int 1 else confidence in
  let isBotnet := float64.leb (detectionThreshold bd) confidence in
  let '(isBotnet, confidence) :=
    if 300 <=? BotnetAnalysis.RiskScore analysis
    then (true, if float64.ltb confidence (float64.lit 8 10)
                then float64.lit 8 10 else confidence)
    else (isBotnet, confidence) in
  {| BotnetAnalysis.IP := BotnetAnalysis.IP analysis;
     BotnetAnalysis.Timestamp := BotnetAnalysis.Timestamp analysis;
     BotnetAnalysis.IsBotnet := isBotnet;
     BotnetAnalysis.Confidence := confidence;
     BotnetAnalysis.Indicators := BotnetAnalysis.Indicators analysis;
     BotnetAnalysis.RiskScore := BotnetAnalysis.RiskScore analysis |}.

Definition AnalyzeRequest (bd : BotnetDetector) (now : time.Time)
    (ip userAgent path : string) (responseTime : time.Duration)
  : BotnetAnalysis.t * BotnetDetector :=
  let behavior :=
    updateIPBehavior (getOrCreateIPBehavior bd now ip) now userAgent path responseTime in
  let bd1 := set_requestPatterns (<[ip := behavior]> (requestPatterns bd)) bd in
  let bd2 := updateGlobalPatterns bd1 ip userAgent path in
  let analysis :=
    {| BotnetAnalysis.IP := ip;
       BotnetAnalysis.Timestamp := now;
       BotnetAnalysis.IsBotnet := false;
       BotnetAnalysis.Confidence := float64.of_int 0;
       BotnetAnalysis.Indicators := [];
       BotnetAnalysis.RiskScore := 0 |} in
  let a1 := analyzeBehavior behavior analysis in
  let '(a2, bd3) := analyzeNetwork bd2 now ip a1 in
  let a3 := analyzeTiming bd3 now ip a2 in
  let a4 := analyzeGlobalPatterns bd3 a3 in
  let '(a5, bd4) := analyzeCoordination bd3 now ip a4 in
  (calculateFinalDecision bd4 a5, bd4).

Definition IsBotnetAttack (analysis : BotnetAnalysis.t) : bool :=
  (50 <? BotnetAnalysis.RiskScore analysis) &&
  (2 <? length (BotnetAnalysis.Indicators analysis))%nat.

End botnet.

(** ** Package monitor *)

Module monitor.

Record Alert := {
  Type_ : string;
  Severity : string;
  Message : string;
  Timestamp : time.Time;
  IP : string;
  RequestCount : Z;
  ResponseTime : time.Duration
}.

(** The Prometheus instruments are write-only sinks and are left out; the
    buffered channel [alertChan] is the list of the alerts not read yet,
    oldest first, of capacity [alertCap]. *)
Record TrafficMonitor := {
  requestCounts : gmap string Z;
  responseTimes : gmap string (list time.Duration);
  errorCounts : gmap string Z;
  alertThreshold : Z;
  sampleRate : float64.t;
  windowDuration : time.Duration;
  alertChan : list Alert
}.

Definition alertCap : nat := 100.

Definition NewTrafficMonitor (alertThreshold : Z) (sampleRate : float64.t)
  : TrafficMonitor :=
  {| requestCounts := ∅; responseTimes := ∅; errorCounts := ∅;
     alertThreshold := alertThreshold; sampleRate := sampleRate;
     windowDuration := time.Minute; alertChan := [] |}.

Definition getClientIP (req : http.Request) : string :=
  let xff := http.Get (http.Header_ req) "X-Forwarded-For" in
  if negb (String.eqb xff EmptyString) then xff
  else
    let xri := http.Get (http.Header_ req) "X-Real-IP" in
    if negb (String.eqb xri EmptyString) then xri
    else http.RemoteAddr req.

Definition calculateAverageResponseTime (responseTimes : list time.Duration)
  : time.Duration :=
  match responseTimes with
  | [] => 0
  | _ => Z.quot (fold_left add64 responseTimes 0) (Z.of_nat (length responseTimes))
  end.

(** [select { case tm.alertChan <- alert: default: }]. *)
Definition send (alert : Alert) (tm : TrafficMonitor) : TrafficMonitor :=
  if (length (alertChan tm) <? alertCap)%nat
  then {| requestCounts := requestCounts tm; responseTimes := responseTimes tm;
          errorCounts := errorCounts tm; alertThreshold := alertThreshold tm;
          sampleRate := sampleRate tm; windowDuration := windowDuration tm;
          alertChan := alertChan tm ++ [alert] |}
  else tm.

Definition checkAlerts (tm : TrafficMonitor) (now : time.Time) (clientIP : string)
  : TrafficMonitor :=
  let requestCount := default 0 (requestCounts tm !! clientIP) in
  let tm1 :=
    if alertThreshold tm <? requestCount
    then send {| Type_ := "high_request_rate";
                 Severity := "warning";
                 Message := "High request rate detected for IP " +:+ clientIP +:+ ": "
                            +:+ pretty requestCount +:+ " requests";
                 Timestamp := now;
                 IP := clientIP;
                 RequestCount := requestCount;
                 ResponseTime := 0 |} tm
    else tm in
  match responseTimes tm1 !! clientIP with
  | Some rts =>
      if (10 <? length rts)%nat
      then
        let avgResponseTime := calculateAverageResponseTime rts in
        if avgResponseTime <? 10 * time.Millisecond
        then send {| Type_ := "suspicious_response_time";
                     Severity := "info";
                     Message := "Suspiciously fast response times for IP " +:+ clientIP
                                +:+ ": " +:+ time.Duration_String avgResponseTime;
                     Timestamp := now;
                     IP := clientIP;
                     RequestCount := 0;
                     ResponseTime := avgResponseTime |} tm1
        else tm1
      else tm1
  | None => tm1
  end.

Definition RecordRequest (tm : TrafficMonitor) (now : time.Time) (req : http.Request)
    (responseTime : time.Duration) (statusCode : Z) : TrafficMonitor :=
  let clientIP := getClientIP req in
  let rts := default [] (responseTimes tm !! clientIP) ++ [responseTime] in
  let rts := if (100 <? length rts)%nat then List.tl rts else rts in
  checkAlerts
    {| requestCounts :=
         <[clientIP := add64 (default 0 (requestCounts tm !! clientIP)) 1]> (requestCounts tm);
       responseTimes := <[clientIP := rts]> (responseTimes tm);
       errorCounts :=
         if 400 <=? statusCode
         then <[clientIP := add64 (default 0 (errorCounts tm !! clientIP)) 1]> (errorCounts tm)
         else errorCounts tm;
       alertThreshold := alertThreshold tm; sampleRate := sampleRate tm;
       windowDuration := windowDuration tm; alertChan := alertChan tm |}
    now clientIP.

(** [<-alerts]: the oldest alert, if there is one, and the monitor without it. *)
Definition receive (tm : TrafficMonitor) : option (Alert * TrafficMonitor) :=
  match alertChan tm with
  | [] => None
  | a :: rest =>
      Some (a, {| requestCounts := requestCounts tm; responseTimes := responseTimes tm;
                  errorCounts := errorCounts tm; alertThreshold := alertThreshold tm;
                  sampleRate := sampleRate tm; windowDuration := windowDuration tm;
                  alertChan := rest |})
  end.

(** [cleanup]: every key keeps the response times shorter than the window;
    a key left with none is deleted. *)
Definition cleanup (tm : TrafficMonitor) : TrafficMonitor :=
  {| requestCounts := requestCounts tm;
     responseTimes :=
       omap (fun responseTimes_ =>
               match List.filter (fun rt => rt <? windowDuration tm) responseTimes_ with
               | [] => None
               | validTimes => Some validTimes
               end) (responseTimes tm);
     errorCounts := errorCounts tm;
     alertThreshold := alertThreshold tm; sampleRate := sampleRate tm;
     windowDuration := windowDuration tm; alertChan := alertChan tm |}.

Definition Reset (tm : TrafficMonitor) : TrafficMonitor :=
  {| requestCounts := ∅; responseTimes := ∅; errorCounts := ∅;
     alertThreshold := alertThreshold tm; sampleRate := sampleRate tm;
     windowDuration := windowDuration tm; alertChan := alertChan tm |}.

End monitor.

(** ** Package health *)

Module health.

(** [CircuitState] is an [int] with three named values; no other value is
    ever stored. *)
Inductive CircuitState := StateClosed | StateOpen | StateHalfOpen.

Definition CircuitState_String (cs : CircuitState) : string :=
  match cs with
  | StateClosed => "closed"
  | StateOpen => "open"
  | StateHalfOpen => "half-open"
  end.

Module CircuitBreaker.
Record t := {
  name : string;
  failureCount : Z;
  successCount : Z;
  lastFailure : time.Time;
  state : CircuitState;
  failureThreshold : Z;
  successThreshold : Z;
  timeout : time.Duration;
  halfOpenMaxCalls : Z;
  halfOpenCalls : Z
}.
End CircuitBreaker.

(** [time.Since(cb.lastFailure)] at the instant [now]. *)
Definition CanExecute (cb : CircuitBreaker.t) (now : time.Time) : bool :=
  match CircuitBreaker.state cb with
  | StateClosed => true
  | StateOpen =>
      CircuitBreaker.timeout cb <? time.Sub now (CircuitBreaker.lastFailure cb)
  | StateHalfOpen =>
      CircuitBreaker.halfOpenCalls cb <? CircuitBreaker.halfOpenMaxCalls cb
  end.

Definition RecordFailure (cb : CircuitBreaker.t) (now : time.Time) : CircuitBreaker.t :=
  let failureCount := add64 (CircuitBreaker.failureCount cb) 1 in
  {| CircuitBreaker.name := CircuitBreaker.name cb;
     CircuitBreaker.failureCount := failureCount;
     CircuitBreaker.successCount := 0;
     CircuitBreaker.lastFailure := now;
     CircuitBreaker.state :=
       match CircuitBreaker.state cb with
       | StateClosed =>
           if CircuitBreaker.failureThreshold cb <=? failureCount
           then StateOpen else StateClosed
       | StateHalfOpen => StateOpen
       | StateOpen => StateOpen
       end;
     CircuitBreaker.failureThreshold := CircuitBreaker.failureThreshold cb;
     CircuitBreaker.successThreshold := CircuitBreaker.successThreshold cb;
     CircuitBreaker.timeout := CircuitBreaker.timeout cb;
     CircuitBreaker.halfOpenMaxCalls := CircuitBreaker.halfOpenMaxCalls cb;
     CircuitBreaker.halfOpenCalls := 0 |}.

Definition RecordSuccess (cb : CircuitBreaker.t) : CircuitBreaker.t :=
  let successCount := add64 (CircuitBreaker.successCount cb) 1 in
  let halfOpenCalls := add64 (CircuitBreaker.halfOpenCalls cb) 1 in
  let closes :=
    match CircuitBreaker.state cb with
    | StateHalfOpen => CircuitBreaker.successThreshold cb <=? successCount
    | _ => false
    end in
  {| CircuitBreaker.name := CircuitBreaker.name cb;
     CircuitBreaker.failureCount := 0;
     CircuitBreaker.successCount := successCount;
     CircuitBreaker.lastFailure := CircuitBreaker.lastFailure cb;
     CircuitBreaker.state := if closes then StateClosed else CircuitBreaker.state cb;
     CircuitBreaker.failureThreshold := CircuitBreaker.failureThreshold cb;
     CircuitBreaker.successThreshold := CircuitBreaker.successThreshold cb;
     CircuitBreaker.timeout := CircuitBreaker.timeout cb;
     CircuitBreaker.halfOpenMaxCalls := CircuitBreaker.halfOpenMaxCalls cb;
     CircuitBreaker.halfOpenCalls := if closes then 0 else halfOpenCalls |}.

Definition GetState (cb : CircuitBreaker.t) : CircuitState := CircuitBreaker.state cb.

(** The body of the loop of [updateCircuitBreakers], for one breaker. *)
Definition updateCircuitBreaker (cb : CircuitBreaker.t) (now : time.Time)
  : CircuitBreaker.t :=
  match CircuitBreaker.state cb with
  | StateOpen =>
      if CircuitBreaker.timeout cb <? time.Sub now (CircuitBreaker.lastFailure cb)
      then {| CircuitBreaker.name := CircuitBreaker.name cb;
              CircuitBreaker.failureCount := CircuitBreaker.failureCount cb;
              CircuitBreaker.successCount := CircuitBreaker.successCount cb;
              CircuitBreaker.lastFailure := CircuitBreaker.lastFailure cb;
              CircuitBreaker.state := StateHalfOpen;
              CircuitBreaker.failureThreshold := CircuitBreaker.failureThreshold cb;
              CircuitBreaker.successThreshold := CircuitBreaker.successThreshold cb;
              CircuitBreaker.timeout := CircuitBreaker.timeout cb;
              CircuitBreaker.halfOpenMaxCalls := CircuitBreaker.halfOpenMaxCalls cb;
              CircuitBreaker.halfOpenCalls := 0 |}
      else cb
  | _ => cb
  end.

(** A health check: [Check] is the outcome the check would have at a given
    instant, [None] for success and [Some msg] for the error [msg]. *)
Record HealthCheck := {
  Name : string;
  Check : time.Time → option string;
  IsCritical : bool
}.

Module CheckResult.
Record t := {
  Name : string;
  Status : string;
  Message : string;
  Timestamp : time.Time;
  Duration : time.Duration;
  IsCritical : bool
}.
End CheckResult.

Record HealthChecker := {
  checks : gmap string HealthCheck;
  circuitBreakers : gmap string CircuitBreaker.t;
  checkInterval : time.Duration;
  timeout : time.Duration
}.

Definition NewHealthChecker (checkInterval timeout : time.Duration) : HealthChecker :=
  {| checks := ∅; circuitBreakers := ∅;
     checkInterval := checkInterval; timeout := timeout |}.

Definition set_circuitBreakers (m : gmap string CircuitBreaker.t) (hc : HealthChecker)
  : HealthChecker :=
  {| checks := checks hc; circuitBreakers := m;
     checkInterval := checkInterval hc; timeout := timeout hc |}.

Definition RegisterHealthCheck (hc : HealthChecker) (check : HealthCheck) : HealthChecker :=
  {| checks := <[Name check := check]> (checks hc);
     circuitBreakers :=
       <[Name check :=
           {| CircuitBreaker.name := Name check;
              CircuitBreaker.failureCount := 0;
              CircuitBreaker.successCount := 0;
              CircuitBreaker.lastFailure := time.zero;
              CircuitBreaker.state := StateClosed;
              CircuitBreaker.failureThreshold := 3;
              CircuitBreaker.successThreshold := 2;
              CircuitBreaker.timeout := timeout hc;
              CircuitBreaker.halfOpenMaxCalls := 3;
              CircuitBreaker.halfOpenCalls := 0 |}]> (circuitBreakers hc);
     checkInterval := checkInterval hc; timeout := timeout hc |}.

(** [runHealthCheck]; the run takes one instant, so the measured duration
    is zero. *)
Definition runHealthCheck (hc : HealthChecker) (now : time.Time) (name : string)
    (check : HealthCheck) : CheckResult.t * HealthChecker :=
  match circuitBreakers hc !! name with
  | None =>
      ({| CheckResult.Name := name; CheckResult.Status := "error";
          CheckResult.Message := "Circuit breaker not found";
          CheckResult.Timestamp := now; CheckResult.Duration := 0;
          CheckResult.IsCritical := IsCritical check |}, hc)
  | Some cb =>
      if negb (CanExecute cb now)
      then ({| CheckResult.Name := name; CheckResult.Status := "circuit_open";
               CheckResult.Message :=
                 "Circuit breaker is " +:+ CircuitState_String (GetState cb);
               CheckResult.Timestamp := now; CheckResult.Duration := 0;
               CheckResult.IsCritical := IsCritical check |}, hc)
      else
        match Check check now with
        | Some err =>
            ({| CheckResult.Name := name; CheckResult.Status := "unhealthy";
                CheckResult.Message := err;
                CheckResult.Timestamp := now; CheckResult.Duration := 0;
                CheckResult.IsCritical := IsCritical check |},
             set_circuitBreakers (<[name := RecordFailure cb now]> (circuitBreakers hc)) hc)
        | None =>
            ({| CheckResult.Name := name; CheckResult.Status := "healthy";
                CheckResult.Message := "OK";
                CheckResult.Timestamp := now; CheckResult.Duration := 0;
                CheckResult.IsCritical := IsCritical check |},
             set_circuitBreakers (<[name := RecordSuccess cb]> (circuitBreakers hc)) hc)
        end
  end.

Definition updateCircuitBreakers (hc : HealthChecker) (now : time.Time) : HealthChecker :=
  set_circuitBreakers ((fun cb => updateCircuitBreaker cb now) <$> circuitBreakers hc) hc.

Module HealthSummary.
Record t := {
  TotalChecks : Z;
  HealthyChecks : Z;
  UnhealthyChecks : Z;
  CriticalFailures : Z
}.
End HealthSummary.

Module HealthStatus.
Record t := {
  Status : string;
  Timestamp : time.Time;
  Checks : gmap string CheckResult.t;
  Summary : HealthSummary.t
}.
End HealthStatus.

(** One turn of the loop of [GetHealthStatus]. *)
Definition recordCheck (now : time.Time) (name : string) (check : HealthCheck)
    (acc : gmap string CheckResult.t * HealthSummary.t * HealthChecker)
  : gmap string CheckResult.t * HealthSummary.t * HealthChecker :=
  let '(results, summary, hc) := acc in
  let '(checkResult, hc') := runHealthCheck hc now name check in
  let healthy := String.eqb (CheckResult.Status checkResult) "healthy" in
  (<[name := checkResult]> results,
   {| HealthSummary.TotalChecks := add64 (HealthSummary.TotalChecks summary) 1;
      HealthSummary.HealthyChecks :=
        if healthy then add64 (HealthSummary.HealthyChecks summary) 1
        else HealthSummary.HealthyChecks summary;
      HealthSummary.UnhealthyChecks :=
        if healthy then HealthSummary.UnhealthyChecks summary
        else add64 (HealthSummary.UnhealthyChecks summary) 1;
      HealthSummary.CriticalFailures :=
        if negb healthy && CheckResult.IsCritical checkResult
        then add64 (HealthSummary.CriticalFailures summary) 1
        else HealthSummary.CriticalFailures summary |},
   hc').

(** [GetHealthStatus].  Go ranges over the checks in an unspecified order;
    a turn reads and writes the breaker and the result of its own name
    only, and the folding below takes the checks in the order of the
    map. *)
Definition GetHealthStatus (hc : HealthChecker) (now : time.Time)
  : HealthStatus.t * HealthChecker :=
  let '(results, summary, hc') :=
    map_fold (recordCheck now)
      (∅, {| HealthSummary.TotalChecks := 0; HealthSummary.HealthyChecks := 0;
             HealthSummary.UnhealthyChecks := 0; HealthSummary.CriticalFailures := 0 |},
       hc)
      (checks hc) in
  ({| HealthStatus.Status :=
        if 0 <? HealthSummary.CriticalFailures summary then "critical"
        else if 0 <? HealthSummary.UnhealthyChecks summary then "degraded"
        else "healthy";
      HealthStatus.Timestamp := now;
      HealthStatus.Checks := results;
      HealthStatus.Summary := summary |}, hc').

End health.

(** ** Package config *)

Module config.

Module Redis.
Record t := { Host : string; Port : string; Password : string; DB : Z }.
End Redis.

Module RateLimit.
Record t := { RequestsPerMinute : Z; BurstSize : Z; WindowSize : Z }.
End RateLimit.

Module IPBlacklist.
Record t := {
  Enabled : bool;
  AutoBlacklistThreshold : Z;
  BlacklistDuration : Z;
  IPs : list string
}.
End IPBlacklist.

Module IPWhitelist.
Record t := { Enabled : bool; IPs : list string }.
End IPWhitelist.

Module RequestFilter.
Record t := {
  Enabled : bool;
  MaxRequestSize : Z;
  SuspiciousHeaders : list string;
  BlockedUserAgents : list string
}.
End RequestFilter.

Module Monitoring.
Record t := { Enabled : bool; AlertThreshold : Z; SampleRate : float64.t }.
End Monitoring.

(** The sections the protection pipeline reads; server, health check,
    logging and metrics settings are left out. *)
Record Config := {
  redis_ : Redis.t;
  rateLimit : RateLimit.t;
  ipBlacklist : IPBlacklist.t;
  ipWhitelist : IPWhitelist.t;
  requestFilter : RequestFilter.t;
  monitoring : Monitoring.t
}.

Definition GetRedisAddr (r : Redis.t) : string := Redis.Host r +:+ ":" +:+ Redis.Port r.

End config.

(** ** Package ddos *)

Module ddos.

(** The value held by the interface field [rateLimiter]. *)
Inductive LimiterValue :=
| OfTokenBucket (l : ratelimit.TokenBucketLimiter.t)
| OfRedis (l : ratelimit.RedisLimiter.t).

#[global] Instance LimiterValue_Limiter : ratelimit.Limiter LimiterValue := {
  Allow v now key srv :=
    match v with
    | OfTokenBucket l =>
        let '(b, l', srv') := ratelimit.Allow l now key srv in (b, OfTokenBucket l', srv')
    | OfRedis l =>
        let '(b, l', srv') := ratelimit.Allow l now key srv in (b, OfRedis l', srv')
    end;
  GetLimit v :=
    match v with
    | OfTokenBucket l => ratelimit.GetLimit l
    | OfRedis l => ratelimit.GetLimit l
    end;
  GetBurst v :=
    match v with
    | OfTokenBucket l => ratelimit.GetBurst l
    | OfRedis l => ratelimit.GetBurst l
    end
}.

(** Logger and metrics server are left out, and so is the health checker,
    which the pipeline never consults: it is embedded on its own in
    [health]. *)
Record ProtectionService := {
  config_ : config.Config;
  rateLimiter : LimiterValue;
  ipManager : blacklist.IPManager;
  requestFilter : filter.RequestFilter;
  trafficMonitor : monitor.TrafficMonitor;
  botnetDetector : botnet.BotnetDetector;
  redisClient : option redis.Client
}.

Definition set_config (c : config.Config) (ps : ProtectionService) : ProtectionService :=
  {| config_ := c; rateLimiter := rateLimiter ps; ipManager := ipManager ps;
     requestFilter := requestFilter ps; trafficMonitor := trafficMonitor ps;
     botnetDetector := botnetDetector ps; redisClient := redisClient ps |}.

Definition set_rateLimiter (l : LimiterValue) (ps : ProtectionService) : ProtectionService :=
  {| config_ := config_ ps; rateLimiter := l; ipManager := ipManager ps;
     requestFilter := requestFilter ps; trafficMonitor := trafficMonitor ps;
     botnetDetector := botnetDetector ps; redisClient := redisClient ps |}.

Definition set_ipManager (im : blacklist.IPManager) (ps : ProtectionService)
  : ProtectionService :=
  {| config_ := config_ ps; rateLimiter := rateLimiter ps; ipManager := im;
     requestFilter := requestFilter ps; trafficMonitor := trafficMonitor ps;
     botnetDetector := botnetDetector ps; redisClient := redisClient ps |}.

Definition set_requestFilter (rf : filter.RequestFilter) (ps : ProtectionService)
  : ProtectionService :=
  {| config_ := config_ ps; rateLimiter := rateLimiter ps; ipManager := ipManager ps;
     requestFilter := rf; trafficMonitor := trafficMonitor ps;
     botnetDetector := botnetDetector ps; redisClient := redisClient ps |}.

Definition set_trafficMonitor (tm : monitor.TrafficMonitor) (ps : ProtectionService)
  : ProtectionService :=
  {| config_ := config_ ps; rateLimiter := rateLimiter ps; ipManager := ipManager ps;
     requestFilter := requestFilter ps; trafficMonitor := tm;
     botnetDetector := botnetDetector ps; redisClient := redisClient ps |}.

Definition set_botnetDetector (bd : botnet.BotnetDetector) (ps : ProtectionService)
  : ProtectionService :=
  {| config_ := config_ ps; rateLimiter := rateLimiter ps; ipManager := ipManager ps;
     requestFilter := requestFilter ps; trafficMonitor := trafficMonitor ps;
     botnetDetector := bd; redisClient := redisClient ps |}.

(** The limiter [initRateLimiter] builds from the configuration. *)
Definition newRateLimiter (cfg : config.Config) (redisClient : option redis.Client)
  : LimiterValue :=
  match redisClient with
  | Some c =>
      OfRedis (ratelimit.RedisLimiter.New c
                 (config.RateLimit.RequestsPerMinute (config.rateLimit cfg))
                 (wrap64 (config.RateLimit.WindowSize (config.rateLimit cfg) * time.Second)))
  | None =>
      OfTokenBucket (ratelimit.TokenBucketLimiter.New
                       (config.RateLimit.RequestsPerMinute (config.rateLimit cfg))
                       (config.RateLimit.BurstSize (config.rateLimit cfg)))
  end.

Definition initRateLimiter (ps : ProtectionService) : ProtectionService :=
  set_rateLimiter (newRateLimiter (config_ ps) (redisClient ps)) ps.

(** [initRedis]: no client without a host; a failed ping is only logged. *)
Definition newRedisClient (cfg : config.Config) : option redis.Client :=
  if String.eqb (config.Redis.Host (config.redis_ cfg)) EmptyString then None
  else Some {| redis.Addr := config.GetRedisAddr (config.redis_ cfg);
               redis.Password := config.Redis.Password (config.redis_ cfg);
               redis.DB := config.Redis.DB (config.redis_ cfg) |}.

(** [initIPManager]: a new manager, then the configured whitelist. *)
Fixpoint whitelistAll (im : blacklist.IPManager) (now : time.Time) (ips : list string)
    (srv : redis.Server) : blacklist.IPManager * redis.Server :=
  match ips with
  | [] => (im, srv)
  | ip :: rest =>
      let '(_, im1, srv1) := blacklist.WhitelistIP im now ip srv in
      whitelistAll im1 now rest srv1
  end.

Definition NewProtectionService (Compile : string → option regexp.Regexp)
    (cfg : config.Config) (now : time.Time) (srv : redis.Server)
  : ProtectionService * redis.Server :=
  let client := newRedisClient cfg in
  let srv0 := match client with
              | Some _ => (redis.roundtrip srv).2          (* Ping *)
              | None => srv
              end in
  let '(im, srv1) :=
    whitelistAll
      (blacklist.NewIPManager client
         (config.IPBlacklist.Enabled (config.ipBlacklist cfg))
         (config.IPBlacklist.AutoBlacklistThreshold (config.ipBlacklist cfg))
         (wrap64 (config.IPBlacklist.BlacklistDuration (config.ipBlacklist cfg)
                  * time.Second)))
      now (config.IPWhitelist.IPs (config.ipWhitelist cfg)) srv0 in
  ({| config_ := cfg;
      rateLimiter := newRateLimiter cfg client;
      ipManager := im;
      requestFilter :=
        filter.NewRequestFilter Compile
          (config.RequestFilter.MaxRequestSize (config.requestFilter cfg))
          (config.RequestFilter.SuspiciousHeaders (config.requestFilter cfg))
          (config.RequestFilter.BlockedUserAgents (config.requestFilter cfg));
      trafficMonitor :=
        monitor.NewTrafficMonitor
          (config.Monitoring.AlertThreshold (config.monitoring cfg))
          (config.Monitoring.SampleRate (config.monitoring cfg));
      botnetDetector := botnet.NewBotnetDetector (float64.lit 8 10) (60 * time.Second);
      redisClient := client |}, srv1).

(** The configured number of seconds as a duration, a product of 64 bits. *)
Definition blacklistLease (ps : ProtectionService) : time.Duration :=
  wrap64 (config.IPBlacklist.BlacklistDuration (config.ipBlacklist (config_ ps))
          * time.Second).

(** [handleAlert]: a failure to blacklist is only logged. *)
Definition handleAlert (ps : ProtectionService) (now : time.Time) (alert : monitor.Alert)
    (srv : redis.Server) : ProtectionService * redis.Server :=
  if String.eqb (monitor.Type_ alert) "high_request_rate" &&
     negb (String.eqb (monitor.IP alert) EmptyString)
  then
    let '(_, im, srv1) :=
      blacklist.BlacklistIP (ipManager ps) now (monitor.IP alert) (blacklistLease ps) srv in
    (set_ipManager im ps, srv1)
  else (ps, srv).

(** One turn of the loop of [processAlerts]: read an alert and handle it. *)
Definition processAlert (ps : ProtectionService) (now : time.Time) (srv : redis.Server)
  : ProtectionService * redis.Server :=
  match monitor.receive (trafficMonitor ps) with
  | Some (alert, tm) => handleAlert (set_trafficMonitor tm ps) now alert srv
  | None => (ps, srv)
  end.

Definition UpdateRateLimitConfig (ps : ProtectionService) (requestsPerMinute burstSize : Z)
  : option error * ProtectionService :=
  let cfg := config_ ps in
  let cfg' :=
    {| config.redis_ := config.redis_ cfg;
       config.rateLimit :=
         {| config.RateLimit.RequestsPerMinute := requestsPerMinute;
            config.RateLimit.BurstSize := burstSize;
            config.RateLimit.WindowSize := config.RateLimit.WindowSize (config.rateLimit cfg) |};
       config.ipBlacklist := config.ipBlacklist cfg;
       config.ipWhitelist := config.ipWhitelist cfg;
       config.requestFilter := config.requestFilter cfg;
       config.monitoring := config.monitoring cfg |} in
  (None, initRateLimiter (set_config cfg' ps)).

Definition GetRateLimitConfig (ps : ProtectionService) : Z * Z :=
  (ratelimit.GetLimit (rateLimiter ps), ratelimit.GetBurst (rateLimiter ps)).

Definition getClientIP (ps : ProtectionService) (req : http.Request) : string :=
  let xff := http.Get (http.Header_ req) "X-Forwarded-For" in
  let fromRealIP :=
    let xri := http.Get (http.Header_ req) "X-Real-IP" in
    if negb (String.eqb xri EmptyString) then strings.TrimSpace xri
    else
      let '(ip, _, found) := strings.Cut (http.RemoteAddr req) ":" in
      if found then ip else http.RemoteAddr req in
  if negb (String.eqb xff EmptyString)
  then match strings.Split xff "," with
       | ip0 :: _ => strings.TrimSpace ip0
       | [] => fromRealIP
       end
  else fromRealIP.

(** What the middleware answers: the request reached the handler, which
    answered with [status], or it was rejected with a code and a status. *)
Inductive Decision :=
| ALLOW (status : Z)
| DENY (code : string) (status : Z).

(** The handlers behind the middleware: they may use the service, and take
    some time to answer with a status. *)
Definition Handler :=
  ProtectionService → time.Time → http.Request → redis.Server →
  Z * time.Duration * ProtectionService * redis.Server.

(** [ProtectionMiddleware]; the two clock reads around the call of the
    botnet detector are taken as one instant. *)
Definition ProtectionMiddleware (ps : ProtectionService) (next : Handler)
    (now : time.Time) (req : http.Request) (srv : redis.Server)
  : Decision * ProtectionService * redis.Server :=
  let clientIP := getClientIP ps req in
  (* Step 1: blacklist *)
  let '(blocked, im1, srv1) :=
    if config.IPBlacklist.Enabled (config.ipBlacklist (config_ ps))
    then blacklist.IsBlacklisted (ipManager ps) now clientIP srv
    else (false, ipManager ps, srv) in
  let ps1 := set_ipManager im1 ps in
  if blocked then (DENY "BLOCKED_IP" http.StatusForbidden, ps1, srv1)
  else
    (* Step 2: rate limiting *)
    let '(allowed, rl2, srv2) := ratelimit.Allow (rateLimiter ps1) now clientIP srv1 in
    let ps2 := set_rateLimiter rl2 ps1 in
    if negb allowed then
      let '(auto, srv3) :=
        blacklist.ShouldAutoBlacklist (ipManager ps2) now clientIP 100 srv2 in
      let '(im4, srv4) :=
        if auto
        then let '(_, im, s) :=
               blacklist.BlacklistIP (ipManager ps2) now clientIP (blacklistLease ps2) srv3 in
             (im, s)
        else (ipManager ps2, srv3) in
      (DENY "RATE_LIMITED" http.StatusTooManyRequests, set_ipManager im4 ps2, srv4)
    else
      (* Step 3: request filtering *)
      let '(filtered, ps3) :=
        if config.RequestFilter.Enabled (config.requestFilter (config_ ps2))
        then let '(filterResult, rf) := filter.FilterRequest (requestFilter ps2) now req in
             (negb (filter.Allowed filterResult), set_requestFilter rf ps2)
        else (false, ps2) in
      if filtered then (DENY "FILTERED" http.StatusBadRequest, ps3, srv2)
      else
        (* Step 4: botnet detection *)
        let '(botnetResult, bd) :=
          botnet.AnalyzeRequest (botnetDetector ps3) now clientIP
            (http.UserAgent req) (http.Path req) 0 in
        let ps4 := set_botnetDetector bd ps3 in
        if botnet.BotnetAnalysis.IsBotnet botnetResult then
          let '(im5, srv5) :=
            if float64.ltb (float64.lit 8 10) (botnet.BotnetAnalysis.Confidence botnetResult)
            then let '(_, im, s) :=
                   blacklist.BlacklistIP (ipManager ps4) now clientIP (blacklistLease ps4) srv2 in
                 (im, s)
            else (ipManager ps4, srv2) in
          (DENY "BOTNET_DETECTED" http.StatusForbidden, set_ipManager im5 ps4, srv5)
        else
          (* the handlers, then the traffic monitor *)
          let '(status, elapsed, ps5, srv5) := next ps4 now req srv2 in
          let tm := monitor.RecordRequest (trafficMonitor ps5) (time.Add now elapsed)
                      req elapsed status in
          (ALLOW status, set_trafficMonitor tm ps5, srv5).

End ddos.

(** ** Package main: the route that updates the rate limits *)

Module main.

(** The PUT handler of [/api/v1/config/rate-limits].  [body] is the result
    of [c.ShouldBindJSON]: [None] when the body is not the JSON of the two
    integers.  The answer is the HTTP status. *)
Definition putRateLimits (body : option (Z * Z)) (ps : ddos.ProtectionService)
  : Z * ddos.ProtectionService :=
  match body with
  | None => (http.StatusBadRequest, ps)
  | Some (requestsPerMinute, burstSize) =>
      match ddos.UpdateRateLimitConfig ps requestsPerMinute burstSize with
      | (Some _, ps') => (500, ps')
      | (None, ps') => (http.StatusOK, ps')
      end
  end.

End main.

(** ** Runs: a method called again and again *)

Module scenario.

(** The answers to successive calls for one key at the instants [ts]. *)
Fixpoint AllowMany (rl : ratelimit.RedisLimiter.t) (key : string)
    (ts : list time.Time) (srv : redis.Server) : list bool * redis.Server :=
  match ts with
  | [] => ([], srv)
  | now :: ts' =>
      let '(b, srv1) := ratelimit.RedisLimiter.Allow rl now key srv in
      let '(bs, srv2) := AllowMany rl key ts' srv1 in
      (b :: bs, srv2)
  end.

(** Successive requests of one client, one every [step] nanoseconds. *)
Fixpoint AnalyzeRepeated (n : nat) (bd : botnet.BotnetDetector) (now : time.Time)
    (step : time.Duration) (ip userAgent path : string) (responseTime : time.Duration)
  : list botnet.BotnetAnalysis.t * botnet.BotnetDetector :=
  match n with
  | O => ([], bd)
  | S n' =>
      let '(a, bd1) := botnet.AnalyzeRequest bd now ip userAgent path responseTime in
      let '(rest, bd2) :=
        AnalyzeRepeated n' bd1 (time.Add now step) step ip userAgent path responseTime in
      (a :: rest, bd2)
  end.

(** Successive requests [req], one every [step] nanoseconds. *)
Fixpoint FilterRepeated (n : nat) (rf : filter.RequestFilter) (now : time.Time)
    (step : time.Duration) (req : http.Request)
  : list filter.FilterResult * filter.RequestFilter :=
  match n with
  | O => ([], rf)
  | S n' =>
      let '(r, rf1) := filter.FilterRequest rf now req in
      let '(rs, rf2) := FilterRepeated n' rf1 (time.Add now step) step req in
      (r :: rs, rf2)
  end.

(** Requests [req] sent one every [step] nanoseconds. *)
Fixpoint ServeRepeated (n : nat) (ps : ddos.ProtectionService) (next : ddos.Handler)
    (now : time.Time) (step : time.Duration) (req : http.Request) (srv : redis.Server)
  : list ddos.Decision * ddos.ProtectionService * redis.Server :=
  match n with
  | O => ([], ps, srv)
  | S n' =>
      let '(d, ps1, srv1) := ddos.ProtectionMiddleware ps next now req srv in
      let '(ds, ps2, srv2) := ServeRepeated n' ps1 next (time.Add now step) step req srv1 in
      (d :: ds, ps2, srv2)
  end.

(** The answers of the in-memory sliding window to successive calls for
    one key at the instants [ts]. *)
Fixpoint AllowManyLocal (swl : ratelimit.SlidingWindowLimiter.t) (key : string)
    (ts : list time.Time) : list bool * ratelimit.SlidingWindowLimiter.t :=
  match ts with
  | [] => ([], swl)
  | now :: ts' =>
      let '(b, swl1) := ratelimit.SlidingWindowLimiter.Allow swl now key in
      let '(bs, swl2) := AllowManyLocal swl1 key ts' in
      (b :: bs, swl2)
  end.

End scenario.

(** ** Vocabulary of the statements *)

(** The error the spec calls CONFLICT_WHITELISTED. *)
Definition CONFLICT_WHITELISTED (ip : string) : error :=
  Errorf ("cannot blacklist whitelisted IP: " +:+ ip).

(** The sorted-set entry written by a call at the instant [t]. *)
Definition entry (t : time.Time) : Z * Z := (time.UnixNano t, time.Unix t).

(** The window of the Redis limiter as the code computes it: at the instant
    [now] an earlier call made at [t] still counts when its Unix second is
    greater than the Unix second of [now - W]. *)
Definition in_window (W : time.Duration) (now t : time.Time) : bool :=
  time.Unix (time.Add now (- W)) <? time.Unix t.

(** The answer of the limiter after the calls of the history [h]. *)
Definition allowed_at (L : Z) (W : time.Duration) (h : list time.Time) (now : time.Time)
  : bool :=
  Z.of_nat (length (List.filter (in_window W now) h)) <? L.

Fixpoint answers (L : Z) (W : time.Duration) (h ts : list time.Time) : list bool :=
  match ts with
  | [] => []
  | t :: ts' => allowed_at L W h t :: answers L W (h ++ [t]) ts'
  end.

(** The allowed calls of a run that the window at [now] holds. *)
Definition allowed_in_window (W : time.Duration) (now : time.Time)
    (ts : list time.Time) (rs : list bool) : nat :=
  length (List.filter (fun tr : time.Time * bool =>
                         tr.2 && (tr.1 <=? now) && in_window W now tr.1)
                      (zip ts rs)).

(** What the sorted set of one key holds after the calls of [h]. *)
Definition window_inv (rl : ratelimit.RedisLimiter.t) (key : string)
    (h : list time.Time) (srv : redis.Server) : Prop :=
  let K := ratelimit.RedisLimiter.prefix rl +:+ key in
  let W := ratelimit.RedisLimiter.window rl in
  (h = [] ∧ redis.zsets srv !! K = None) ∨
  (∃ h0 t, h = h0 ++ [t] ∧ Forall (fun x => 0 <= x < t) h0 ∧ 0 <= t ∧
     redis.zsets srv !! K =
       Some (List.map entry (List.filter (in_window W t) h0) ++ [entry t],
             Some (t + W))).

(** The window of the in-memory limiters: at the instant [now] an earlier
    instant [t] still counts when it is after [now - W]. *)
Definition recent (W : time.Duration) (now t : time.Time) : bool :=
  time.After t (time.Add now (- W)).




(** Every behaviour record of the detector keeps at most a hundred response
    times and a hundred intervals. *)
Definition rings_bounded (bd : botnet.BotnetDetector) : Prop :=
  map_Forall (fun _ b =>
                (length (botnet.IPBehavior.ResponseTimes b) <= 100)%nat ∧
                (length (botnet.IPBehavior.RequestIntervals b) <= 100)%nat)
             (botnet.requestPatterns bd).

(** What the monitor keeps in memory: at most [alertCap] pending alerts, and
    for each key between one and a hundred response times. *)
Definition monitor_bounded (tm : monitor.TrafficMonitor) : Prop :=
  (length (monitor.alertChan tm) <= monitor.alertCap)%nat ∧
  map_Forall (fun _ l => (1 <= length l <= 100)%nat) (monitor.responseTimes tm).

(** What can happen to a circuit breaker: a check that ran and failed at
    an instant, a check that ran and succeeded, a turn of the periodic
    update at an instant. *)
Inductive breaker_event :=
| Failed (now : time.Time)
| Succeeded
| Updated (now : time.Time).

Definition breaker_step (cb : health.CircuitBreaker.t) (ev : breaker_event)
  : health.CircuitBreaker.t :=
  match ev with
  | Failed now => health.RecordFailure cb now
  | Succeeded => health.RecordSuccess cb
  | Updated now => health.updateCircuitBreaker cb now
  end.

Definition breaker_run (cb : health.CircuitBreaker.t) (evs : list breaker_event)
  : health.CircuitBreaker.t :=
  fold_left breaker_step evs cb.

Definition is_update (ev : breaker_event) : bool :=
  match ev with Updated _ => true | _ => false end.



(** The confidence of the final decision as the specification writes it,
    [min(1, risk/200 + 0.05 * indicators)], evaluated in [float64]. *)
Definition confidence_float (risk indicators : Z) : float64.t :=
  let sum :=
    float64.add (float64.div (float64.of_int risk) (float64.of_int 200))
                (float64.mul (float64.of_int indicators) (float64.lit 5 100)) in
  if float64.ltb (float64.of_int 1) sum then float64.of_int 1 else sum.

(** The same formula in exact arithmetic. *)
Definition confidence_exact (risk indicators : Z) : Q :=
  Qmin 1 (inject_Z risk / 200 + (5 # 100) * inject_Z indicators)%Q.

(** Whether an analysis carries the indicator [label]. *)
Definition has_indicator (label : string) (a : botnet.BotnetAnalysis.t) : bool :=
  existsb (String.eqb label) (botnet.BotnetAnalysis.Indicators a).

(** The strings an expression matches in full. *)
Inductive matches : regexp.Regexp → string → Prop :=
| matches_Empty : matches regexp.Empty EmptyString
| matches_Char p c : p c = true → matches (regexp.Char p) (String c EmptyString)
| matches_Cat r1 r2 s1 s2 :
    matches r1 s1 → matches r2 s2 → matches (regexp.Cat r1 r2) (s1 +:+ s2)
| matches_Alt_l r1 r2 s : matches r1 s → matches (regexp.Alt r1 r2) s
| matches_Alt_r r1 r2 s : matches r2 s → matches (regexp.Alt r1 r2) s
| matches_Star_nil r : matches (regexp.Star r) EmptyString
| matches_Star_cons r c s1 s2 :
    matches r (String c s1) → matches (regexp.Star r) s2 →
    matches (regexp.Star r) (String c s1 +:+ s2).

(** ** Sample configurations and requests *)

Module sample.

Definition client : redis.Client :=
  {| redis.Addr := "localhost:6379"; redis.Password := EmptyString; redis.DB := 0 |}.

(** A filter with four configured suspicious headers, no blocked user
    agent, and a megabyte for the largest body. *)
Definition requestFilter : filter.RequestFilter :=
  filter.NewRequestFilter (fun _ => None) 1048576
    ["X-Forwarded-For"; "X-Forwarded-Host"; "Referer"; "Origin"] [].

(** A plain request of a browser. *)
Definition benign : http.Request :=
  {| http.Method := "GET"; http.Path := "/demo/"; http.RawQuery := EmptyString;
     http.Header_ := {[ "User-Agent" := ["Mozilla/5.0"] ]};
     http.RemoteAddr := "198.51.100.7:40000"; http.ContentLength := 0 |}.

(** The same request with a path traversal in each of the four headers. *)
Definition traversal : http.Request :=
  {| http.Method := "GET"; http.Path := "/demo/"; http.RawQuery := EmptyString;
     http.Header_ := {[ "User-Agent" := ["Mozilla/5.0"];
                        "X-Forwarded-For" := ["../"];
                        "X-Forwarded-Host" := ["../"];
                        "Referer" := ["../"];
                        "Origin" := ["../"] ]};
     http.RemoteAddr := "198.51.100.7:40000"; http.ContentLength := 0 |}.

(** The filter after 101 plain requests of that client, one per second. *)
Definition busyFilter : filter.RequestFilter :=
  (scenario.FilterRepeated 101 requestFilter 1700000000000000000 time.Second benign).2.

(** The instant one second after the last of these requests. *)
Definition later : time.Time := 1700000101000000000.

(** Headers as the server parses them from a request that carries two
    Content-Type lines. *)
Definition twoContentTypes : http.Header :=
  {[ "User-Agent" := ["Mozilla/5.0"];
     "Content-Type" := ["text/plain"; "application/json"] ]}.

Definition twoHosts : http.Header :=
  {[ "User-Agent" := ["Mozilla/5.0"];
     "Host" := ["a.example"; "b.example"] ]}.

(** The first instant of the sample runs. *)
Definition t0 : time.Time := 1700000000000000000.

(** A configuration without Redis: 60 requests per minute, bursts of 10,
    automatic blacklisting above 100 for an hour, one whitelisted address,
    request filtering on, an alert above [alertThreshold] requests. *)
Definition cfg (alertThreshold : Z) : config.Config :=
  {| config.redis_ :=
       {| config.Redis.Host := EmptyString; config.Redis.Port := "6379";
          config.Redis.Password := EmptyString; config.Redis.DB := 0 |};
     config.rateLimit :=
       {| config.RateLimit.RequestsPerMinute := 60; config.RateLimit.BurstSize := 10;
          config.RateLimit.WindowSize := 60 |};
     config.ipBlacklist :=
       {| config.IPBlacklist.Enabled := true;
          config.IPBlacklist.AutoBlacklistThreshold := 100;
          config.IPBlacklist.BlacklistDuration := 3600;
          config.IPBlacklist.IPs := [] |};
     config.ipWhitelist :=
       {| config.IPWhitelist.Enabled := true; config.IPWhitelist.IPs := ["198.51.100.9"] |};
     config.requestFilter :=
       {| config.RequestFilter.Enabled := true;
          config.RequestFilter.MaxRequestSize := 1048576;
          config.RequestFilter.SuspiciousHeaders :=
            ["X-Forwarded-Host"; "Referer"; "Origin"];
          config.RequestFilter.BlockedUserAgents := [] |};
     config.monitoring :=
       {| config.Monitoring.Enabled := true;
          config.Monitoring.AlertThreshold := alertThreshold;
          config.Monitoring.SampleRate := float64.of_int 1 |} |}.

(** The remote store, never reached in these runs. *)
Definition noRedis : redis.Server := redis.empty (fun _ => false).

Definition service (alertThreshold : Z) : ddos.ProtectionService :=
  (ddos.NewProtectionService (fun _ => None) (cfg alertThreshold) t0 noRedis).1.

(** A handler that answers 200 after one millisecond. *)
Definition ok : ddos.Handler :=
  fun ps _ _ srv => (http.StatusOK, time.Millisecond, ps, srv).

(** A request of curl that a proxy forwards for the whitelisted address. *)
Definition curl : http.Request :=
  {| http.Method := "GET"; http.Path := "/demo/"; http.RawQuery := EmptyString;
     http.Header_ := {[ "User-Agent" := ["curl/8"];
                        "X-Forwarded-For" := ["198.51.100.9"] ]};
     http.RemoteAddr := "192.0.2.1:5000"; http.ContentLength := 0 |}.

(** A request forwarded through two proxies. *)
Definition proxied : http.Request :=
  {| http.Method := "GET"; http.Path := "/demo/"; http.RawQuery := EmptyString;
     http.Header_ := {[ "User-Agent" := ["Mozilla/5.0"];
                        "X-Forwarded-For" := ["203.0.113.5, 10.0.0.1"] ]};
     http.RemoteAddr := "192.0.2.1:5000"; http.ContentLength := 0 |}.

(** A request that one proxy forwards for the address 203.0.113.5. *)
Definition forwarded : http.Request :=
  {| http.Method := "GET"; http.Path := "/demo/"; http.RawQuery := EmptyString;
     http.Header_ := {[ "User-Agent" := ["Mozilla/5.0"];
                        "X-Forwarded-For" := ["203.0.113.5"] ]};
     http.RemoteAddr := "192.0.2.1:5000"; http.ContentLength := 0 |}.

(** The same request when the proxy writes a no-break space, U+00A0, before
    the address. *)
Definition padded : http.Request :=
  {| http.Method := "GET"; http.Path := "/demo/"; http.RawQuery := EmptyString;
     http.Header_ :=
       {[ "User-Agent" := ["Mozilla/5.0"];
          "X-Forwarded-For" := [String "194" (String "160" "203.0.113.5")] ]};
     http.RemoteAddr := "192.0.2.1:5000"; http.ContentLength := 0 |}.

(** A request that reaches the server directly. *)
Definition direct : http.Request :=
  {| http.Method := "GET"; http.Path := "/demo/"; http.RawQuery := EmptyString;
     http.Header_ := {[ "User-Agent" := ["Mozilla/5.0"] ]};
     http.RemoteAddr := "203.0.113.5:40000"; http.ContentLength := 0 |}.

(** The same configuration with a Redis host, and the service built on a
    reachable, empty store, together with that store after start-up. *)
Definition cfgRedis (alertThreshold : Z) : config.Config :=
  let c := cfg alertThreshold in
  {| config.redis_ :=
       {| config.Redis.Host := "localhost"; config.Redis.Port := "6379";
          config.Redis.Password := EmptyString; config.Redis.DB := 0 |};
     config.rateLimit := config.rateLimit c;
     config.ipBlacklist := config.ipBlacklist c;
     config.ipWhitelist := config.ipWhitelist c;
     config.requestFilter := config.requestFilter c;
     config.monitoring := config.monitoring c |}.

Definition serviceRedis (alertThreshold : Z) : ddos.ProtectionService * redis.Server :=
  ddos.NewProtectionService (fun _ => None) (cfgRedis alertThreshold) t0 noRedis.

(** The request of curl for a path that climbs out of the site. *)
Definition curlTraversal : http.Request :=
  {| http.Method := "GET"; http.Path := "/demo/../etc/passwd";
     http.RawQuery := EmptyString;
     http.Header_ := {[ "User-Agent" := ["curl/8"];
                        "X-Forwarded-For" := ["198.51.100.9"] ]};
     http.RemoteAddr := "192.0.2.1:5000"; http.ContentLength := 0 |}.

(** The memory check the service registers, on a checker that runs every
    thirty seconds with a timeout of five, and the breaker it gets. *)
Definition memoryCheck : health.HealthCheck :=
  {| health.Name := "memory"; health.Check := fun _ => None; health.IsCritical := true |}.

(** The uptime check of a service started at [t0]. *)
Definition uptimeCheck : health.HealthCheck :=
  {| health.Name := "uptime";
     health.Check := fun now =>
       if time.Sub now t0 <? time.Minute then Some "service recently started" else None;
     health.IsCritical := false |}.

Definition checker : health.HealthChecker :=
  health.RegisterHealthCheck
    (health.RegisterHealthCheck
       (health.NewHealthChecker (30 * time.Second) (5 * time.Second)) memoryCheck)
    uptimeCheck.

Definition breaker : health.CircuitBreaker.t :=
  {| health.CircuitBreaker.name := "uptime";
     health.CircuitBreaker.failureCount := 0;
     health.CircuitBreaker.successCount := 0;
     health.CircuitBreaker.lastFailure := time.zero;
     health.CircuitBreaker.state := health.StateClosed;
     health.CircuitBreaker.failureThreshold := 3;
     health.CircuitBreaker.successThreshold := 2;
     health.CircuitBreaker.timeout := 5 * time.Second;
     health.CircuitBreaker.halfOpenMaxCalls := 3;
     health.CircuitBreaker.halfOpenCalls := 0 |}.

End sample.

(* ================================================================== *)
(** * Properties *)

(** ** The library functions on sample inputs *)

Example Split_commas :
  strings.Split "203.0.113.5, 10.0.0.1,,x" "," = ["203.0.113.5"; " 10.0.0.1"; EmptyString; "x"].
Proof. reflexivity. Qed.

Example Split_no_separator : strings.Split "203.0.113.5" "," = ["203.0.113.5"].
Proof. reflexivity. Qed.

Example Split_long_separator : strings.Split "a--b-c--" "--" = ["a"; "b-c"; EmptyString].
Proof. reflexivity. Qed.

(** White space that is not ASCII is cut as well: a no-break space, U+00A0,
    before the address and an em space, U+2003, after it; a byte 160 that
    is no rune of its own stays. *)
Example TrimSpace_unicode :
  let nbsp := String "194" (String "160" EmptyString) in
  let emsp := String "226" (String "128" (String "131" EmptyString)) in
  strings.TrimSpace (nbsp +:+ "203.0.113.5" +:+ emsp +:+ " ") = "203.0.113.5" ∧
  strings.TrimSpace (" 203.0.113.5" +:+ String "160" " ")
    = "203.0.113.5" +:+ String "160" EmptyString.
Proof. vm_compute. done. Qed.

Example TrimSpace_both_ends : strings.TrimSpace "  10.0.0.1 " = "10.0.0.1".
Proof. reflexivity. Qed.

Example Cut_port : strings.Cut "203.0.113.5:40000" ":" = ("203.0.113.5", "40000", true).
Proof. reflexivity. Qed.

Example Cut_ipv6 : strings.Cut "[::1]:8080" ":" = ("[", ":1]:8080", true).
Proof. reflexivity. Qed.

Example Cut_absent : strings.Cut "localhost" ":" = ("localhost", EmptyString, false).
Proof. reflexivity. Qed.

Example Unix_before_epoch : time.Unix (-1) = -1.
Proof. reflexivity. Qed.

Example CanonicalMIMEHeaderKey_lower :
  http.CanonicalMIMEHeaderKey "content-type" = "Content-Type" ∧
  http.CanonicalMIMEHeaderKey "x-real-ip" = "X-Real-Ip" ∧
  http.CanonicalMIMEHeaderKey "not a token" = "not a token".
Proof. repeat split. Qed.

Example Duration_String_units :
  List.map time.Duration_String
    [0; 1; 9900; 1000000; 1500000000; 60 * time.Second;
     9900 * time.Second; - 2500 * time.Millisecond]
  = ["0s"; "1ns"; "9.9" +:+ String "194" (String "181" "s"); "1ms"; "1.5s"; "1m0s";
     "2h45m0s"; "-2.5s"].
Proof. vm_compute. reflexivity. Qed.

(** The long s, U+017F, is equal to an s under case folding. *)
Example EqualFold_methods :
  List.map (fun m => strings.EqualFold m "OPTIONS")
    ["OPTIONS"; "options"; "OPTION" +:+ String "197" (String "191" EmptyString);
     "OPTION"; "OPTIONSS"; "TRACE"]
  = [true; true; true; false; false; false].
Proof. vm_compute. reflexivity. Qed.

(** Some floats: the constants 0.05 and 0.8, what [int] makes of 123/60*60,
    and the seconds of a minute and a half. *)
Example float64_samples :
  float64.lit 5 100 = S754_finite false 7205759403792794 (-57) ∧
  float64.lit 8 10 = S754_finite false 7205759403792794 (-53) ∧
  float64.to_int (float64.mul (float64.div (float64.of_int 123) (float64.of_int 60))
                              (float64.of_int 60)) = 122 ∧
  float64.to_int (time.Seconds (90 * time.Second + 1)) = 90 ∧
  float64.to_int (float64.of_int (- 7)) = - 7.
Proof. vm_compute. done. Qed.

Example getNetworkFromIP_v4 :
  botnet.getNetworkFromIP "203.0.113.5" = "203.0.113" ∧
  botnet.getCountryFromIP "203.0.113.5" = "203.0" ∧
  botnet.getNetworkFromIP "::1" = "unknown".
Proof. repeat split. Qed.

Example builtin_patterns_match :
  List.map (filter.hasMaliciousPattern sample.requestFilter)
    ["/demo/"; "/demo/../etc/passwd"; "/search?q=1 UNION SELECT a FROM t";
     "/p?x=<ScRiPt>alert(1)</script>"; "/a?b=onload ="; "/index.php"; "/index.PHP";
     "/run?x=1 or 1=1"; "/api/v1/stats";
     "/ni" +:+ String "226" (String "132" (String "170" "to"));
     "/" +:+ String "197" (String "191" "hell")]
  = [false; true; true; true; true; true; false; true; false; true; true].
Proof. vm_compute. reflexivity. Qed.

Lemma canonical_keysb_sound (h : http.Header) :
  http.canonical_keysb h = true → http.canonical_keys h.
Proof.
  unfold http.canonical_keysb, http.canonical_keys. intros H k vs Hk.
  rewrite forallb_forall in H.
  apply elem_of_map_to_list, list_elem_of_In, H in Hk.
  by apply String.eqb_eq in Hk.
Qed.

(** The sample requests carry their headers under canonical keys. *)
Example sample_headers_canonical :
  http.canonical_keys (http.Header_ sample.benign) ∧
  http.canonical_keys (http.Header_ sample.traversal) ∧
  http.canonical_keys sample.twoContentTypes ∧
  http.canonical_keys sample.twoHosts ∧
  http.canonical_keys (http.Header_ sample.curl) ∧
  http.canonical_keys (http.Header_ sample.curlTraversal) ∧
  http.canonical_keys (http.Header_ sample.proxied) ∧
  http.canonical_keys (http.Header_ sample.direct).
Proof. repeat split; apply canonical_keysb_sound; vm_compute; reflexivity. Qed.

(** ** The reputation store *)

Lemma WhitelistIP_local im now ip srv :
  blacklist.whitelisted_local (blacklist.WhitelistIP im now ip srv).1.2 ip = true.
Proof.
  unfold blacklist.WhitelistIP, blacklist.whitelisted_local.
  destruct (blacklist.client _); [destruct (redis.Set_ _ _ _ _ _)|]; simpl;
    by rewrite lookup_insert_eq.
Qed.

Lemma IsWhitelisted_local im now ip srv :
  blacklist.whitelisted_local im ip = true →
  blacklist.IsWhitelisted im now ip srv = (true, srv).
Proof. intros H. unfold blacklist.IsWhitelisted. by rewrite H. Qed.

Lemma IsBlacklisted_whitelisted im now ip srv :
  blacklist.whitelisted_local im ip = true →
  blacklist.IsBlacklisted im now ip srv = (false, im, srv).
Proof.
  intros H. unfold blacklist.IsBlacklisted.
  by rewrite (IsWhitelisted_local _ _ _ _ H).
Qed.

Lemma BlacklistIP_whitelisted im now ip d srv :
  blacklist.whitelisted_local im ip = true →
  blacklist.BlacklistIP im now ip d srv = (Some (CONFLICT_WHITELISTED ip), im, srv).
Proof. intros H. unfold blacklist.BlacklistIP. by rewrite H. Qed.

(** C2 (whitelist dominance).  After [WhitelistIP k], a call
    [BlacklistIP k d] fails with the conflict error, leaves the manager and
    the remote store as they were (no blacklist entry is recorded), and
    [IsBlacklisted k] answers false.  The three calls may happen at any
    instants and the remote store may be in any state at each of them. *)
Theorem C2_whitelist_dominates
    (im : blacklist.IPManager) (k : string) (d : time.Duration)
    (t1 t2 t3 : time.Time) (srv1 srv2 srv3 : redis.Server) :
  let im1 := (blacklist.WhitelistIP im t1 k srv1).1.2 in
  let r := blacklist.BlacklistIP im1 t2 k d srv2 in
  r.1.1 = Some (CONFLICT_WHITELISTED k) ∧
  r.1.2 = im1 ∧
  r.2 = srv2 ∧
  blacklist.blacklistedIPs r.1.2 !! k = blacklist.blacklistedIPs im !! k ∧
  (blacklist.IsBlacklisted r.1.2 t3 k srv3).1.1 = false.
Proof.
  intros im1 r.
  pose proof (WhitelistIP_local im t1 k srv1) as Hw. fold im1 in Hw.
  subst r. rewrite (BlacklistIP_whitelisted _ _ _ _ _ Hw). simpl.
  repeat split; [|by rewrite (IsBlacklisted_whitelisted _ _ _ _ Hw)].
  subst im1. unfold blacklist.WhitelistIP.
  destruct (blacklist.client _); [destruct (redis.Set_ _ _ _ _ _)|]; done.
Qed.

(** ** Fail-open behaviour *)

Lemma Exists_down now key srv :
  redis.down srv (redis.calls srv) = true →
  (redis.Exists now key srv).1 = None.
Proof. intros H. unfold redis.Exists, redis.roundtrip. by rewrite H. Qed.

Lemma Exists_keeps_down now key srv n :
  redis.down (redis.Exists now key srv).2 n = redis.down srv n.
Proof.
  unfold redis.Exists, redis.roundtrip.
  by destruct (negb _).
Qed.

Lemma IsWhitelisted_down im now ip srv :
  (∀ n, redis.down srv n = true) →
  (blacklist.IsWhitelisted im now ip srv).1 = blacklist.whitelisted_local im ip ∧
  (∀ n, redis.down (blacklist.IsWhitelisted im now ip srv).2 n = true).
Proof.
  intros Hd. unfold blacklist.IsWhitelisted.
  destruct (blacklist.whitelisted_local im ip); [done|].
  destruct (blacklist.client im); [|done].
  pose proof (Exists_down now ("whitelist:" +:+ ip) srv (Hd _)) as He.
  pose proof (Exists_keeps_down now ("whitelist:" +:+ ip) srv) as Hk.
  destruct (redis.Exists _ _ _) as [r s1]; simpl in *. subst r.
  split; [done|]. intros n. by rewrite Hk.
Qed.

(** C3 (fail open).  When every round trip to Redis errors, [IsBlacklisted]
    answers false for a key with no unexpired local blacklist entry, and
    the Redis limiter's [Allow] answers true. *)
Theorem C3_fail_open
    (im : blacklist.IPManager) (rl : ratelimit.RedisLimiter.t)
    (now : time.Time) (k : string) (srv : redis.Server) :
  (∀ n, redis.down srv n = true) →
  (∀ expiry, blacklist.blacklistedIPs im !! k = Some expiry →
             time.Before now expiry = false) →
  (blacklist.IsBlacklisted im now k srv).1.1 = false ∧
  (ratelimit.RedisLimiter.Allow rl now k srv).1 = true.
Proof.
  intros Hd Hloc. split.
  - unfold blacklist.IsBlacklisted.
    destruct (IsWhitelisted_down im now k srv Hd) as [Hw Hd1].
    destruct (blacklist.IsWhitelisted im now k srv) as [w srv1]; simpl in *.
    destruct w; [done|].
    assert (∀ (c : option redis.Client) (pfx : string) (im1 : blacklist.IPManager),
      (match c with
       | Some _ =>
           let '(r, srv2) := redis.Exists now (pfx +:+ k) srv1 in
           (match r with Some n => 0 <? n | None => false end, im1, srv2)
       | None => (false, im1, srv1)
       end).1.1 = false) as Hredis.
    { intros c pfx im1. destruct c; [|done].
      pose proof (Exists_down now (pfx +:+ k) srv1 (Hd1 _)) as He.
      destruct (redis.Exists _ _ _) as [r s2]; simpl in *. by subst r. }
    destruct (blacklist.blacklistedIPs im !! k) as [expiry|] eqn:E.
    + rewrite (Hloc expiry eq_refl). cbv zeta. apply Hredis.
    + cbv zeta. apply Hredis.
  - unfold ratelimit.RedisLimiter.Allow, redis.Exec, redis.roundtrip.
    by rewrite (Hd _).
Qed.

Lemma C3_fail_open_witness :
  let im := blacklist.NewIPManager (Some sample.client) true 100 (3600 * time.Second) in
  let rl := ratelimit.RedisLimiter.New sample.client 60 (60 * time.Second) in
  let srv := redis.empty (fun _ => true) in
  (blacklist.IsBlacklisted im 1700000000000000000 "198.51.100.7" srv).1.1 = false ∧
  (ratelimit.RedisLimiter.Allow rl 1700000000000000000 "198.51.100.7" srv).1 = true.
Proof.
  intros im rl srv.
  apply (C3_fail_open im rl 1700000000000000000 "198.51.100.7" srv).
  - reflexivity.
  - intros expiry H. vm_compute in H. discriminate H.
Defined.

(** ** The Redis sliding window *)

Lemma Unix_mono t u : t <= u → time.Unix t <= time.Unix u.
Proof. intros H. unfold time.Unix, time.Second. by apply Z.div_le_mono. Qed.

Lemma Unix_nonneg t : 0 <= t → 0 <= time.Unix t.
Proof. intros H. unfold time.Unix, time.Second. by apply Z.div_pos. Qed.

Lemma in_window_mono W t now x :
  t <= now → in_window W now x = true → in_window W t x = true.
Proof.
  unfold in_window, time.Add. intros Hle H.
  apply Z.ltb_lt in H. apply Z.ltb_lt.
  pose proof (Unix_mono (t + - W) (now + - W)). lia.
Qed.

Lemma in_window_expired W now t x :
  x <= t → t + W <= now → in_window W now x = false.
Proof.
  unfold in_window, time.Add. intros Hx Ht. apply Z.ltb_ge.
  apply Unix_mono. lia.
Qed.

Lemma filter_filter_weaker {A} (p q : A → bool) (l : list A) :
  (∀ x, p x = true → q x = true) →
  List.filter p (List.filter q l) = List.filter p l.
Proof.
  intros Hpq. induction l as [|a l IH]; [done|]. simpl.
  destruct (q a) eqn:Eq; simpl.
  - by rewrite IH.
  - destruct (p a) eqn:Ep; [|done]. apply Hpq in Ep. congruence.
Qed.

Lemma filter_length_weaker {A} (p q : A → bool) (l : list A) :
  (∀ x, p x = true → q x = true) →
  (length (List.filter p l) <= length (List.filter q l))%nat.
Proof.
  intros Hpq. induction l as [|a l IH]; [done|]. simpl.
  destruct (p a) eqn:Ep.
  - rewrite (Hpq _ Ep). simpl. lia.
  - destruct (q a); simpl; lia.
Qed.

Lemma filter_none {A} (p : A → bool) (l : list A) :
  Forall (fun x => p x = false) l → List.filter p l = [].
Proof.
  induction 1 as [|a l Ha _ IH]; [done|]. simpl. by rewrite Ha.
Qed.

Lemma in_range_entry W now a :
  0 <= a →
  negb (redis.in_range 0 (time.Unix (time.Add now (- W))) (entry a)) = in_window W now a.
Proof.
  intros Ha. pose proof (Unix_nonneg a Ha).
  unfold redis.in_range, in_window, entry. simpl.
  destruct (Z.leb_spec 0 (time.Unix a)); [|lia]. simpl.
  destruct (Z.leb_spec (time.Unix a) (time.Unix (time.Add now (- W))));
    destruct (Z.ltb_spec (time.Unix (time.Add now (- W))) (time.Unix a));
    simpl; try lia; done.
Qed.

Lemma zrem_entries c (l : list time.Time) W now :
  c = time.Unix (time.Add now (- W)) →
  Forall (fun x => 0 <= x) l →
  redis.zrem 0 c (List.map entry l) = List.map entry (List.filter (in_window W now) l).
Proof.
  intros -> Hl. induction Hl as [|a l Ha _ IH]; [done|].
  unfold redis.zrem in *. simpl. rewrite IH, (in_range_entry _ _ _ Ha).
  by destruct (in_window W now a).
Qed.

Lemma has_member_entries now (l : list time.Time) :
  Forall (fun x => x < now) l →
  redis.has_member (time.UnixNano now) (List.map entry l) = false.
Proof.
  induction 1 as [|a l Ha _ IH]; [done|]. simpl. rewrite IH.
  unfold time.UnixNano. destruct (Z.eqb_spec a now); [lia|done].
Qed.

(** What the four queued commands do to the key. *)
Lemma pipeline_effect rl now K s z' :
  match redis.get_zset now K s with
  | Some (z, _) =>
      redis.zrem 0 (time.Unix (time.Add now (- ratelimit.RedisLimiter.window rl))) z
  | None => []
  end = z' →
  redis.has_member (time.UnixNano now) z' = false →
  0 < redis.formatSec (ratelimit.RedisLimiter.window rl) →
  let r := redis.apply_all now (ratelimit.RedisLimiter.pipeline rl now K) s in
  nth 1 r.1 0 = Z.of_nat (length z') ∧
  redis.zsets r.2 !! K =
    Some (z' ++ [entry now],
          Some (now + redis.formatSec (ratelimit.RedisLimiter.window rl) * time.Second)) ∧
  redis.down r.2 = redis.down s.
Proof.
  intros Hz Hm Hsec.
  assert (Hget : ∀ v s0, redis.get_zset now K (redis.put_zset K v s0) =
            match v with
            | Some e => if redis.live now e then Some e else None
            | None => None
            end).
  { intros v s0. unfold redis.get_zset, redis.put_zset. simpl.
    destruct v; [by rewrite lookup_insert_eq | by rewrite lookup_delete_eq]. }
  assert (Hlook : ∀ e s0, redis.zsets (redis.put_zset K (Some e) s0) !! K = Some e).
  { intros e s0. unfold redis.put_zset. simpl. by rewrite lookup_insert_eq. }
  apply Z.ltb_lt in Hsec.
  unfold ratelimit.RedisLimiter.pipeline. cbn [redis.apply_all redis.apply].
  destruct (redis.get_zset now K s) as [[z ttl]|] eqn:E.
  - assert (Hlive : redis.live now (z' , ttl) = true).
    { unfold redis.get_zset in E. destruct (redis.zsets s !! K) as [e|]; [|done].
      destruct (redis.live now e) eqn:El; [|done]. by simplify_eq. }
    rewrite Hz. destruct z' as [|e0 z'].
    + repeat (rewrite Hget; cbn). rewrite Hsec, lookup_insert_eq. done.
    + rewrite Hget, Hlive. cbn [fst snd]. rewrite Hget, Hlive. cbn [fst snd].
      rewrite Hget.
      assert (redis.live now
                (redis.zadd (time.Unix now) (time.UnixNano now) (e0 :: z'), ttl) = true)
        as -> by done.
      cbn [fst snd]. rewrite Hsec, Hlook. unfold redis.zadd. rewrite Hm. done.
  - subst z'. repeat (rewrite Hget; cbn). rewrite Hsec, lookup_insert_eq. done.
Qed.

Lemma formatSec_whole w : 0 < w → redis.formatSec (w * time.Second) = w.
Proof.
  intros Hw. unfold redis.formatSec, time.Second.
  destruct (Z.ltb_spec (w * 1000000000) 1000000000); [lia|].
  rewrite andb_false_r. by rewrite Z.quot_mul.
Qed.

(** The sorted set, filtered at a later call, is the filtered history. *)
Lemma window_inv_view rl key w h srv now :
  0 < w →
  ratelimit.RedisLimiter.window rl = w * time.Second →
  window_inv rl key h srv →
  Forall (fun x => x < now) h →
  match redis.get_zset now (ratelimit.RedisLimiter.prefix rl +:+ key) srv with
  | Some (z, _) =>
      redis.zrem 0 (time.Unix (time.Add now (- ratelimit.RedisLimiter.window rl))) z
  | None => []
  end = List.map entry (List.filter (in_window (ratelimit.RedisLimiter.window rl) now) h)
  ∧ Forall (fun x => 0 <= x) h.
Proof.
  intros Hw HW [[-> Hk]|(h0 & t & -> & Hh0 & Ht & Hk)] Hlt.
  - unfold redis.get_zset. by rewrite Hk.
  - rewrite Forall_app, Forall_singleton in Hlt. destruct Hlt as [_ Hlt].
    assert (Hnn : Forall (fun x => 0 <= x) (h0 ++ [t])).
    { apply Forall_app. split; [|by apply Forall_singleton].
      eapply Forall_impl; [exact Hh0|]. simpl. lia. }
    split; [|done].
    unfold redis.get_zset. rewrite Hk. unfold redis.live. cbn [snd].
    set (W := ratelimit.RedisLimiter.window rl) in *.
    destruct (Z.ltb_spec now (t + W)).
    + rewrite List.filter_app, List.map_app. unfold redis.zrem.
      rewrite List.filter_app. f_equal.
      * fold (redis.zrem 0 (time.Unix (time.Add now (- W)))
                (map entry (List.filter (in_window W t) h0))).
        rewrite (zrem_entries _ _ W now eq_refl).
        -- f_equal. apply filter_filter_weaker. intros x. apply in_window_mono. lia.
        -- apply List.Forall_forall. intros x Hx.
           apply List.filter_In in Hx as [Hx _].
           rewrite List.Forall_forall in Hh0. specialize (Hh0 x Hx). lia.
      * simpl. rewrite (in_range_entry W now t Ht). by destruct (in_window W now t).
    + symmetry. rewrite filter_none; [done|].
      apply Forall_app. split.
      * eapply Forall_impl; [exact Hh0|]. simpl. intros x Hx.
        apply (in_window_expired W now t); lia.
      * apply Forall_singleton. apply (in_window_expired W now t); lia.
Qed.

(** One call: the answer counts the earlier calls that the window at [now]
    still holds, and the call is recorded whatever the answer. *)
Lemma Allow_step rl key w h srv now :
  0 < w →
  ratelimit.RedisLimiter.window rl = w * time.Second →
  (∀ n, redis.down srv n = false) →
  window_inv rl key h srv →
  Forall (fun x => x < now) h →
  0 <= now →
  let r := ratelimit.RedisLimiter.Allow rl now key srv in
  r.1 = allowed_at (ratelimit.RedisLimiter.limit rl) (ratelimit.RedisLimiter.window rl) h now ∧
  (∀ n, redis.down r.2 n = false) ∧
  window_inv rl key (h ++ [now]) r.2.
Proof.
  intros Hw HW Hup Hinv Hlt Hnow.
  destruct (window_inv_view rl key w h srv now Hw HW Hinv Hlt) as [Hview Hnn].
  unfold ratelimit.RedisLimiter.Allow, redis.Exec, redis.roundtrip.
  rewrite (Hup _). cbn [negb].
  set (K := ratelimit.RedisLimiter.prefix rl +:+ key) in *.
  set (W := ratelimit.RedisLimiter.window rl) in *.
  set (s1 := {| redis.strs := redis.strs srv; redis.zsets := redis.zsets srv;
                redis.calls := S (redis.calls srv); redis.down := redis.down srv |}).
  assert (Hm : redis.has_member (time.UnixNano now)
                 (List.map entry (List.filter (in_window W now) h)) = false).
  { apply has_member_entries. apply List.Forall_forall. intros x Hx.
    apply List.filter_In in Hx as [Hx _].
    rewrite List.Forall_forall in Hlt. by apply Hlt. }
  assert (Hsec : 0 < redis.formatSec W).
  { subst W. rewrite HW, formatSec_whole; lia. }
  pose proof (pipeline_effect rl now K s1 _ Hview Hm Hsec) as (Hcount & Hk & Hdown).
  destruct (redis.apply_all now (ratelimit.RedisLimiter.pipeline rl now K) s1)
    as [rs s2]. cbn [fst snd] in *.
  split; [|split].
  - rewrite Hcount. unfold allowed_at. by rewrite length_map.
  - intros n. rewrite Hdown. apply Hup.
  - right. exists h, now. split; [done|]. split; [|split; [done|]].
    + apply List.Forall_forall. intros x Hx.
      rewrite List.Forall_forall in Hlt, Hnn. split; [by apply Hnn | by apply Hlt].
    + subst K W. rewrite Hk, HW, formatSec_whole by lia. done.
Qed.

(** A run of calls at increasing instants answers as [answers] says. *)
Lemma AllowMany_answers rl key w ts : ∀ h srv,
  0 < w →
  ratelimit.RedisLimiter.window rl = w * time.Second →
  (∀ n, redis.down srv n = false) →
  window_inv rl key h srv →
  StronglySorted Z.lt (h ++ ts) →
  Forall (fun x => 0 <= x) ts →
  (scenario.AllowMany rl key ts srv).1 =
    answers (ratelimit.RedisLimiter.limit rl) (ratelimit.RedisLimiter.window rl) h ts.
Proof.
  induction ts as [|t ts IH]; intros h srv Hw HW Hup Hinv Hs Hnn; [done|].
  cbn [scenario.AllowMany answers].
  assert (Hlt : Forall (fun x => x < t) h).
  { apply List.Forall_forall. intros x Hx.
    apply (StronglySorted_app_1_elem_of Z.lt h (t :: ts)); [done| |by left].
    by apply list_elem_of_In. }
  apply Forall_cons in Hnn as [Ht Hnn].
  pose proof (Allow_step rl key w h srv t Hw HW Hup Hinv Hlt Ht) as (Hr & Hup' & Hinv').
  destruct (ratelimit.RedisLimiter.Allow rl t key srv) as [b srv1]. cbn [fst snd] in *.
  specialize (IH (h ++ [t]) srv1 Hw HW Hup' Hinv').
  rewrite <- app_assoc in IH. specialize (IH Hs Hnn).
  destruct (scenario.AllowMany rl key ts srv1) as [bs srv2].
  cbn [fst snd] in *. by rewrite Hr, IH.
Qed.

Lemma answers_lookup L W ts : ∀ h i t,
  ts !! i = Some t →
  answers L W h ts !! i = Some (allowed_at L W (h ++ take i ts) t).
Proof.
  induction ts as [|a ts IH]; intros h i t Hi; [done|].
  destruct i as [|i]; simpl in *.
  - simplify_eq. by rewrite app_nil_r.
  - rewrite (IH (h ++ [a]) i t Hi). by rewrite <- app_assoc.
Qed.

Lemma allowed_at_full_window L W h t :
  Forall (fun x => in_window W t x = true) h →
  allowed_at L W h t = (Z.of_nat (length h) <? L).
Proof.
  intros H. unfold allowed_at. f_equal. f_equal. f_equal.
  induction H as [|a l Ha _ IH]; [done|]. simpl. by rewrite Ha, IH.
Qed.

(** Among the calls of a run that the window at [now] holds, and together
    with the earlier calls [h] that it holds, at most [L] are allowed. *)
Lemma answers_bound L W now ts : ∀ h,
  allowed_in_window W now ts (answers L W h ts) = O ∨
  (Z.of_nat (allowed_in_window W now ts (answers L W h ts)) +
   Z.of_nat (length (List.filter (in_window W now) h)) <= L).
Proof.
  unfold allowed_in_window.
  induction ts as [|t ts IH]; intros h; [by left|].
  cbn [answers zip zip_with List.filter fst snd].
  specialize (IH (h ++ [t])). rewrite List.filter_app, length_app in IH.
  cbn [List.filter] in IH.
  destruct (allowed_at L W h t) eqn:Ea; cbn [andb]; [|destruct IH as [IH|IH]].
  - destruct (Z.leb_spec t now) as [Hle|]; cbn [andb]; [|destruct IH as [IH|IH]].
    + destruct (in_window W now t) eqn:Ew; [|destruct IH as [IH|IH]].
      * right. cbn [length] in *. destruct IH as [IH|IH].
        -- rewrite IH. unfold allowed_at in Ea. apply Z.ltb_lt in Ea.
           pose proof (filter_length_weaker (in_window W now) (in_window W t) h
                         (fun x => in_window_mono W t now x Hle)). lia.
        -- lia.
      * by left.
      * right. cbn [length] in IH. lia.
    + by left.
    + right. destruct (in_window W now t); cbn [length] in IH; lia.
  - by left.
  - right. destruct (in_window W now t); cbn [length] in IH; lia.
Qed.

(** C4, as amended.  The Redis limiter with limit [L] and a window [W] of a
    whole number [w >= 1] of seconds, driven for one key whose sorted set
    does not exist yet, by calls at increasing instants after the epoch
    that all reach the store: each call is allowed exactly when fewer than
    [L] earlier calls, allowed or not, carry a Unix second greater than the
    Unix second of [now - W]; hence, when all earlier calls are in that
    window, the [L]-th call is allowed and the [(L+1)]-th is refused; and
    for every instant [now] at most [L] allowed calls are in the window
    the code computes at [now]. *)
Theorem C4_sliding_window_whole_seconds
    (rl : ratelimit.RedisLimiter.t) (key : string) (w : Z)
    (ts : list time.Time) (srv : redis.Server) :
  0 < w →
  ratelimit.RedisLimiter.window rl = w * time.Second →
  (∀ n, redis.down srv n = false) →
  redis.zsets srv !! (ratelimit.RedisLimiter.prefix rl +:+ key) = None →
  StronglySorted Z.lt ts →
  Forall (fun t => 0 <= t) ts →
  let L := ratelimit.RedisLimiter.limit rl in
  let W := ratelimit.RedisLimiter.window rl in
  let rs := (scenario.AllowMany rl key ts srv).1 in
  (∀ i t, ts !! i = Some t → rs !! i = Some (allowed_at L W (take i ts) t)) ∧
  (∀ t, 1 <= L → ts !! Z.to_nat (L - 1) = Some t →
        Forall (fun x => in_window W t x = true) (take (Z.to_nat (L - 1)) ts) →
        rs !! Z.to_nat (L - 1) = Some true) ∧
  (∀ t, 0 <= L → ts !! Z.to_nat L = Some t →
        Forall (fun x => in_window W t x = true) (take (Z.to_nat L) ts) →
        rs !! Z.to_nat L = Some false) ∧
  (∀ now, Z.of_nat (allowed_in_window W now ts rs) <= Z.max 0 L).
Proof.
  intros Hw HW Hup Hk Hs Hnn L W rs.
  assert (Hrs : rs = answers L W [] ts).
  { subst rs L W. apply (AllowMany_answers rl key w ts [] srv); try done. by left. }
  assert (Hi : ∀ i t, ts !! i = Some t → rs !! i = Some (allowed_at L W (take i ts) t)).
  { intros i t Ht. rewrite Hrs. by rewrite (answers_lookup L W ts [] i t Ht). }
  assert (Hlen : ∀ i t, ts !! i = Some t → length (take i ts) = i).
  { intros i t Ht. apply length_take_le. apply lookup_lt_Some in Ht. lia. }
  split; [exact Hi|]. split; [|split].
  - intros t HL Ht Hall. rewrite (Hi _ _ Ht), (allowed_at_full_window _ _ _ _ Hall).
    rewrite (Hlen _ _ Ht). f_equal. apply Z.ltb_lt. lia.
  - intros t HL Ht Hall. rewrite (Hi _ _ Ht), (allowed_at_full_window _ _ _ _ Hall).
    rewrite (Hlen _ _ Ht). f_equal. apply Z.ltb_ge. lia.
  - intros now. rewrite Hrs.
    destruct (answers_bound L W now ts []) as [H|H]; [rewrite H|simpl in H]; lia.
Qed.

Lemma C4_sliding_window_whole_seconds_witness :
  let rl := ratelimit.RedisLimiter.New sample.client 2 (60 * time.Second) in
  let ts := [1700000000000000000; 1700000000100000000; 1700000000200000000] in
  let rs := (scenario.AllowMany rl "198.51.100.7" ts
               (redis.empty (fun _ => false))).1 in
  rs !! 1%nat = Some true ∧ rs !! 2%nat = Some false ∧
  ∀ now, Z.of_nat (allowed_in_window (60 * time.Second) now ts rs) <= 2.
Proof.
  intros rl ts rs.
  assert (Hs : StronglySorted Z.lt ts).
  { subst ts. repeat (constructor; [|repeat constructor; lia]). constructor. }
  assert (Hnn : Forall (fun t => 0 <= t) ts).
  { subst ts. repeat constructor; lia. }
  destruct (C4_sliding_window_whole_seconds rl "198.51.100.7" 60 ts
              (redis.empty (fun _ => false)) ltac:(lia) eq_refl
              (fun _ => eq_refl) eq_refl Hs Hnn) as (_ & H1 & H2 & H3).
  split; [|split].
  - apply (H1 1700000000100000000); [simpl; lia | reflexivity |].
    repeat constructor.
  - apply (H2 1700000000200000000); [simpl; lia | reflexivity |].
    repeat constructor.
  - exact H3.
Defined.

(** C4 as stated fails: with [L = 1] and [W = 1s], calls at 0.9 s and 1.0 s
    are both allowed although they lie 0.1 s apart: the second call removes
    every entry whose Unix second is at most that of [now - W], which is the
    second of the first call. *)
Lemma C4_counterexample :
  let rl := ratelimit.RedisLimiter.New sample.client 1 (1 * time.Second) in
  (scenario.AllowMany rl "198.51.100.7" [900000000; 1000000000]
     (redis.empty (fun _ => false))).1 = [true; true] ∧
  1000000000 - 900000000 < ratelimit.RedisLimiter.window rl ∧
  ratelimit.RedisLimiter.limit rl = 1.
Proof. vm_compute. repeat split; congruence. Qed.

(** ** Floating point: how large a rounded result is *)

(** The operations of [SpecFloat] shift and round mantissas.  What follows
    bounds their results from below, which is what the final decision of
    the detector needs, and shows that small integers are floats. *)

(** *** Digits and shifts *)

Lemma digits2_pos_size p : digits2_pos p = Pos.size p.
Proof. induction p; simpl; congruence. Qed.

Lemma Zdigits2_log2 m : 0 < m → Zdigits2 m = Z.log2 m + 1.
Proof.
  destruct m as [|p|p]; try lia. intros _. simpl. rewrite digits2_pos_size.
  destruct p; simpl; lia.
Qed.

Lemma Zdigits2_spec m : 0 < m → 2 ^ (Zdigits2 m - 1) <= m < 2 ^ Zdigits2 m.
Proof.
  intros H. rewrite Zdigits2_log2 by done.
  replace (Z.log2 m + 1 - 1) with (Z.log2 m) by lia.
  replace (Z.log2 m + 1) with (Z.succ (Z.log2 m)) by lia.
  by apply Z.log2_spec.
Qed.

Lemma Zdigits2_unique m k : 2 ^ (k - 1) <= m < 2 ^ k → 0 < k → Zdigits2 m = k.
Proof.
  intros H Hk. assert (0 < m) by (pose proof (Z.pow_pos_nonneg 2 (k - 1)); lia).
  rewrite Zdigits2_log2 by done.
  rewrite (Z.log2_unique m (k - 1)); [lia | lia |].
  replace (Z.succ (k - 1)) with k by lia. done.
Qed.







(** *** Rounding *)




(** *** The operations *)


Lemma iter_xO p q : Z.pos (Pos.iter xO p q) = Z.pos p * 2 ^ Z.pos q.
Proof.
  rewrite Pos2Nat.inj_iter, <- (positive_nat_Z q).
  induction (Pos.to_nat q) as [|n IH].
  - simpl. lia.
  - cbn [nat_rect]. rewrite Pos2Z.inj_xO, IH, Nat2Z.inj_succ, Z.pow_succ_r by lia. lia.
Qed.










(** *** Whole numbers *)

Lemma binary_round_aux_exact sx m e :
  Z.pos (digits2_pos m) = 53 → -1074 <= e <= 971 →
  binary_round_aux 53 1024 sx (Z.pos m) e loc_Exact = S754_finite sx m e.
Proof.
  intros Hd He. unfold binary_round_aux, shr_fexp. cbn [Zdigits2]. rewrite Hd.
  assert (fexp 53 1024 (53 + e) - e = 0) as -> by (unfold fexp, emin; lia).
  cbn [shr shr_record_of_loc shr_m loc_of_shr_record round_nearest_even Zdigits2].
  rewrite Hd.
  assert (fexp 53 1024 (53 + e) - e = 0) as -> by (unfold fexp, emin; lia).
  cbn [shr shr_record_of_loc shr_m].
  assert ((e <=? 1024 - 53) = true) as -> by (apply Z.leb_le; lia).
  done.
Qed.

(** An integer of fewer than 54 bits is a float, and converts back. *)
Lemma to_int_of_int z :
  - 2 ^ 53 < z < 2 ^ 53 → float64.to_int (float64.of_int z) = z.
Proof.
  intros Hz. unfold float64.of_int, binary_normalize.
  assert (∀ sx p, Z.pos p < 2 ^ 53 →
            float64.to_int (binary_round 53 1024 sx p 0) =
            if sx then Z.neg p else Z.pos p) as Hp.
  { intros sx p Hlt. unfold binary_round.
    pose proof (Zdigits2_spec (Z.pos p) eq_refl) as Hs. cbn [Zdigits2] in Hs.
    set (d := Z.pos (digits2_pos p)) in *.
    assert (1 <= d <= 53) as Hd.
    { split; [subst d; lia|].
      destruct (Z.le_gt_cases d 53) as [|Hgt]; [done|].
      assert (2 ^ 53 <= 2 ^ (d - 1)) by (apply Z.pow_le_mono_r; lia). lia. }
    assert (fexp 53 1024 (d + 0) = d - 53) as -> by (unfold fexp, emin; lia).
    unfold shl_align. destruct (d - 53 - 0) as [|k|k] eqn:E; [|lia|].
    - assert (d = 53) as Hd53 by lia.
      rewrite binary_round_aux_exact by (fold d; lia).
      cbn [float64.to_int Z.leb Z.compare]. rewrite Z.pow_0_r, Z.mul_1_r.
      assert ((- 2 ^ 63 <=? (if sx then - Z.pos p else Z.pos p)) &&
              ((if sx then - Z.pos p else Z.pos p) <? 2 ^ 63) = true) as ->.
      { apply andb_true_intro. rewrite Z.leb_le, Z.ltb_lt. destruct sx; lia. }
      by destruct sx.
    - assert (Z.pos k = 53 - d) as Hk by lia.
      assert (Z.pos (digits2_pos (Pos.iter xO p k)) = 53) as Hdm.
      { change (Z.pos (digits2_pos (Pos.iter xO p k)))
          with (Zdigits2 (Z.pos (Pos.iter xO p k))).
        apply Zdigits2_unique; [|done]. rewrite iter_xO, Hk. change (53 - 1) with 52.
        split.
        - replace 52 with ((d - 1) + (53 - d)) by lia. rewrite Z.pow_add_r by lia.
          apply Z.mul_le_mono_nonneg_r; lia.
        - replace 53 with (d + (53 - d)) at 2 by lia. rewrite Z.pow_add_r by lia.
          apply Z.mul_lt_mono_pos_r; lia. }
      rewrite binary_round_aux_exact by (done || lia).
      cbn [float64.to_int].
      assert ((0 <=? d - 53) = false) as -> by (apply Z.leb_gt; lia).
      rewrite iter_xO, Hk. replace (- (d - 53)) with (53 - d) by lia.
      rewrite Z.div_mul by lia.
      assert ((- 2 ^ 63 <=? (if sx then - Z.pos p else Z.pos p)) &&
              ((if sx then - Z.pos p else Z.pos p) <? 2 ^ 63) = true) as ->.
      { apply andb_true_intro. rewrite Z.leb_le, Z.ltb_lt. destruct sx; lia. }
      by destruct sx. }
  destruct z as [|p|p]; [done | |].
  - rewrite Hp; [done | lia].
  - rewrite Hp; [done | lia].
Qed.

Lemma to_int_add_zero x :
  float64.to_int (float64.add x (S754_zero false)) = float64.to_int x.
Proof. by destruct x as [[]|[]| |s m e]. Qed.

(** A whole number of seconds, within the range of a duration, is told
    exactly by [Seconds]. *)
Lemma Seconds_whole n :
  - 9223372036 <= n <= 9223372036 →
  float64.to_int (time.Seconds (n * time.Second)) = n.
Proof.
  intros Hn. unfold time.Seconds, time.Second.
  rewrite Z.quot_mul, Z.rem_mul by done.
  change (float64.div (float64.of_int 0) (float64.of_int 1000000000))
    with (S754_zero false).
  rewrite to_int_add_zero. apply to_int_of_int.
  change (2 ^ 53) with 9007199254740992. lia.
Qed.

(** ** The behavioural detector *)

(** The scores an analysis can reach: between 0 and 285, with at most twelve
    indicators.  There the confidence of the specification, evaluated in
    [float64], lies between 0 and 1 and within [2 ^ -52] of its exact
    value. *)
Definition confidence_check (risk n : Z) : bool :=
  let c := confidence_float risk n in
  float64.leb (float64.of_int 0) c && float64.leb c (float64.of_int 1) &&
  Qle_bool (Qabs (float64.to_Q c - confidence_exact risk n)) (1 # 4503599627370496).

Lemma confidence_table :
  forallb (fun risk => forallb (confidence_check risk) (seqZ 0 13)) (seqZ 0 286) = true.
Proof. vm_compute. reflexivity. Qed.

Lemma confidence_reachable risk n :
  0 <= risk <= 285 → 0 <= n <= 12 →
  float64.leb (float64.of_int 0) (confidence_float risk n) = true ∧
  float64.leb (confidence_float risk n) (float64.of_int 1) = true ∧
  (Qabs (float64.to_Q (confidence_float risk n) - confidence_exact risk n)
     <= 1 # 4503599627370496)%Q.
Proof.
  intros Hr Hn. pose proof confidence_table as H.
  rewrite forallb_forall in H.
  specialize (H risk). rewrite forallb_forall in H.
  assert (confidence_check risk n = true) as Hc.
  { apply H; apply list_elem_of_In, elem_of_seqZ; lia. }
  unfold confidence_check in Hc.
  apply andb_prop in Hc as [Hc H3]. apply andb_prop in Hc as [H1 H2].
  by apply Qle_bool_iff in H3.
Qed.




Lemma AnalyzeRequest_final bd now ip ua path rt :
  ∃ a bd',
    (botnet.AnalyzeRequest bd now ip ua path rt).1 = botnet.calculateFinalDecision bd' a ∧
    botnet.detectionThreshold bd' = botnet.detectionThreshold bd.
Proof.
  unfold botnet.AnalyzeRequest.
  destruct (botnet.analyzeNetwork _ _ _ _) as [a2 bd3] eqn:E2.
  destruct (botnet.analyzeCoordination _ _ _ _) as [a5 bd4] eqn:E5.
  exists a5, bd4. split; [done|].
  unfold botnet.analyzeCoordination in E5. unfold botnet.analyzeNetwork in E2.
  by simplify_eq.
Qed.

(** Every request counts towards the bucket, whoever sends it. *)
Lemma analyzeNetwork_counts_requests bd now ip a :
  let network := botnet.getNetworkFromIP ip in
  let before :=
    default 0 (botnet.NetworkStats.IPCount <$> botnet.networkRanges bd !! network) in
  let r := botnet.analyzeNetwork bd now ip a in
  botnet.NetworkStats.IPCount <$> botnet.networkRanges r.2 !! network
    = Some (add64 before 1) ∧
  r.1 = if 100 <? add64 before 1
        then botnet.BotnetAnalysis.flag "High IP count from network" 30 a
        else a.
Proof.
  intros network before r. subst r before. unfold botnet.analyzeNetwork. fold network.
  cbn [fst snd botnet.set_networkRanges botnet.networkRanges].
  rewrite lookup_insert_eq.
  by destruct (botnet.networkRanges bd !! network).
Qed.

(** C8, on the code: one address is enough.  A single client sends 101
    requests, one per second, to a fresh detector; none of the first 100
    analyses carries the network indicator, the 101st carries it with its
    30 points, although the detector has seen one address only. *)
Theorem C8_single_ip_raises_network_indicator :
  let bd := botnet.NewBotnetDetector (float64.lit 8 10) (60 * time.Second) in
  let run := scenario.AnalyzeRepeated 101 bd 1700000000000000000 time.Second
               "203.0.113.5" "Mozilla/5.0" "/demo/" 0 in
  forallb (fun a => negb (has_indicator "High IP count from network" a))
          (take 100 run.1) = true ∧
  has_indicator "High IP count from network" <$> run.1 !! 100%nat = Some true ∧
  botnet.BotnetAnalysis.RiskScore <$> run.1 !! 100%nat = Some 125 ∧
  botnet.BotnetAnalysis.RiskScore <$> run.1 !! 99%nat = Some 95 ∧
  size (botnet.requestPatterns run.2) = 1%nat ∧
  botnet.NetworkStats.IPCount <$> botnet.networkRanges run.2 !! "203.0.113" = Some 101.
Proof. vm_compute. repeat split. Qed.

(** ** The expression matcher *)

Lemma append_cons c (s t : string) : String c s +:+ t = String c (s +:+ t).
Proof. reflexivity. Qed.

Lemma append_nil_l (t : string) : EmptyString +:+ t = t.
Proof. reflexivity. Qed.

Lemma append_eq_nil (s1 s2 : string) :
  s1 +:+ s2 = EmptyString → s1 = EmptyString ∧ s2 = EmptyString.
Proof. destruct s1; [done|]. rewrite append_cons. discriminate. Qed.

Lemma matches_Fail_inv s : matches regexp.Fail s → False.
Proof. inversion 1. Qed.

Lemma matches_Empty_inv s : matches regexp.Empty s → s = EmptyString.
Proof. by inversion 1. Qed.

Lemma matches_Char_inv p s :
  matches (regexp.Char p) s → ∃ c, s = String c EmptyString ∧ p c = true.
Proof. inversion 1; subst; eauto. Qed.

Lemma matches_Cat_inv r1 r2 s :
  matches (regexp.Cat r1 r2) s → ∃ s1 s2, s = s1 +:+ s2 ∧ matches r1 s1 ∧ matches r2 s2.
Proof. inversion 1; subst; eauto. Qed.

Lemma matches_Alt_inv r1 r2 s :
  matches (regexp.Alt r1 r2) s → matches r1 s ∨ matches r2 s.
Proof. inversion 1; subst; eauto. Qed.

Lemma matches_Star_inv r s :
  matches (regexp.Star r) s →
  s = EmptyString ∨
  ∃ c s1 s2,
    s = String c s1 +:+ s2 ∧ matches r (String c s1) ∧ matches (regexp.Star r) s2.
Proof. inversion 1; subst; eauto 10. Qed.

Lemma matches_cat r1 r2 s : matches (regexp.cat r1 r2) s ↔ matches (regexp.Cat r1 r2) s.
Proof.
  split.
  - intros H.
    destruct r1; try (by apply matches_Fail_inv in H);
      destruct r2; try (by apply matches_Fail_inv in H); try exact H;
      apply (matches_Cat regexp.Empty _ EmptyString s matches_Empty H).
  - intros H. apply matches_Cat_inv in H as (s1 & s2 & -> & H1 & H2).
    destruct r1; try (by apply matches_Fail_inv in H1);
      destruct r2; try (by apply matches_Fail_inv in H2);
      try (by apply matches_Cat);
      apply matches_Empty_inv in H1; subst s1; exact H2.
Qed.

Lemma matches_alt r1 r2 s : matches (regexp.alt r1 r2) s ↔ matches (regexp.Alt r1 r2) s.
Proof.
  split.
  - intros H.
    destruct r1; destruct r2; try exact H;
      try (by apply matches_Alt_r); try (by apply matches_Alt_l).
  - intros H. apply matches_Alt_inv in H as [H|H].
    + destruct r1; try (by apply matches_Fail_inv in H);
        destruct r2; try exact H; by apply matches_Alt_l.
    + destruct r2; try (by apply matches_Fail_inv in H);
        destruct r1; try exact H; by apply matches_Alt_r.
Qed.

Lemma nullable_matches r : regexp.nullable r = true ↔ matches r EmptyString.
Proof.
  induction r as [| |p|r1 IH1 r2 IH2|r1 IH1 r2 IH2|r IH]; cbn [regexp.nullable].
  - split; [done | by intros H%matches_Fail_inv].
  - split; [constructor | done].
  - split; [done | by intros (c & E & _)%matches_Char_inv].
  - rewrite andb_true_iff, IH1, IH2. split.
    + intros [H1 H2]. apply (matches_Cat _ _ EmptyString EmptyString H1 H2).
    + intros (s1 & s2 & E & H1 & H2)%matches_Cat_inv.
      symmetry in E. apply append_eq_nil in E as [-> ->]. done.
  - rewrite orb_true_iff, IH1, IH2. split.
    + intros [H|H]; [by apply matches_Alt_l | by apply matches_Alt_r].
    + by intros H%matches_Alt_inv.
  - split; [constructor | done].
Qed.

Lemma deriv_matches c r : ∀ s, matches (regexp.deriv c r) s ↔ matches r (String c s).
Proof.
  induction r as [| |p|r1 IH1 r2 IH2|r1 IH1 r2 IH2|r IH]; intros s; cbn [regexp.deriv].
  - split; by intros H%matches_Fail_inv.
  - split; [by intros H%matches_Fail_inv | by intros H%matches_Empty_inv].
  - destruct (p c) eqn:E; split.
    + intros ->%matches_Empty_inv. by constructor.
    + intros (c' & E' & _)%matches_Char_inv. inversion E'; subst. constructor.
    + by intros H%matches_Fail_inv.
    + intros (c' & E' & Hp)%matches_Char_inv. inversion E'; subst. congruence.
  - rewrite matches_alt. split.
    + intros [H1|H1]%matches_Alt_inv.
      * apply matches_cat, matches_Cat_inv in H1 as (s1 & s2 & -> & Ha & Hb).
        apply IH1 in Ha. apply (matches_Cat _ _ (String c s1) s2 Ha Hb).
      * destruct (regexp.nullable r1) eqn:En; [|by apply matches_Fail_inv in H1].
        apply nullable_matches in En. apply IH2 in H1.
        apply (matches_Cat _ _ EmptyString _ En H1).
    + intros (s1 & s2 & E & Ha & Hb)%matches_Cat_inv.
      destruct s1 as [|c1 s1]; rewrite ?append_cons, ?append_nil_l in E.
      * subst s2. apply matches_Alt_r.
        apply nullable_matches in Ha. rewrite Ha. by apply IH2.
      * inversion E; subst. apply matches_Alt_l. apply matches_cat.
        apply matches_Cat; [by apply IH1 | done].
  - rewrite matches_alt. split.
    + intros [H|H]%matches_Alt_inv;
        [apply matches_Alt_l; by apply IH1 | apply matches_Alt_r; by apply IH2].
    + intros [H|H]%matches_Alt_inv;
        [apply matches_Alt_l; by apply IH1 | apply matches_Alt_r; by apply IH2].
  - rewrite matches_cat. split.
    + intros (s1 & s2 & -> & Ha & Hb)%matches_Cat_inv.
      apply IH in Ha. apply (matches_Star_cons _ c s1 s2 Ha Hb).
    + intros [E|(c' & s1 & s2 & E & Ha & Hb)]%matches_Star_inv; [done|].
      rewrite append_cons in E. inversion E; subst.
      apply matches_Cat; [by apply IH | done].
Qed.

(** [matchPrefix] finds the prefixes an expression matches. *)
Lemma matchPrefix_spec s : ∀ r,
  regexp.matchPrefix r s = true ↔ ∃ s1 s2, s = s1 +:+ s2 ∧ matches r s1.
Proof.
  induction s as [|c s IH]; intros r; cbn [regexp.matchPrefix].
  - rewrite orb_false_r, nullable_matches. split.
    + intros H. by exists EmptyString, EmptyString.
    + intros (s1 & s2 & E & H). symmetry in E. apply append_eq_nil in E as [-> _]. done.
  - rewrite orb_true_iff, nullable_matches, IH. split.
    + intros [H|(s1 & s2 & -> & H)].
      * by exists EmptyString, (String c s).
      * exists (String c s1), s2. split; [done|]. by apply deriv_matches.
    + intros (s1 & s2 & E & H). destruct s1 as [|c1 s1]; [by left|].
      right. rewrite append_cons in E. inversion E; subst. exists s1, s2. split; [done|].
      by apply deriv_matches.
Qed.

(** [MatchString] finds the substrings an expression matches. *)
Lemma MatchString_spec r s :
  regexp.MatchString r s = true ↔ ∃ s0 s1 s2, s = s0 +:+ s1 +:+ s2 ∧ matches r s1.
Proof.
  induction s as [|c s IH]; cbn [regexp.MatchString].
  - rewrite orb_false_r, matchPrefix_spec. split.
    + intros (s1 & s2 & E & H). by exists EmptyString, s1, s2.
    + intros (s0 & s1 & s2 & E & H). symmetry in E.
      apply append_eq_nil in E as [-> E]. apply append_eq_nil in E as [-> ->].
      by exists EmptyString, EmptyString.
  - rewrite orb_true_iff, matchPrefix_spec, IH. split.
    + intros [(s1 & s2 & E & H)|(s0 & s1 & s2 & -> & H)].
      * by exists EmptyString, s1, s2.
      * by exists (String c s0), s1, s2.
    + intros (s0 & s1 & s2 & E & H). destruct s0 as [|c0 s0].
      * left. by exists s1, s2.
      * right. rewrite append_cons in E. inversion E; subst. by exists s0, s1, s2.
Qed.

(** ** The request filter *)

Lemma wrap64_small z :
  - 9223372036854775808 <= z < 9223372036854775808 → wrap64 z = z.
Proof.
  intros H. unfold wrap64.
  change (2 ^ 63) with 9223372036854775808.
  change (2 ^ 64) with 18446744073709551616.
  rewrite Z.mod_small; lia.
Qed.

Lemma add64_small a b :
  - 9223372036854775808 <= a + b < 9223372036854775808 → add64 a b = a + b.
Proof. apply wrap64_small. Qed.

Lemma checkSuspiciousHeaders_length rf h :
  (length (filter.checkSuspiciousHeaders rf h) <= S (length (filter.suspiciousHeaders rf)))%nat.
Proof.
  unfold filter.checkSuspiciousHeaders.
  match goal with |- context [List.filter ?f ?l] =>
    pose proof (List.filter_length_le f l) as Hle end.
  destruct (filter.hasHeaderManipulation rf h); [rewrite length_app; simpl|]; lia.
Qed.

Lemma afterHeaders_risk rf req :
  Z.of_nat (length (filter.suspiciousHeaders rf)) < 1000000000 →
  filter.RiskScore (filter.afterHeaders rf req) =
    10 * Z.of_nat (length (filter.checkSuspiciousHeaders rf (http.Header_ req))).
Proof.
  intros Hn. unfold filter.afterHeaders.
  pose proof (checkSuspiciousHeaders_length rf (http.Header_ req)) as Hle.
  destruct (Nat.ltb_spec 0 (length (filter.checkSuspiciousHeaders rf (http.Header_ req))));
    cbn [filter.RiskScore]; [|lia].
  rewrite add64_small, wrap64_small; rewrite ?wrap64_small; lia.
Qed.

Lemma afterFrequency_spec rf now req result :
  0 <= filter.RiskScore result <= 50 →
  filter.Blocked result = false →
  let r := filter.afterFrequency rf now req result in
  filter.Blocked r.1 = false ∧
  r.2 = filter.updateRequestHistory rf now (http.RemoteAddr req) ∧
  filter.RiskScore result <= filter.RiskScore r.1 <= filter.RiskScore result + 25.
Proof.
  intros Hr Hb. unfold filter.afterFrequency.
  destruct (filter.isSuspiciousMethod rf (http.Method req));
    destruct (filter.hasMissingHeaders rf (http.Header_ req));
    cbn [filter.RiskScore filter.Blocked filter.Allowed];
    rewrite ?add64_small; rewrite ?add64_small; try lia;
    match goal with |- context [?a <? ?b] => destruct (Z.ltb_spec a b); [lia|] end;
    cbn [fst snd filter.RiskScore filter.Blocked];
    rewrite ?add64_small; rewrite ?add64_small; try lia; repeat split; try done; lia.
Qed.

(** C6, as amended.  When the size, user-agent and URL checks pass and the
    high-frequency check fires, it adds 20 to the score accumulated so far,
    ten per suspicious header, and is terminal exactly when the score that
    includes these 20 exceeds 50, that is when the earlier score exceeds 30:
    the request is then blocked for "High frequency requests detected" and
    the history is left alone; otherwise the remaining checks run, the
    history is updated and the request is not blocked. *)
Theorem C6_high_frequency_terminal
    (rf : filter.RequestFilter) (now : time.Time) (req : http.Request) :
  http.ContentLength req <= filter.maxRequestSize rf →
  filter.isBlockedUserAgent rf (http.UserAgent req) = false →
  filter.hasMaliciousPattern rf (http.Path req +:+ http.RawQuery req) = false →
  filter.isHighFrequency rf now (http.RemoteAddr req) = true →
  Z.of_nat (length (filter.suspiciousHeaders rf)) < 1000000000 →
  let prior := filter.RiskScore (filter.afterHeaders rf req) in
  let r := filter.FilterRequest rf now req in
  prior = 10 * Z.of_nat (length (filter.checkSuspiciousHeaders rf (http.Header_ req))) ∧
  (30 < prior →
     filter.Blocked r.1 = true ∧ filter.Allowed r.1 = false ∧
     filter.Reason r.1 = "High frequency requests detected" ∧
     filter.RiskScore r.1 = prior + 20 ∧ r.2 = rf) ∧
  (prior <= 30 →
     filter.Blocked r.1 = false ∧
     filter.Reason r.1 ≠ "High frequency requests detected" ∧
     prior + 20 <= filter.RiskScore r.1 <= prior + 45 ∧
     r.2 = filter.updateRequestHistory rf now (http.RemoteAddr req)).
Proof.
  intros Hsize Hua Hurl Hhf Hn prior r.
  pose proof (afterHeaders_risk rf req Hn) as Hprior. fold prior in Hprior.
  split; [exact Hprior|].
  subst r. unfold filter.FilterRequest.
  destruct (Z.ltb_spec (filter.maxRequestSize rf) (http.ContentLength req)); [lia|].
  rewrite Hua, Hurl, Hhf. fold prior.
  assert (Hp0 : 0 <= prior <= 10000000010).
  { rewrite Hprior.
    pose proof (checkSuspiciousHeaders_length rf (http.Header_ req)). lia. }
  assert (Hadd : add64 prior 20 = prior + 20).
  { apply add64_small. lia. }
  rewrite Hadd.
  split; intros Hp.
  - destruct (Z.ltb_spec 50 (prior + 20)); [|lia]. done.
  - destruct (Z.ltb_spec 50 (prior + 20)); [lia|].
    set (res := {| filter.Allowed := _ |}).
    assert (Hb : filter.Blocked res = false).
    { subst res. cbn. unfold filter.afterHeaders.
      by destruct (0 <? length _)%nat. }
    assert (Hrisk : filter.RiskScore res = prior + 20) by done.
    pose proof (afterFrequency_spec rf now req res ltac:(lia) Hb) as (H1 & H2 & H3).
    split; [done|]. split; [|split; [lia | done]].
    assert (Hres : filter.Reason res ≠ "High frequency requests detected").
    { subst res. cbn. unfold filter.afterHeaders.
      destruct (0 <? length _)%nat; cbn; discriminate. }
    revert H1 Hres. unfold filter.afterFrequency.
    destruct (filter.isSuspiciousMethod rf (http.Method req));
      destruct (filter.hasMissingHeaders rf (http.Header_ req));
      cbn [filter.RiskScore filter.Blocked filter.Reason];
      match goal with |- context [?a <? ?b] => destruct (Z.ltb_spec a b) end;
      cbn [fst filter.Blocked filter.Reason]; done.
Qed.

Lemma C6_high_frequency_terminal_witness :
  let r := filter.FilterRequest sample.busyFilter sample.later sample.traversal in
  filter.Blocked r.1 = true ∧ filter.RiskScore r.1 = 60.
Proof.
  intros r.
  destruct (C6_high_frequency_terminal sample.busyFilter sample.later sample.traversal)
    as (Hprior & Hterminal & _).
  - vm_compute. congruence.
  - vm_compute. reflexivity.
  - vm_compute. reflexivity.
  - vm_compute. reflexivity.
  - vm_compute. reflexivity.
  - assert (Hp : filter.RiskScore (filter.afterHeaders sample.busyFilter sample.traversal) = 40)
      by (vm_compute; reflexivity).
    destruct Hterminal as (Hb & _ & _ & Hr & _); [rewrite Hp; lia|].
    split; [exact Hb|]. subst r. rewrite Hr, Hp. reflexivity.
Defined.

(** C6 as stated fails: the client has made 101 requests in the last five
    minutes and sends a request whose four configured headers each hold a
    path traversal; the score before the frequency check is 40, not above
    50, yet the check blocks the request and nothing after it runs. *)
Lemma C6_counterexample :
  let rf := sample.busyFilter in
  let prior := filter.RiskScore (filter.afterHeaders rf sample.traversal) in
  let r := filter.FilterRequest rf sample.later sample.traversal in
  filter.isHighFrequency rf sample.later (http.RemoteAddr sample.traversal) = true ∧
  prior = 40 ∧
  filter.Blocked r.1 = true ∧
  filter.Reason r.1 = "High frequency requests detected" ∧
  filter.RiskScore r.1 = 60 ∧
  filter.requestHistory r.2 = filter.requestHistory rf.
Proof. vm_compute. repeat split. Qed.

(** With the keys in the canonical form the server gives them, the three
    lower-case names are never found: only a NUL byte raises the flag. *)
Lemma hasHeaderManipulation_canonical rf (h : http.Header) :
  http.canonical_keys h →
  filter.hasHeaderManipulation rf h =
    existsb (fun kv : string * list string =>
               existsb (fun value => strings.Contains value (String "000" EmptyString)) kv.2)
            (map_to_list h).
Proof.
  intros Hc. unfold filter.hasHeaderManipulation.
  assert (Hnone : ∀ k, http.CanonicalMIMEHeaderKey k ≠ k → h !! k = None).
  { intros k Hk. destruct (h !! k) as [vs|] eqn:E; [|done].
    by apply Hc in E. }
  cbn [existsb].
  rewrite !Hnone by (vm_compute; discriminate). done.
Qed.

(** C7, on the code: a header map with two Content-Type values, or with two
    Host values, under the canonical keys of net/http, is not flagged, and
    [checkSuspiciousHeaders] does not report [header_manipulation]; the
    same two values under the lower-case key are flagged. *)
Theorem C7_duplicate_header_not_flagged :
  filter.hasHeaderManipulation sample.requestFilter sample.twoContentTypes = false ∧
  filter.hasHeaderManipulation sample.requestFilter sample.twoHosts = false ∧
  filter.checkSuspiciousHeaders sample.requestFilter sample.twoContentTypes = [] ∧
  filter.checkSuspiciousHeaders sample.requestFilter sample.twoHosts = [] ∧
  filter.hasHeaderManipulation sample.requestFilter
    {[ "content-type" := ["text/plain"; "application/json"] ]} = true.
Proof. vm_compute. repeat split. Qed.

(** ** The pipeline *)

(** A whitelisted key passes the reputation check and is then handed to
    the rate limiter like any other key. *)
Lemma whitelist_does_not_bypass_limiter ps next now req srv :
  blacklist.whitelisted_local (ddos.ipManager ps) (ddos.getClientIP ps req) = true →
  (ratelimit.Allow (ddos.rateLimiter ps) now (ddos.getClientIP ps req) srv).1.1 = false →
  (ddos.ProtectionMiddleware ps next now req srv).1.1 =
    ddos.DENY "RATE_LIMITED" http.StatusTooManyRequests.
Proof.
  intros Hw Hdeny. unfold ddos.ProtectionMiddleware.
  rewrite (IsBlacklisted_whitelisted _ now _ srv Hw).
  assert (ddos.set_ipManager (ddos.ipManager ps) ps = ps) as Hps by (by destruct ps).
  destruct (config.IPBlacklist.Enabled _); rewrite Hps;
    destruct (ratelimit.Allow (ddos.rateLimiter ps) now (ddos.getClientIP ps req) srv)
      as [[allowed rl2] srv2]; cbn [fst snd] in Hdeny; subst allowed; cbn [negb];
    destruct (blacklist.ShouldAutoBlacklist _ _ _ _ _) as [auto srv3];
    destruct auto; [destruct (blacklist.BlacklistIP _ _ _ _ _) as [[? ?] ?]| |
                    destruct (blacklist.BlacklistIP _ _ _ _ _) as [[? ?] ?]|]; done.
Qed.

(** C1, on the code: the whitelisted address 198.51.100.9 sends 200 requests
    one millisecond apart.  With the token bucket (60 requests per minute,
    bursts of 10) the first ten reach the handler and the 190 others are
    answered 429 RATE_LIMITED.  With the Redis limiter (60 per 60 seconds)
    the first fifty reach the handler, the next ten are answered 403
    BOTNET_DETECTED and the 140 others 429 RATE_LIMITED.  A single request
    of that address for a path with a traversal is answered 400 FILTERED.
    The key is whitelisted before and after. *)
Theorem C1_whitelisted_key_is_rate_limited :
  let ps := sample.service 1000 in
  let run := scenario.ServeRepeated 200 ps sample.ok sample.t0 time.Millisecond
               sample.curl sample.noRedis in
  let psR := sample.serviceRedis 1000 in
  let runR := scenario.ServeRepeated 200 psR.1 sample.ok sample.t0 time.Millisecond
                sample.curl psR.2 in
  ddos.getClientIP ps sample.curl = "198.51.100.9" ∧
  (blacklist.IsWhitelisted (ddos.ipManager ps) sample.t0 "198.51.100.9" sample.noRedis).1
    = true ∧
  blacklist.whitelisted_local (ddos.ipManager run.1.2) "198.51.100.9" = true ∧
  run.1.1 = replicate 10 (ddos.ALLOW 200) ++
            replicate 190 (ddos.DENY "RATE_LIMITED" 429) ∧
  blacklist.whitelisted_local (ddos.ipManager psR.1) "198.51.100.9" = true ∧
  blacklist.whitelisted_local (ddos.ipManager runR.1.2) "198.51.100.9" = true ∧
  runR.1.1 = replicate 50 (ddos.ALLOW 200) ++
             replicate 10 (ddos.DENY "BOTNET_DETECTED" 403) ++
             replicate 140 (ddos.DENY "RATE_LIMITED" 429) ∧
  (ddos.ProtectionMiddleware ps sample.ok sample.t0 sample.curlTraversal
     sample.noRedis).1.1 = ddos.DENY "FILTERED" 400.
Proof. vm_compute. repeat split. Qed.

(** ** The management operation on the rate limits *)

(** C9, as amended.  [UpdateRateLimitConfig] checks nothing: whatever the
    two integers, it stores them in the configuration, builds a new limiter
    from them and returns no error; the route answers 200 for every pair of
    integers, and 400 with the service untouched only when the body is not
    the JSON it expects. *)
Theorem C9_update_accepts_every_value
    (ps : ddos.ProtectionService) (requestsPerMinute burstSize : Z) :
  let r := ddos.UpdateRateLimitConfig ps requestsPerMinute burstSize in
  r.1 = None ∧
  config.RateLimit.RequestsPerMinute (config.rateLimit (ddos.config_ r.2))
    = requestsPerMinute ∧
  config.RateLimit.BurstSize (config.rateLimit (ddos.config_ r.2)) = burstSize ∧
  ddos.rateLimiter r.2 = ddos.newRateLimiter (ddos.config_ r.2) (ddos.redisClient ps) ∧
  main.putRateLimits (Some (requestsPerMinute, burstSize)) ps = (http.StatusOK, r.2) ∧
  main.putRateLimits None ps = (http.StatusBadRequest, ps).
Proof. repeat split. Qed.

(** C9 as stated fails: minus five requests per minute with a burst of
    zero are accepted, the configuration and the limiter now hold them. *)
Lemma C9_counterexample :
  let ps := sample.service 1000 in
  let r := ddos.UpdateRateLimitConfig ps (-5) 0 in
  r.1 = None ∧
  ddos.GetRateLimitConfig ps = (60, 10) ∧
  ddos.GetRateLimitConfig r.2 = (-5, 0) ∧
  (main.putRateLimits (Some (-5, 0)) ps).1 = http.StatusOK.
Proof. vm_compute. repeat split. Qed.

(** ** The keys of the traffic monitor and of the pipeline *)

Lemma prefix_byte c s :
  String.prefix (String c EmptyString) s =
    match s with
    | EmptyString => false
    | String a _ => Ascii.eqb c a
    end.
Proof.
  destruct s as [|a s]; [done|]. simpl.
  destruct (ascii_dec c a) as [->|Hne].
  - rewrite Ascii.eqb_refl. by destruct s.
  - symmetry. by apply Ascii.eqb_neq.
Qed.

Lemma Contains_byte c s :
  strings.Contains s (String c EmptyString) = http.exists_byte (Ascii.eqb c) s.
Proof.
  induction s as [|a s IH].
  - done.
  - cbn [strings.Contains http.exists_byte]. by rewrite prefix_byte, IH.
Qed.

Lemma fields_head_no_sep c s :
  http.exists_byte (Ascii.eqb c) (strings.fields (String c EmptyString) O s).1 = false.
Proof.
  induction s as [|a s IH]; [done|].
  cbn [strings.fields]. rewrite prefix_byte.
  destruct (Ascii.eqb c a) eqn:E.
  - by destruct (strings.fields _ _ s).
  - destruct (strings.fields (String c EmptyString) 0 s) as [hd tl].
    cbn [fst http.exists_byte] in *. by rewrite E, IH.
Qed.

Lemma drop_bytes p n s :
  http.exists_byte p s = false → http.exists_byte p (strings.drop n s) = false.
Proof.
  revert s. induction n as [|n IH]; intros s H; [done|].
  destruct s as [|a s]; [done|]. cbn [strings.drop]. apply IH.
  cbn in H. by apply orb_false_elim in H as [_ H].
Qed.

Lemma substring_bytes p m n s :
  http.exists_byte p s = false → http.exists_byte p (String.substring m n s) = false.
Proof.
  revert m n. induction s as [|a s IH]; intros m n H.
  - by destruct m, n.
  - cbn in H. apply orb_false_elim in H as [Ha Hs].
    destruct m as [|m]; cbn [String.substring].
    + destruct n as [|n]; [done|]. cbn [http.exists_byte]. by rewrite Ha, IH.
    + by apply IH.
Qed.

Lemma TrimLeftFunc_bytes p f s :
  http.exists_byte p s = false → http.exists_byte p (strings.TrimLeftFunc s f) = false.
Proof.
  intros H. unfold strings.TrimLeftFunc. destruct (_ =? -1); [done|]. by apply drop_bytes.
Qed.

Lemma TrimRightFunc_bytes p f s :
  http.exists_byte p s = false → http.exists_byte p (strings.TrimRightFunc s f) = false.
Proof. intros H. unfold strings.TrimRightFunc, strings.take. by apply substring_bytes. Qed.

Lemma TrimSpace_bytes p s :
  http.exists_byte p s = false → http.exists_byte p (strings.TrimSpace s) = false.
Proof.
  intros H. apply TrimRightFunc_bytes. by apply TrimLeftFunc_bytes.
Qed.

Lemma Cut_before_no_sep c s :
  (strings.Cut s (String c EmptyString)).2 = true →
  http.exists_byte (Ascii.eqb c) (strings.Cut s (String c EmptyString)).1.1 = false.
Proof.
  induction s as [|a s IH]; [done|].
  cbn [strings.Cut]. rewrite prefix_byte.
  destruct (Ascii.eqb c a) eqn:E; [done|].
  destruct (strings.Cut s (String c EmptyString)) as [[b af] f].
  destruct f; [|done]. cbn [fst snd http.exists_byte] in *. intros _.
  by rewrite E, IH.
Qed.

Lemma contains_ne_empty s sub :
  sub ≠ EmptyString → strings.Contains s sub = true → String.eqb s EmptyString = false.
Proof. intros Hs H. destruct s; [|done]. by destruct sub. Qed.

(** A forwarded-for value with a comma: the monitor keeps all of it, the
    pipeline keeps what precedes the first comma. *)
Lemma keys_differ_forwarded ps req :
  strings.Contains (http.Get (http.Header_ req) "X-Forwarded-For") "," = true →
  monitor.getClientIP req ≠ ddos.getClientIP ps req.
Proof.
  intros Hc. unfold monitor.getClientIP, ddos.getClientIP.
  set (xff := http.Get (http.Header_ req) "X-Forwarded-For") in *.
  rewrite (contains_ne_empty xff "," ltac:(done) Hc). cbn [negb].
  unfold strings.Split.
  pose proof (fields_head_no_sep "," xff) as Hhd.
  destruct (strings.fields "," 0 xff) as [hd tl]. cbn [fst] in Hhd.
  intros Heq. apply (TrimSpace_bytes _ _) in Hhd. rewrite <- Heq in Hhd.
  rewrite Contains_byte in Hc. congruence.
Qed.

Lemma Cut_found c s :
  http.exists_byte (Ascii.eqb c) s = true →
  (strings.Cut s (String c EmptyString)).2 = true.
Proof.
  induction s as [|a s IH]; [done|].
  cbn [strings.Cut http.exists_byte]. rewrite prefix_byte.
  destruct (Ascii.eqb c a); [done|]. cbn [orb]. intros H. specialize (IH H).
  destruct (strings.Cut s (String c EmptyString)) as [[b af] f].
  cbn [snd] in IH. by subst f.
Qed.

(** No forwarding header: the monitor keeps the port, the pipeline cuts
    the address at its first colon. *)
Lemma keys_differ_direct ps req :
  http.Get (http.Header_ req) "X-Forwarded-For" = EmptyString →
  http.Get (http.Header_ req) "X-Real-IP" = EmptyString →
  strings.Contains (http.RemoteAddr req) ":" = true →
  monitor.getClientIP req ≠ ddos.getClientIP ps req.
Proof.
  intros Hx Hr Hc. unfold monitor.getClientIP, ddos.getClientIP.
  rewrite Hx, Hr. cbn [String.eqb negb].
  pose proof (Cut_before_no_sep ":" (http.RemoteAddr req)) as Hcut.
  rewrite Contains_byte in Hc.
  pose proof (Cut_found ":" (http.RemoteAddr req) Hc) as Hf.
  destruct (strings.Cut (http.RemoteAddr req) ":") as [[b a] f].
  cbn [fst snd] in Hcut, Hf. destruct f.
  - intros Heq. rewrite <- Heq in Hcut. rewrite Hc in Hcut. by specialize (Hcut eq_refl).
  - done.
Qed.

(** C10 (the two key extractions differ).  The traffic monitor and the
    pipeline compute different keys for every request whose forwarded-for
    value holds a comma, and for every request without forwarding headers
    whose remote address holds a colon, as every address with a port does.
    In the sample run three requests
    forwarded through two proxies raise an alert under the monitor's key
    "203.0.113.5, 10.0.0.1"; handling it blacklists that key, under which
    the pipeline never looks: its key "203.0.113.5" is not blacklisted and
    the next request is served. *)
Theorem C10_monitor_key_differs_from_pipeline_key :
  (∀ ps req,
     strings.Contains (http.Get (http.Header_ req) "X-Forwarded-For") "," = true →
     monitor.getClientIP req ≠ ddos.getClientIP ps req) ∧
  (∀ ps req,
     http.Get (http.Header_ req) "X-Forwarded-For" = EmptyString →
     http.Get (http.Header_ req) "X-Real-IP" = EmptyString →
     strings.Contains (http.RemoteAddr req) ":" = true →
     monitor.getClientIP req ≠ ddos.getClientIP ps req) ∧
  (let ps := sample.service 2 in
   let run := scenario.ServeRepeated 3 ps sample.ok sample.t0 time.Second
                sample.proxied sample.noRedis in
   let handled := ddos.processAlert run.1.2 (sample.t0 + 3 * time.Second) run.2 in
   let im := ddos.ipManager handled.1 in
   monitor.getClientIP sample.direct = "203.0.113.5:40000" ∧
   ddos.getClientIP ps sample.direct = "203.0.113.5" ∧
   monitor.getClientIP sample.proxied = "203.0.113.5, 10.0.0.1" ∧
   ddos.getClientIP ps sample.proxied = "203.0.113.5" ∧
   run.1.1 = replicate 3 (ddos.ALLOW 200) ∧
   List.map (fun a => (monitor.Type_ a, monitor.IP a))
            (monitor.alertChan (ddos.trafficMonitor run.1.2))
     = [("high_request_rate", "203.0.113.5, 10.0.0.1")] ∧
   blacklist.blacklistedIPs im !! "203.0.113.5, 10.0.0.1"
     = Some (sample.t0 + 3 * time.Second + 3600 * time.Second) ∧
   blacklist.blacklistedIPs im !! "203.0.113.5" = None ∧
   (blacklist.IsBlacklisted im (sample.t0 + 4 * time.Second) "203.0.113.5" handled.2).1.1
     = false ∧
   (ddos.ProtectionMiddleware handled.1 sample.ok (sample.t0 + 4 * time.Second)
      sample.proxied handled.2).1.1 = ddos.ALLOW 200).
Proof.
  split; [exact keys_differ_forwarded|]. split; [exact keys_differ_direct|].
  vm_compute. repeat split.
Qed.

(* ================================================================== *)
(** * Further properties *)

(** ** The reputation store, continued *)

Lemma IsBlacklisted_entry im now ip srv e :
  blacklist.blacklistedIPs im !! ip = Some e →
  now < e →
  (blacklist.IsBlacklisted im now ip srv).1.1 =
  negb (blacklist.IsWhitelisted im now ip srv).1.
Proof.
  intros He Hlt. unfold blacklist.IsBlacklisted.
  destruct (blacklist.IsWhitelisted im now ip srv) as [w srv1]; simpl.
  destruct w; [done|]. rewrite He. unfold time.Before.
  by rewrite (proj2 (Z.ltb_lt _ _) Hlt).
Qed.

Lemma IsBlacklisted_in_memory im now ip srv :
  blacklist.client im = None →
  (blacklist.IsBlacklisted im now ip srv).1.1 =
  negb (blacklist.whitelisted_local im ip) &&
  match blacklist.blacklistedIPs im !! ip with
  | Some e => now <? e
  | None => false
  end.
Proof.
  intros Hc. unfold blacklist.IsBlacklisted, blacklist.IsWhitelisted.
  destruct (blacklist.whitelisted_local im ip); [done|]. rewrite Hc. simpl.
  destruct (blacklist.blacklistedIPs im !! ip) as [e|]; [|done].
  unfold time.Before. destruct (now <? e); [done|]. simpl. by rewrite Hc.
Qed.

Lemma BlacklistIP_records im now k d srv :
  blacklist.whitelisted_local im k = false →
  (blacklist.BlacklistIP im now k d srv).1.2 =
  blacklist.set_blacklistedIPs (<[k := now + d]> (blacklist.blacklistedIPs im)) im.
Proof.
  intros Hw. unfold blacklist.BlacklistIP. rewrite Hw. cbv zeta.
  destruct (blacklist.client _); [destruct (redis.Set_ _ _ _ _ _)|]; done.
Qed.

Lemma WhitelistIP_blacklistedIPs im now k srv :
  blacklist.blacklistedIPs (blacklist.WhitelistIP im now k srv).1.2 =
  blacklist.blacklistedIPs im.
Proof.
  unfold blacklist.WhitelistIP.
  destruct (blacklist.client _); [destruct (redis.Set_ _ _ _ _ _)|]; done.
Qed.

(** X1 (lease of a blacklist entry).  When the key is not whitelisted in
    the manager, [BlacklistIP k d] at the instant [now] records the expiry
    [now + d]; until that instant [IsBlacklisted k] answers true unless the
    whitelist says otherwise; and without Redis the call returns no error
    and [IsBlacklisted k] is true exactly at the instants before [now + d],
    so that a zero or negative duration blacklists nothing from [now] on. *)
Theorem X1_BlacklistIP_lease im now k d srv :
  blacklist.whitelisted_local im k = false →
  let r := blacklist.BlacklistIP im now k d srv in
  blacklist.blacklistedIPs r.1.2 !! k = Some (now + d) ∧
  (∀ now' srv', now' < now + d →
     (blacklist.IsBlacklisted r.1.2 now' k srv').1.1 =
     negb (blacklist.IsWhitelisted r.1.2 now' k srv').1) ∧
  (blacklist.client im = None →
     r.1.1 = None ∧
     ∀ now' srv', (blacklist.IsBlacklisted r.1.2 now' k srv').1.1 = (now' <? now + d)).
Proof.
  intros Hw r.
  pose proof (BlacklistIP_records im now k d srv Hw) as Him. fold r in Him.
  assert (blacklist.blacklistedIPs r.1.2 !! k = Some (now + d)) as He.
  { rewrite Him. simpl. by rewrite lookup_insert_eq. }
  split; [done|]. split.
  - intros now' srv' Hlt. by apply IsBlacklisted_entry with (e := now + d).
  - intros Hc. split.
    + subst r. unfold blacklist.BlacklistIP. rewrite Hw. cbv zeta. simpl. by rewrite Hc.
    + intros now' srv'. rewrite IsBlacklisted_in_memory, He.
      * rewrite Him. unfold blacklist.whitelisted_local in *. simpl. by rewrite Hw.
      * by rewrite Him.
Qed.

Lemma X1_BlacklistIP_lease_witness :
  let im := blacklist.NewIPManager None true 100 (3600 * time.Second) in
  let r := blacklist.BlacklistIP im sample.t0 "203.0.113.5" (60 * time.Second)
             sample.noRedis in
  blacklist.blacklistedIPs r.1.2 !! "203.0.113.5" = Some (sample.t0 + 60 * time.Second).
Proof.
  intros im r.
  destruct (X1_BlacklistIP_lease im sample.t0 "203.0.113.5" (60 * time.Second)
              sample.noRedis) as [H _]; [reflexivity | exact H].
Defined.

Lemma Exists_store now key srv :
  redis.strs (redis.Exists now key srv).2 = redis.strs srv ∧
  redis.zsets (redis.Exists now key srv).2 = redis.zsets srv.
Proof. unfold redis.Exists, redis.roundtrip. by destruct (negb _). Qed.

Lemma Exists_absent now key srv :
  redis.strs srv !! key = None →
  redis.zsets srv !! key = None →
  match (redis.Exists now key srv).1 with Some n => 0 <? n | None => false end = false.
Proof.
  intros Hs Hz. unfold redis.Exists, redis.roundtrip, redis.get_str, redis.get_zset.
  destruct (negb _); [|done]. simpl. by rewrite Hs, Hz.
Qed.

Lemma Exists_present now key srv v :
  redis.strs srv !! key = Some (v, None) →
  redis.down srv (redis.calls srv) = false →
  (redis.Exists now key srv).1 = Some 1.
Proof.
  intros Hs Hd. unfold redis.Exists, redis.roundtrip, redis.get_str.
  rewrite Hd. simpl. by rewrite Hs.
Qed.

Lemma IsWhitelisted_store im now ip srv :
  redis.strs (blacklist.IsWhitelisted im now ip srv).2 = redis.strs srv ∧
  redis.zsets (blacklist.IsWhitelisted im now ip srv).2 = redis.zsets srv ∧
  (∀ n, (∀ m, redis.down srv m = n) →
  ∀ m, redis.down (blacklist.IsWhitelisted im now ip srv).2 m = n).
Proof.
  unfold blacklist.IsWhitelisted.
  destruct (blacklist.whitelisted_local im ip); [done|].
  destruct (blacklist.client im); [|done].
  pose proof (Exists_store now ("whitelist:" +:+ ip) srv) as [H1 H2].
  pose proof (Exists_keeps_down now ("whitelist:" +:+ ip) srv) as H3.
  destruct (redis.Exists _ _ _) as [r s1]; simpl in *.
  repeat split; try done. intros n Hn m. by rewrite H3.
Qed.

(** X2 (removal from the blacklist).  When [RemoveFromBlacklist k] returns
    no error, [IsBlacklisted k] answers false on the resulting manager and
    store, at every later instant and whether or not the store still
    replies. *)
Theorem X2_RemoveFromBlacklist_effective im now k srv now' :
  let r := blacklist.RemoveFromBlacklist im now k srv in
  r.1.1 = None →
  (blacklist.IsBlacklisted r.1.2 now' k r.2).1.1 = false.
Proof.
  intros r Hok.
  set (im1 := blacklist.set_blacklistedIPs (delete k (blacklist.blacklistedIPs im)) im).
  assert (r.1.2 = im1 ∧
          (blacklist.client im ≠ None →
           redis.strs r.2 !! (blacklist.redisPrefix im +:+ k) = None ∧
           redis.zsets r.2 !! (blacklist.redisPrefix im +:+ k) = None)) as [Him Hsrv].
  { subst r. revert Hok. unfold blacklist.RemoveFromBlacklist. fold im1.
    change (blacklist.client im1) with (blacklist.client im).
    change (blacklist.redisPrefix im1) with (blacklist.redisPrefix im).
    destruct (blacklist.client im); [|done].
    unfold redis.Del, redis.roundtrip. destruct (negb _); [|done]. simpl.
    intros _. split; [done|]. intros _. by rewrite !lookup_delete_eq. }
  rewrite Him. unfold blacklist.IsBlacklisted.
  pose proof (IsWhitelisted_store im1 now' k r.2) as (Hs & Hz & _).
  destruct (blacklist.IsWhitelisted im1 now' k r.2) as [w srv1]; simpl in *.
  destruct w; [done|].
  replace (blacklist.blacklistedIPs im1 !! k) with (@None Z)
    by (subst im1; simpl; by rewrite lookup_delete_eq).
  cbv zeta. subst im1. simpl.
  destruct (blacklist.client im) eqn:Hc; [|done].
  destruct Hsrv as [Hs' Hz']; [done|].
  pose proof (Exists_absent now' (blacklist.redisPrefix im +:+ k) srv1) as He.
  rewrite Hs, Hz in He. specialize (He Hs' Hz').
  by destruct (redis.Exists _ _ _) as [x s2].
Qed.

Lemma X2_RemoveFromBlacklist_effective_witness :
  let im := (blacklist.BlacklistIP (blacklist.NewIPManager None true 100 (3600 * time.Second))
               sample.t0 "203.0.113.5" (60 * time.Second) sample.noRedis).1.2 in
  let r := blacklist.RemoveFromBlacklist im (sample.t0 + time.Second) "203.0.113.5"
             sample.noRedis in
  (blacklist.IsBlacklisted r.1.2 (sample.t0 + 2 * time.Second) "203.0.113.5" r.2).1.1 = false.
Proof.
  intros im r.
  apply (X2_RemoveFromBlacklist_effective im (sample.t0 + time.Second) "203.0.113.5"
           sample.noRedis (sample.t0 + 2 * time.Second)).
  reflexivity.
Defined.

Lemma IsBlacklisted_answer im now ip srv :
  let w := blacklist.IsWhitelisted im now ip srv in
  let loc := match blacklist.blacklistedIPs im !! ip with
             | Some e => now <? e
             | None => false
             end in
  let rd := match blacklist.client im with
            | Some _ => redis.Exists now (blacklist.redisPrefix im +:+ ip) w.2
            | None => (Some 0, w.2)
            end in
  (blacklist.IsBlacklisted im now ip srv).1.1 =
    negb w.1 && (loc || match rd.1 with Some n => 0 <? n | None => false end) ∧
  (blacklist.IsBlacklisted im now ip srv).2 = if w.1 || loc then w.2 else rd.2.
Proof.
  cbv zeta. unfold blacklist.IsBlacklisted.
  destruct (blacklist.IsWhitelisted im now ip srv) as [w srv1]. simpl.
  destruct w; [done|]. simpl.
  destruct (blacklist.blacklistedIPs im !! ip) as [e|]; unfold time.Before;
    [destruct (now <? e); [done|]|]; simpl;
    (destruct (blacklist.client im); [|done]);
    by destruct (redis.Exists _ _ _).
Qed.

(** X3 (the blacklist sweep is invisible).  After
    [CleanupExpiredEntries] at the instant [now], [IsBlacklisted] gives at
    every instant from [now] on the same answer, and leaves the store in the
    same state, as it would without the sweep. *)
Theorem X3_blacklist_cleanup_transparent im now now' k srv :
  now ≤ now' →
  let r := blacklist.IsBlacklisted im now' k srv in
  let r' := blacklist.IsBlacklisted (blacklist.CleanupExpiredEntries im now) now' k srv in
  r'.1.1 = r.1.1 ∧ r'.2 = r.2.
Proof.
  intros Hle. cbv zeta.
  destruct (IsBlacklisted_answer im now' k srv) as [-> ->].
  destruct (IsBlacklisted_answer (blacklist.CleanupExpiredEntries im now) now' k srv)
    as [-> ->].
  change (blacklist.IsWhitelisted (blacklist.CleanupExpiredEntries im now) now' k srv)
    with (blacklist.IsWhitelisted im now' k srv).
  change (blacklist.client (blacklist.CleanupExpiredEntries im now))
    with (blacklist.client im).
  change (blacklist.redisPrefix (blacklist.CleanupExpiredEntries im now))
    with (blacklist.redisPrefix im).
  assert (match blacklist.blacklistedIPs (blacklist.CleanupExpiredEntries im now) !! k with
          | Some e => now' <? e
          | None => false
          end =
          match blacklist.blacklistedIPs im !! k with
          | Some e => now' <? e
          | None => false
          end) as ->; [|done].
  unfold blacklist.CleanupExpiredEntries. simpl. rewrite map_lookup_filter.
  destruct (blacklist.blacklistedIPs im !! k) as [e|]; [|done]. simpl.
  case_guard as Hk; [done|]. simpl in *. symmetry. apply Z.ltb_ge.
  unfold time.After in Hk. apply not_true_is_false, negb_false_iff, Z.ltb_lt in Hk. lia.
Qed.

Lemma X3_blacklist_cleanup_transparent_witness :
  let im := (blacklist.BlacklistIP (blacklist.NewIPManager None true 100 (3600 * time.Second))
               sample.t0 "203.0.113.5" (60 * time.Second) sample.noRedis).1.2 in
  (blacklist.IsBlacklisted (blacklist.CleanupExpiredEntries im (sample.t0 + 90 * time.Second))
     (sample.t0 + 91 * time.Second) "203.0.113.5" sample.noRedis).1.1 =
  (blacklist.IsBlacklisted im (sample.t0 + 91 * time.Second) "203.0.113.5"
     sample.noRedis).1.1.
Proof.
  intros im.
  destruct (X3_blacklist_cleanup_transparent im (sample.t0 + 90 * time.Second)
              (sample.t0 + 91 * time.Second) "203.0.113.5" sample.noRedis) as [H _];
    [vm_compute; discriminate | exact H].
Defined.

(** X4 (whitelisting does not clear the blacklist entry).  A key that is
    blacklisted and then whitelisted keeps its blacklist entry: until the
    lease ends [GetBlacklistedIPs] still lists the key with its expiry,
    while [IsBlacklisted] answers false for it. *)
Theorem X4_WhitelistIP_keeps_blacklist_entry im now k d srv now1 srv1 now' srv' :
  blacklist.whitelisted_local im k = false →
  now' < now + d →
  let im1 := (blacklist.BlacklistIP im now k d srv).1.2 in
  let im2 := (blacklist.WhitelistIP im1 now1 k srv1).1.2 in
  blacklist.GetBlacklistedIPs im2 now' !! k = Some (now + d) ∧
  (blacklist.IsBlacklisted im2 now' k srv').1.1 = false.
Proof.
  intros Hw Hlt im1 im2. split.
  - unfold blacklist.GetBlacklistedIPs. apply map_lookup_filter_Some. split.
    + subst im2 im1. rewrite WhitelistIP_blacklistedIPs, BlacklistIP_records by done.
      simpl. by rewrite lookup_insert_eq.
    + simpl. unfold time.Before. by apply Z.ltb_lt.
  - subst im2. by rewrite (IsBlacklisted_whitelisted _ _ _ _ (WhitelistIP_local _ _ _ _)).
Qed.

Lemma X4_WhitelistIP_keeps_blacklist_entry_witness :
  let im := blacklist.NewIPManager None true 100 (3600 * time.Second) in
  let im1 := (blacklist.BlacklistIP im sample.t0 "203.0.113.5" (60 * time.Second)
                sample.noRedis).1.2 in
  let im2 := (blacklist.WhitelistIP im1 (sample.t0 + time.Second) "203.0.113.5"
                sample.noRedis).1.2 in
  blacklist.GetBlacklistedIPs im2 (sample.t0 + 2 * time.Second) !! "203.0.113.5"
    = Some (sample.t0 + 60 * time.Second) ∧
  (blacklist.IsBlacklisted im2 (sample.t0 + 2 * time.Second) "203.0.113.5"
     sample.noRedis).1.1 = false.
Proof.
  intros im.
  apply (X4_WhitelistIP_keeps_blacklist_entry im sample.t0 "203.0.113.5" (60 * time.Second)
           sample.noRedis (sample.t0 + time.Second) sample.noRedis
           (sample.t0 + 2 * time.Second) sample.noRedis).
  - reflexivity.
  - reflexivity.
Defined.

(** X5 (removal from the whitelist).  When [RemoveFromWhitelist k] returns
    no error, [IsWhitelisted k] answers false on the resulting manager and
    store, and a [BlacklistIP k d] that follows is no longer refused: it
    records the expiry. *)
Theorem X5_RemoveFromWhitelist_effective im now k srv now' d :
  let r := blacklist.RemoveFromWhitelist im now k srv in
  r.1.1 = None →
  (blacklist.IsWhitelisted r.1.2 now' k r.2).1 = false ∧
  blacklist.blacklistedIPs (blacklist.BlacklistIP r.1.2 now' k d r.2).1.2 !! k
    = Some (now' + d).
Proof.
  intros r Hok.
  set (im1 := blacklist.set_whitelistedIPs (delete k (blacklist.whitelistedIPs im)) im).
  assert (r.1.2 = im1 ∧
          (blacklist.client im ≠ None →
           redis.strs r.2 !! ("whitelist:" +:+ k) = None ∧
           redis.zsets r.2 !! ("whitelist:" +:+ k) = None)) as [Him Hsrv].
  { subst r. revert Hok. unfold blacklist.RemoveFromWhitelist. fold im1.
    change (blacklist.client im1) with (blacklist.client im).
    destruct (blacklist.client im); [|done].
    unfold redis.Del, redis.roundtrip. destruct (negb _); [|done]. simpl.
    intros _. split; [done|]. intros _. by rewrite !lookup_delete_eq. }
  assert (blacklist.whitelisted_local im1 k = false) as Hloc.
  { unfold blacklist.whitelisted_local. subst im1. simpl. by rewrite lookup_delete_eq. }
  rewrite Him. split.
  - unfold blacklist.IsWhitelisted. rewrite Hloc.
    change (blacklist.client im1) with (blacklist.client im).
    destruct (blacklist.client im) eqn:Hc; [|done].
    destruct Hsrv as [Hs Hz]; [done|].
    pose proof (Exists_absent now' ("whitelist:" +:+ k) r.2 Hs Hz) as He.
    by destruct (redis.Exists _ _ _).
  - rewrite BlacklistIP_records by done. simpl. by rewrite lookup_insert_eq.
Qed.

Lemma X5_RemoveFromWhitelist_effective_witness :
  let im := (blacklist.WhitelistIP (blacklist.NewIPManager None true 100 (3600 * time.Second))
               sample.t0 "198.51.100.9" sample.noRedis).1.2 in
  let r := blacklist.RemoveFromWhitelist im (sample.t0 + time.Second) "198.51.100.9"
             sample.noRedis in
  (blacklist.IsWhitelisted r.1.2 (sample.t0 + 2 * time.Second) "198.51.100.9" r.2).1 = false.
Proof.
  intros im r.
  destruct (X5_RemoveFromWhitelist_effective im (sample.t0 + time.Second) "198.51.100.9"
              sample.noRedis (sample.t0 + 2 * time.Second) (60 * time.Second)) as [H _];
    [reflexivity | exact H].
Defined.

(** X6 (with Redis, a duration that is not positive never expires).  With
    a Redis client and a store that replies, [BlacklistIP k d] for [d <= 0]
    other than the keep-TTL value writes the key without expiry: at every
    later instant at which the store still holds its strings and replies,
    [IsBlacklisted k] answers true unless the key is whitelisted. *)
Theorem X6_BlacklistIP_nonpositive_duration_permanent im c now k d srv :
  blacklist.client im = Some c →
  blacklist.whitelisted_local im k = false →
  d ≤ 0 → d ≠ redis.KeepTTL →
  redis.down srv (redis.calls srv) = false →
  let r := blacklist.BlacklistIP im now k d srv in
  r.1.1 = None ∧
  ∀ now' srv',
    redis.strs srv' = redis.strs r.2 →
    (∀ n, redis.down srv' n = false) →
    (blacklist.IsWhitelisted r.1.2 now' k srv').1 = false →
    (blacklist.IsBlacklisted r.1.2 now' k srv').1.1 = true.
Proof.
  intros Hc Hw Hd Hk Hup r.
  set (im1 := blacklist.set_blacklistedIPs
                (<[k := now + d]> (blacklist.blacklistedIPs im)) im).
  pose proof (BlacklistIP_records im now k d srv Hw) as Him. fold r im1 in Him.
  assert (r.1.1 = None ∧
          redis.strs r.2 !! (blacklist.redisPrefix im +:+ k) = Some ("1", None))
    as (He & Hs).
  { subst r. unfold blacklist.BlacklistIP. rewrite Hw. cbv zeta.
    cbn [blacklist.client blacklist.redisPrefix blacklist.set_blacklistedIPs].
    rewrite Hc. unfold redis.Set_, redis.roundtrip. rewrite Hup. simpl.
    assert ((0 <? d) = false) as -> by (apply Z.ltb_ge; lia).
    assert ((d =? redis.KeepTTL) = false) as -> by (by apply Z.eqb_neq).
    by rewrite lookup_insert_eq. }
  split; [done|]. intros now' srv' Hstrs Hup' Hnw.
  destruct (IsBlacklisted_answer r.1.2 now' k srv') as [-> _].
  rewrite Hnw, Him. simpl. change (blacklist.client im1) with (blacklist.client im).
  rewrite Hc. change (blacklist.redisPrefix im1) with (blacklist.redisPrefix im).
  pose proof (IsWhitelisted_store im1 now' k srv') as (Hs1 & _ & Hd1).
  rewrite (Exists_present now' _ _ "1").
  - apply orb_true_r.
  - by rewrite Hs1, Hstrs.
  - by apply (Hd1 false).
Qed.

Lemma X6_BlacklistIP_nonpositive_duration_permanent_witness :
  let im := blacklist.NewIPManager (Some sample.client) true 100 0 in
  (blacklist.BlacklistIP im sample.t0 "203.0.113.5" 0 sample.noRedis).1.1 = None.
Proof.
  intros im.
  destruct (X6_BlacklistIP_nonpositive_duration_permanent im sample.client sample.t0
              "203.0.113.5" 0 sample.noRedis) as [H _];
    [reflexivity | reflexivity | lia | discriminate | reflexivity | exact H].
Defined.

(** ** The limiters, continued *)

(** *** The in-memory sliding window *)

Lemma recent_mono W t now x : t ≤ now → recent W now x = true → recent W t x = true.
Proof.
  unfold recent, time.After, time.Add. intros Hle H.
  apply Z.ltb_lt in H. apply Z.ltb_lt. lia.
Qed.








(** X8 (the sweep of the in-memory sliding window is invisible).  With a
    window between 0 and [2 ^ 62] nanoseconds, whose double still is a
    duration of 64 bits, [Cleanup] at the instant [now] does not change the
    answer of [Allow] at any instant from [now] on. *)
Theorem X8_SlidingWindowLimiter_Cleanup_transparent swl now now' key :
  0 ≤ ratelimit.SlidingWindowLimiter.window swl ≤ 2 ^ 62 →
  now ≤ now' →
  (ratelimit.SlidingWindowLimiter.Allow
     (ratelimit.SlidingWindowLimiter.Cleanup swl now) now' key).1 =
  (ratelimit.SlidingWindowLimiter.Allow swl now' key).1.
Proof.
  intros HW Hle. unfold ratelimit.SlidingWindowLimiter.Allow.
  set (W := ratelimit.SlidingWindowLimiter.window swl) in *.
  change (2 ^ 62) with 4611686018427387904 in HW.
  assert (wrap64 (- W * 2) = - W * 2) as Hwrap by (apply wrap64_small; lia).
  assert (List.filter (fun reqTime => time.After reqTime (time.Add now' (- W)))
            (default [] (ratelimit.SlidingWindowLimiter.requests
                           (ratelimit.SlidingWindowLimiter.Cleanup swl now) !! key)) =
          List.filter (fun reqTime => time.After reqTime (time.Add now' (- W)))
            (default [] (ratelimit.SlidingWindowLimiter.requests swl !! key))) as Hv.
  { unfold ratelimit.SlidingWindowLimiter.Cleanup. simpl. rewrite lookup_omap.
    destruct (ratelimit.SlidingWindowLimiter.requests swl !! key) as [l|]; [|done].
    simpl. fold W. rewrite Hwrap.
    rewrite <- (filter_filter_weaker
                  (fun reqTime => time.After reqTime (time.Add now' (- W)))
                  (fun reqTime => time.After reqTime (time.Add now (- W * 2))) l).
    - by destruct (List.filter (fun reqTime => time.After reqTime (time.Add now (- W * 2))) l).
    - intros x. unfold time.After, time.Add. rewrite !Z.ltb_lt. lia. }
  change (ratelimit.SlidingWindowLimiter.window
            (ratelimit.SlidingWindowLimiter.Cleanup swl now)) with W.
  change (ratelimit.SlidingWindowLimiter.limit
            (ratelimit.SlidingWindowLimiter.Cleanup swl now))
    with (ratelimit.SlidingWindowLimiter.limit swl).
  rewrite Hv. by destruct (_ <=? _).
Qed.

Lemma X8_SlidingWindowLimiter_Cleanup_transparent_witness :
  let swl := (scenario.AllowManyLocal (ratelimit.SlidingWindowLimiter.New 2 time.Minute)
                "203.0.113.5" [sample.t0; sample.t0 + 1]).2 in
  (ratelimit.SlidingWindowLimiter.Allow
     (ratelimit.SlidingWindowLimiter.Cleanup swl (sample.t0 + 3 * time.Minute))
     (sample.t0 + 4 * time.Minute) "203.0.113.5").1 =
  (ratelimit.SlidingWindowLimiter.Allow swl (sample.t0 + 4 * time.Minute) "203.0.113.5").1.
Proof.
  intros swl.
  apply (X8_SlidingWindowLimiter_Cleanup_transparent swl (sample.t0 + 3 * time.Minute)
           (sample.t0 + 4 * time.Minute) "203.0.113.5").
  - vm_compute. split; discriminate.
  - vm_compute. discriminate.
Defined.

(** *** The keys of the Redis limiter *)

Lemma append_inj_r (p s1 s2 : string) : p +:+ s1 = p +:+ s2 → s1 = s2.
Proof.
  induction p as [|c p IH]; [done|]. rewrite !append_cons. intros H. apply IH. congruence.
Qed.

Lemma apply_other now c s K K' :
  match c with
  | redis.ZRemRangeByScore k _ _ | redis.ZCard k | redis.ZAdd k _ _ | redis.Expire k _ => k
  end = K →
  K' ≠ K →
  redis.zsets (redis.apply now c s).2 !! K' = redis.zsets s !! K' ∧
  redis.strs (redis.apply now c s).2 = redis.strs s ∧
  redis.down (redis.apply now c s).2 = redis.down s ∧
  redis.calls (redis.apply now c s).2 = redis.calls s.
Proof.
  intros HK Hne. destruct c; simpl in HK; subst; simpl;
    destruct (redis.get_zset _ _ _) as [[z ttl]|]; simpl; try done;
    repeat match goal with
    | |- context [match ?l with [] => _ | _ => _ end] => destruct l; simpl
    | |- context [if ?b then _ else _] => destruct b; simpl
    end;
    by rewrite ?lookup_insert_ne, ?lookup_delete_ne by done.
Qed.

Lemma pipeline_other rl now K K' s :
  K' ≠ K →
  let r := redis.apply_all now (ratelimit.RedisLimiter.pipeline rl now K) s in
  redis.zsets r.2 !! K' = redis.zsets s !! K' ∧
  redis.strs r.2 = redis.strs s ∧
  redis.down r.2 = redis.down s ∧
  redis.calls r.2 = redis.calls s.
Proof.
  intros Hne. unfold ratelimit.RedisLimiter.pipeline. cbn [redis.apply_all].
  repeat match goal with
  | |- context [redis.apply now ?c ?s0] =>
      let H := fresh "H" in
      pose proof (apply_other now c s0 K K' eq_refl Hne) as H;
      destruct (redis.apply now c s0); simpl in H
  end.
  simpl. intuition congruence.
Qed.

Lemma apply_all_second now c1 c2 c3 c4 s :
  nth 1 (redis.apply_all now [c1; c2; c3; c4] s).1 0 =
  (redis.apply now c2 (redis.apply now c1 s).2).1.
Proof.
  cbn [redis.apply_all].
  destruct (redis.apply now c1 s) as [r1 s1]. simpl.
  destruct (redis.apply now c2 s1) as [r2 s2].
  destruct (redis.apply now c3 s2) as [r3 s3].
  by destruct (redis.apply now c4 s3) as [r4 s4].
Qed.

(** The count the pipeline reads depends on the key's own sorted set
    only. *)
Lemma pipeline_reply rl now K s1 s2 :
  redis.zsets s1 !! K = redis.zsets s2 !! K →
  nth 1 (redis.apply_all now (ratelimit.RedisLimiter.pipeline rl now K) s1).1 0 =
  nth 1 (redis.apply_all now (ratelimit.RedisLimiter.pipeline rl now K) s2).1 0.
Proof.
  intros Hz.
  assert (Hget : ∀ v s0, redis.get_zset now K (redis.put_zset K v s0) =
            match v with
            | Some e => if redis.live now e then Some e else None
            | None => None
            end).
  { intros v s0. unfold redis.get_zset, redis.put_zset. simpl.
    destruct v; [by rewrite lookup_insert_eq | by rewrite lookup_delete_eq]. }
  assert (redis.get_zset now K s1 = redis.get_zset now K s2) as Hg
    by (unfold redis.get_zset; by rewrite Hz).
  unfold ratelimit.RedisLimiter.pipeline. rewrite !apply_all_second.
  cbn [redis.apply]. rewrite Hg.
  destruct (redis.get_zset now K s2) as [[z ttl]|]; cbn [fst snd]; rewrite !Hget; [|done].
  destruct (redis.zrem _ _ z); [done|]. by destruct (redis.live _ _).
Qed.

(** X9 (the keys of the Redis limiter do not interfere).  While the store
    replies, a call of [Allow] for a key [k] leaves every string of the
    store and the sorted set of any other key [k'] as they were, and the
    answer to a later call for [k'] is the same as if the call for [k] had
    not been made. *)
Theorem X9_RedisLimiter_keys_isolated rl now now' k k' srv :
  k ≠ k' →
  (∀ n, redis.down srv n = false) →
  let srv1 := (ratelimit.RedisLimiter.Allow rl now k srv).2 in
  redis.strs srv1 = redis.strs srv ∧
  redis.zsets srv1 !! (ratelimit.RedisLimiter.prefix rl +:+ k') =
    redis.zsets srv !! (ratelimit.RedisLimiter.prefix rl +:+ k') ∧
  (ratelimit.RedisLimiter.Allow rl now' k' srv1).1 =
  (ratelimit.RedisLimiter.Allow rl now' k' srv).1.
Proof.
  intros Hne Hup srv1.
  set (K := ratelimit.RedisLimiter.prefix rl +:+ k).
  set (K' := ratelimit.RedisLimiter.prefix rl +:+ k').
  assert (K' ≠ K) as HK.
  { intros H. apply append_inj_r in H. congruence. }
  assert (redis.strs srv1 = redis.strs srv ∧
          redis.zsets srv1 !! K' = redis.zsets srv !! K' ∧
          redis.down srv1 = redis.down srv) as (Hs & Hz & Hd).
  { subst srv1. unfold ratelimit.RedisLimiter.Allow, redis.Exec, redis.roundtrip.
    fold K. rewrite Hup. cbn [negb].
    match goal with |- context [redis.apply_all now _ ?s0] =>
      pose proof (pipeline_other rl now K K' s0 HK) as Hp;
      destruct (redis.apply_all now (ratelimit.RedisLimiter.pipeline rl now K) s0)
        as [rs s2] end.
    simpl in *. intuition. }
  split; [done|]. split; [done|].
  unfold ratelimit.RedisLimiter.Allow, redis.Exec, redis.roundtrip. fold K'.
  rewrite Hd, !Hup. cbn [negb].
  set (sa := {| redis.strs := redis.strs srv1; redis.zsets := redis.zsets srv1;
                redis.calls := S (redis.calls srv1); redis.down := redis.down srv |}).
  set (sb := {| redis.strs := redis.strs srv; redis.zsets := redis.zsets srv;
                redis.calls := S (redis.calls srv); redis.down := redis.down srv |}).
  pose proof (pipeline_reply rl now' K' sa sb Hz) as Hr.
  destruct (redis.apply_all now' _ sa) as [ra sa'].
  destruct (redis.apply_all now' _ sb) as [rb sb'].
  simpl in *. by rewrite Hr.
Qed.

Lemma X9_RedisLimiter_keys_isolated_witness :
  let rl := ratelimit.RedisLimiter.New sample.client 60 (60 * time.Second) in
  let srv1 := (ratelimit.RedisLimiter.Allow rl sample.t0 "203.0.113.5" sample.noRedis).2 in
  (ratelimit.RedisLimiter.Allow rl (sample.t0 + 1) "198.51.100.7" srv1).1 =
  (ratelimit.RedisLimiter.Allow rl (sample.t0 + 1) "198.51.100.7" sample.noRedis).1.
Proof.
  intros rl srv1.
  destruct (X9_RedisLimiter_keys_isolated rl sample.t0 (sample.t0 + 1) "203.0.113.5"
              "198.51.100.7" sample.noRedis) as (_ & _ & H);
    [discriminate | intros n; reflexivity | exact H].
Defined.

(** ** The request filter, continued *)

(** *** The request filter: verdicts and state *)

Lemma afterHeaders_flags rf req :
  filter.Allowed (filter.afterHeaders rf req) = true ∧
  filter.Blocked (filter.afterHeaders rf req) = false ∧
  filter.ShouldLog (filter.afterHeaders rf req) =
    (0 <? length (filter.checkSuspiciousHeaders rf (http.Header_ req)))%nat.
Proof. unfold filter.afterHeaders. by destruct (0 <? length _)%nat. Qed.

Lemma afterFrequency_exact rf now req result :
  0 <= filter.RiskScore result <= 20000000000 →
  let risk := filter.RiskScore result
              + (if filter.isSuspiciousMethod rf (http.Method req) then 15 else 0)
              + (if filter.hasMissingHeaders rf (http.Header_ req) then 10 else 0) in
  let r := filter.afterFrequency rf now req result in
  filter.RiskScore r.1 = risk ∧
  filter.Blocked r.1 = (100 <? risk) || filter.Blocked result ∧
  filter.Allowed r.1 = negb (100 <? risk) && filter.Allowed result ∧
  filter.ShouldLog r.1 =
    filter.ShouldLog result || filter.isSuspiciousMethod rf (http.Method req)
                            || filter.hasMissingHeaders rf (http.Header_ req) ∧
  (filter.Reason r.1 =
     if 100 <? risk then "High risk score: " +:+ pretty risk else filter.Reason result) ∧
  r.2 = filter.updateRequestHistory rf now (http.RemoteAddr req).
Proof.
  intros Hr. unfold filter.afterFrequency.
  destruct (filter.isSuspiciousMethod rf (http.Method req));
    destruct (filter.hasMissingHeaders rf (http.Header_ req));
    cbn [filter.RiskScore filter.Blocked filter.Allowed filter.ShouldLog filter.Reason];
    rewrite ?add64_small; rewrite ?add64_small; try lia;
    rewrite ?Z.add_0_r;
    match goal with |- context [?a <? ?b] => destruct (Z.ltb_spec a b) end;
    cbn [fst snd filter.RiskScore filter.Blocked filter.Allowed filter.ShouldLog
         filter.Reason negb orb andb];
    rewrite ?orb_true_r, ?orb_false_r; repeat split; try done.
Qed.

Lemma afterFrequency_flags rf now req result :
  let r := filter.afterFrequency rf now req result in
  filter.Blocked r.1 = (100 <? filter.RiskScore r.1) || filter.Blocked result ∧
  filter.Allowed r.1 = negb (100 <? filter.RiskScore r.1) && filter.Allowed result ∧
  (filter.Reason r.1 =
     if 100 <? filter.RiskScore r.1
     then "High risk score: " +:+ pretty (filter.RiskScore r.1)
     else filter.Reason result) ∧
  r.2 = filter.updateRequestHistory rf now (http.RemoteAddr req).
Proof.
  unfold filter.afterFrequency.
  destruct (filter.isSuspiciousMethod rf (http.Method req));
    destruct (filter.hasMissingHeaders rf (http.Header_ req));
    cbn [filter.RiskScore filter.Blocked filter.Allowed filter.Reason];
    match goal with |- context [?a <? ?b] => destruct (a <? b) eqn:E end;
    cbn [fst snd filter.RiskScore filter.Blocked filter.Allowed filter.Reason];
    rewrite E; done.
Qed.

(** X10 (a verdict is either allowed or blocked).  In every result of
    [FilterRequest] the field [Allowed] is the negation of [Blocked]. *)
Theorem X10_FilterRequest_allowed_iff_not_blocked rf now req :
  let r := (filter.FilterRequest rf now req).1 in
  filter.Allowed r = negb (filter.Blocked r).
Proof.
  cbv zeta. unfold filter.FilterRequest.
  destruct (_ <? http.ContentLength req); [done|].
  destruct (filter.isBlockedUserAgent _ _); [done|].
  destruct (filter.hasMaliciousPattern _ _); [done|].
  destruct (afterHeaders_flags rf req) as (Ha & Hb & _).
  destruct (filter.isHighFrequency _ _ _); [destruct (50 <? _); [done|]|];
    match goal with |- context [filter.afterFrequency rf now req ?res] =>
      destruct (afterFrequency_flags rf now req res) as (-> & -> & _) end;
    cbn [filter.Allowed filter.Blocked]; rewrite Ha, Hb;
    by rewrite andb_true_r, orb_false_r.
Qed.

(** X11 (the score of a request that passes the terminal checks).  When
    the size, user-agent and URL checks pass, and the high-frequency check
    does not fire or at most three header findings were made, the risk
    score is ten per finding, plus 20 for high frequency, 15 for a
    suspicious method and 10 for a missing user agent; the request is
    blocked exactly when that score exceeds 100, it is logged exactly when
    the score is positive, and the history is updated.  In particular a
    request with at most three findings is allowed, however frequent. *)
Theorem X11_FilterRequest_score rf now req :
  http.ContentLength req <= filter.maxRequestSize rf →
  filter.isBlockedUserAgent rf (http.UserAgent req) = false →
  filter.hasMaliciousPattern rf (http.Path req +:+ http.RawQuery req) = false →
  Z.of_nat (length (filter.suspiciousHeaders rf)) < 1000000000 →
  let n := Z.of_nat (length (filter.checkSuspiciousHeaders rf (http.Header_ req))) in
  let hf := filter.isHighFrequency rf now (http.RemoteAddr req) in
  hf = false ∨ n <= 3 →
  let score := 10 * n + (if hf then 20 else 0)
               + (if filter.isSuspiciousMethod rf (http.Method req) then 15 else 0)
               + (if filter.hasMissingHeaders rf (http.Header_ req) then 10 else 0) in
  let r := filter.FilterRequest rf now req in
  filter.RiskScore r.1 = score ∧
  filter.Blocked r.1 = (100 <? score) ∧
  filter.ShouldLog r.1 = (0 <? score) ∧
  r.2 = filter.updateRequestHistory rf now (http.RemoteAddr req) ∧
  (n <= 3 → filter.Blocked r.1 = false ∧ filter.Allowed r.1 = true).
Proof.
  intros Hsize Hua Hurl Hn n hf Hcase score r.
  pose proof (afterHeaders_risk rf req Hn) as Hprior. fold n in Hprior.
  pose proof (checkSuspiciousHeaders_length rf (http.Header_ req)) as Hlen.
  destruct (afterHeaders_flags rf req) as (Ha & Hb & Hl).
  assert (0 <= n <= 1000000000) as Hn' by (subst n; lia).
  assert (filter.RiskScore r.1 = score ∧
          filter.Blocked r.1 = (100 <? score) ∧
          filter.Allowed r.1 = negb (100 <? score) ∧
          filter.ShouldLog r.1 = (0 <? score) ∧
          r.2 = filter.updateRequestHistory rf now (http.RemoteAddr req))
    as (H1 & H2 & H3 & H4 & H5).
  { subst r. unfold filter.FilterRequest.
    destruct (Z.ltb_spec (filter.maxRequestSize rf) (http.ContentLength req)); [lia|].
    rewrite Hua, Hurl. fold hf. subst score. destruct hf.
    - destruct Hcase as [|Hc]; [done|].
      rewrite add64_small by lia. rewrite Hprior.
      destruct (Z.ltb_spec 50 (10 * n + 20)); [lia|].
      match goal with |- context [filter.afterFrequency rf now req ?res] =>
        destruct (afterFrequency_exact rf now req res) as (-> & -> & -> & -> & _ & ->) end.
      + cbn [filter.RiskScore]. lia.
      + cbn [filter.RiskScore filter.Blocked filter.Allowed filter.ShouldLog].
        rewrite Ha, Hb, orb_false_r, andb_true_r. repeat split; try done.
        symmetry. apply Z.ltb_lt.
        destruct (filter.isSuspiciousMethod _ _), (filter.hasMissingHeaders _ _); lia.
    - destruct (afterFrequency_exact rf now req (filter.afterHeaders rf req))
        as (-> & -> & -> & -> & _ & ->); [lia|].
      rewrite Ha, Hb, Hl, Hprior, orb_false_r, andb_true_r, Z.add_0_r.
      repeat split; try done.
      destruct (Nat.ltb_spec 0 (length (filter.checkSuspiciousHeaders rf (http.Header_ req))));
        destruct (filter.isSuspiciousMethod _ _), (filter.hasMissingHeaders _ _);
        cbn [orb]; symmetry; first [apply Z.ltb_lt | apply Z.ltb_ge]; subst n; lia. }
  repeat split; try done.
  - rewrite H2. apply Z.ltb_ge. subst score.
    destruct hf, (filter.isSuspiciousMethod _ _), (filter.hasMissingHeaders _ _); lia.
  - rewrite H3. apply negb_true_iff, Z.ltb_ge. subst score.
    destruct hf, (filter.isSuspiciousMethod _ _), (filter.hasMissingHeaders _ _); lia.
Qed.

Lemma X11_FilterRequest_score_witness :
  (filter.FilterRequest sample.requestFilter sample.t0 sample.benign).2 =
  filter.updateRequestHistory sample.requestFilter sample.t0
    (http.RemoteAddr sample.benign).
Proof.
  destruct (X11_FilterRequest_score sample.requestFilter sample.t0 sample.benign)
    as (_ & _ & _ & H & _);
    [vm_compute; discriminate | vm_compute; reflexivity | vm_compute; reflexivity
    | vm_compute; reflexivity | left; vm_compute; reflexivity | exact H].
Defined.

(** X12 (when the filter records a request).  [FilterRequest] either
    blocks for the size, the user agent, the URL or the frequency and then
    leaves the filter as it was, or it appends the request to the history of
    its address; in the second case the request is blocked exactly when its
    score exceeds 100, with the reason "High risk score: " followed by the
    score. *)
Theorem X12_FilterRequest_state rf now req :
  let r := filter.FilterRequest rf now req in
  (r.2 = rf ∧ filter.Blocked r.1 = true ∧
   In (filter.Reason r.1)
      ["Request size exceeds limit"; "Blocked user agent";
       "Malicious pattern detected in URL"; "High frequency requests detected"]) ∨
  (r.2 = filter.updateRequestHistory rf now (http.RemoteAddr req) ∧
   filter.Blocked r.1 = (100 <? filter.RiskScore r.1) ∧
   (filter.Blocked r.1 = true →
    filter.Reason r.1 = "High risk score: " +:+ pretty (filter.RiskScore r.1))).
Proof.
  cbv zeta. unfold filter.FilterRequest.
  destruct (_ <? http.ContentLength req); [left; simpl; tauto|].
  destruct (filter.isBlockedUserAgent _ _); [left; simpl; tauto|].
  destruct (filter.hasMaliciousPattern _ _); [left; simpl; tauto|].
  destruct (afterHeaders_flags rf req) as (Ha & Hb & _).
  destruct (filter.isHighFrequency _ _ _);
    [destruct (50 <? _); [left; simpl; tauto|]|]; right;
    match goal with |- context [filter.afterFrequency rf now req ?res] =>
      destruct (afterFrequency_flags rf now req res) as (-> & _ & -> & ->) end;
    cbn [filter.Blocked]; rewrite Hb, orb_false_r;
    repeat split; by intros ->.
Qed.

(** X13 (the sweep of the filter is invisible).  With a limit per window
    that is not negative, [CleanupExpiredEntries] at the instant [now] does
    not change the verdict of [FilterRequest] at any instant from [now] on;
    and after it every address left in the history has at least one
    instant, all of them after [now] minus the window. *)
Theorem X13_filter_cleanup_transparent rf now now' req :
  0 <= filter.maxRequestsPerWindow rf →
  now <= now' →
  (filter.FilterRequest (filter.CleanupExpiredEntries rf now) now' req).1 =
  (filter.FilterRequest rf now' req).1 ∧
  ∀ ip l, filter.requestHistory (filter.CleanupExpiredEntries rf now) !! ip = Some l →
          l ≠ [] ∧ Forall (fun t => recent (filter.historyWindow rf) now t = true) l.
Proof.
  intros Hmax Hle.
  set (W := filter.historyWindow rf).
  assert (∀ ip, filter.requestHistory (filter.CleanupExpiredEntries rf now) !! ip =
                match filter.requestHistory rf !! ip with
                | Some l => match List.filter (recent W now) l with
                            | [] => None
                            | v => Some v
                            end
                | None => None
                end) as Hlook.
  { intros ip. unfold filter.CleanupExpiredEntries. simpl. rewrite lookup_omap.
    by destruct (filter.requestHistory rf !! ip). }
  split.
  - assert (∀ ip, filter.isHighFrequency (filter.CleanupExpiredEntries rf now) now' ip =
                  filter.isHighFrequency rf now' ip) as Hhf.
    { intros ip. unfold filter.isHighFrequency. rewrite Hlook.
      change (filter.historyWindow (filter.CleanupExpiredEntries rf now)) with W.
      change (filter.maxRequestsPerWindow (filter.CleanupExpiredEntries rf now))
        with (filter.maxRequestsPerWindow rf).
      fold W. fold (recent W now').
      destruct (filter.requestHistory rf !! ip) as [l|]; [|done].
      rewrite <- (filter_filter_weaker (recent W now') (recent W now) l)
        by (intros x; by apply recent_mono).
      destruct (List.filter (recent W now) l) eqn:E; [|done].
      simpl. symmetry. apply Z.ltb_ge. lia. }
    unfold filter.FilterRequest. rewrite Hhf.
    change (filter.maxRequestSize (filter.CleanupExpiredEntries rf now))
      with (filter.maxRequestSize rf).
    change (filter.isBlockedUserAgent (filter.CleanupExpiredEntries rf now))
      with (filter.isBlockedUserAgent rf).
    change (filter.hasMaliciousPattern (filter.CleanupExpiredEntries rf now))
      with (filter.hasMaliciousPattern rf).
    change (filter.afterHeaders (filter.CleanupExpiredEntries rf now))
      with (filter.afterHeaders rf).
    destruct (_ <? http.ContentLength req); [done|].
    destruct (filter.isBlockedUserAgent _ _); [done|].
    destruct (filter.hasMaliciousPattern _ _); [done|].
    assert (∀ res, (filter.afterFrequency (filter.CleanupExpiredEntries rf now) now' req res).1
                   = (filter.afterFrequency rf now' req res).1) as Haf.
    { intros res. unfold filter.afterFrequency.
      change (filter.isSuspiciousMethod (filter.CleanupExpiredEntries rf now))
        with (filter.isSuspiciousMethod rf).
      change (filter.hasMissingHeaders (filter.CleanupExpiredEntries rf now))
        with (filter.hasMissingHeaders rf).
      by destruct (100 <? _). }
    destruct (filter.isHighFrequency _ _ _); [destruct (50 <? _); [done|]|]; apply Haf.
  - intros ip l. rewrite Hlook.
    destruct (filter.requestHistory rf !! ip) as [l0|]; [|done].
    destruct (List.filter (recent W now) l0) eqn:E; [done|].
    intros [= <-]. split; [done|]. rewrite <- E.
    apply Forall_forall. intros x Hx.
    apply list_elem_of_In, List.filter_In in Hx. tauto.
Qed.

Lemma X13_filter_cleanup_transparent_witness :
  (filter.FilterRequest (filter.CleanupExpiredEntries sample.busyFilter sample.later)
     (sample.later + time.Second) sample.benign).1 =
  (filter.FilterRequest sample.busyFilter (sample.later + time.Second) sample.benign).1.
Proof.
  destruct (X13_filter_cleanup_transparent sample.busyFilter sample.later
              (sample.later + time.Second) sample.benign) as [H _];
    [vm_compute; discriminate | vm_compute; discriminate | exact H].
Defined.

(** ** The behavioural detector, continued *)

(** *** The detector: scores and rings *)

Lemma when_flag_bounds c l w a hi n :
  0 <= botnet.BotnetAnalysis.RiskScore a <= hi →
  (length (botnet.BotnetAnalysis.Indicators a) <= n)%nat →
  0 <= w → hi + w < 1000000 →
  0 <= botnet.BotnetAnalysis.RiskScore (botnet.when c (botnet.BotnetAnalysis.flag l w) a)
    <= hi + w ∧
  (length (botnet.BotnetAnalysis.Indicators
             (botnet.when c (botnet.BotnetAnalysis.flag l w) a)) <= S n)%nat.
Proof.
  intros Hr Hn Hw Hhi. unfold botnet.when, botnet.BotnetAnalysis.flag.
  destruct c; cbn [botnet.BotnetAnalysis.RiskScore botnet.BotnetAnalysis.Indicators].
  - rewrite add64_small by lia. rewrite length_app. simpl. lia.
  - lia.
Qed.

Lemma AnalyzeRequest_requestPatterns bd now ip ua path rt :
  botnet.requestPatterns (botnet.AnalyzeRequest bd now ip ua path rt).2 =
  <[ip := botnet.updateIPBehavior (botnet.getOrCreateIPBehavior bd now ip) now ua path rt]>
    (botnet.requestPatterns bd).
Proof. done. Qed.

Lemma push100_length l x :
  (length l <= 100)%nat → (length (botnet.push100 l x) <= 100)%nat.
Proof.
  intros H. unfold botnet.push100.
  destruct (Nat.ltb_spec 100 (length (l ++ [x]))) as [Hlt|Hge]; [|done].
  rewrite length_app in Hlt. simpl in Hlt.
  destruct l as [|y l]; simpl in *; [lia|]. rewrite length_app. simpl. lia.
Qed.

(** From the bounds on [a], the bounds on the next [when c (flag l w) a]
    of the goal. *)
Ltac flag_step H :=
  lazymatch type of H with
  | 0 <= botnet.BotnetAnalysis.RiskScore ?a <= ?hi ∧
    (length (botnet.BotnetAnalysis.Indicators ?a) <= ?n)%nat =>
      lazymatch goal with
      | |- context [botnet.when ?c (botnet.BotnetAnalysis.flag ?l ?w) a] =>
          let hi' := eval compute in (hi + w) in
          let H' := fresh "Hb" in
          assert (0 <= botnet.BotnetAnalysis.RiskScore
                         (botnet.when c (botnet.BotnetAnalysis.flag l w) a) <= hi' ∧
                  (length (botnet.BotnetAnalysis.Indicators
                             (botnet.when c (botnet.BotnetAnalysis.flag l w) a))
                     <= S n)%nat) as H'
            by (destruct H; apply (when_flag_bounds c l w a hi n); [done|done|lia|lia]);
          clear H; rename H' into H
      end
  end.

(** X14 (bounds of an analysis).  Every analysis returned by
    [AnalyzeRequest] has a risk score between 0 and 285 and at most twelve
    indicators, so the rule for scores of 300 and more never applies: the
    request is a botnet exactly when the confidence, which lies between 0
    and 1, reaches the threshold of the detector. *)
Theorem X14_AnalyzeRequest_score_bounds bd now ip ua path rt :
  let a := (botnet.AnalyzeRequest bd now ip ua path rt).1 in
  0 <= botnet.BotnetAnalysis.RiskScore a <= 285 ∧
  (length (botnet.BotnetAnalysis.Indicators a) <= 12)%nat ∧
  botnet.BotnetAnalysis.IsBotnet a =
    float64.leb (botnet.detectionThreshold bd) (botnet.BotnetAnalysis.Confidence a) ∧
  float64.leb (float64.of_int 0) (botnet.BotnetAnalysis.Confidence a) = true ∧
  float64.leb (botnet.BotnetAnalysis.Confidence a) (float64.of_int 1) = true.
Proof.
  cbv zeta. unfold botnet.AnalyzeRequest.
  set (behavior := botnet.updateIPBehavior _ _ _ _ _).
  set (a0 := {| botnet.BotnetAnalysis.IP := ip |}).
  assert (0 <= botnet.BotnetAnalysis.RiskScore a0 <= 0 ∧
          (length (botnet.BotnetAnalysis.Indicators a0) <= 0)%nat) as Hb by done.
  unfold botnet.analyzeNetwork, botnet.analyzeCoordination, botnet.analyzeGlobalPatterns,
    botnet.analyzeTiming, botnet.analyzeBehavior.
  cbv zeta. cbn [fst snd].
  do 12 flag_step Hb.
  match type of Hb with
  | 0 <= botnet.BotnetAnalysis.RiskScore ?a <= _ ∧ _ => set (a5 := a) in *
  end.
  destruct Hb as [Hr Hn].
  unfold botnet.calculateFinalDecision.
  cbn [botnet.BotnetAnalysis.RiskScore botnet.BotnetAnalysis.Indicators
       botnet.BotnetAnalysis.IsBotnet botnet.BotnetAnalysis.Confidence
       botnet.detectionThreshold botnet.set_burstPatterns botnet.set_networkRanges
       botnet.updateGlobalPatterns botnet.set_globalPatterns botnet.set_requestPatterns].
  destruct (Z.leb_spec 300 (botnet.BotnetAnalysis.RiskScore a5)) as [|_]; [lia|].
  cbn [botnet.BotnetAnalysis.RiskScore botnet.BotnetAnalysis.Indicators
       botnet.BotnetAnalysis.IsBotnet botnet.BotnetAnalysis.Confidence].
  split; [lia|]. split; [lia|]. split; [done|].
  destruct (confidence_reachable (botnet.BotnetAnalysis.RiskScore a5)
              (Z.of_nat (length (botnet.BotnetAnalysis.Indicators a5))))
    as (H0 & H1 & _); [lia | lia |].
  done.
Qed.

(** X15 (the rings of the detector).  [AnalyzeRequest] keeps the
    response times and the intervals of every address at a hundred entries
    at most. *)
Theorem X15_AnalyzeRequest_rings_bounded bd now ip ua path rt :
  rings_bounded bd →
  rings_bounded (botnet.AnalyzeRequest bd now ip ua path rt).2.
Proof.
  unfold rings_bounded. intros Hinv ip' b. cbv beta.
  rewrite AnalyzeRequest_requestPatterns.
  destruct (decide (ip' = ip)) as [->|Hne].
  - rewrite lookup_insert_eq. intros [= <-].
    assert ((length (botnet.IPBehavior.ResponseTimes
                       (botnet.getOrCreateIPBehavior bd now ip)) <= 100)%nat ∧
            (length (botnet.IPBehavior.RequestIntervals
                       (botnet.getOrCreateIPBehavior bd now ip)) <= 100)%nat) as [H1 H2].
    { unfold botnet.getOrCreateIPBehavior.
      destruct (botnet.requestPatterns bd !! ip) as [b0|] eqn:E.
      - by apply (Hinv ip).
      - simpl. lia. }
    unfold botnet.updateIPBehavior, botnet.updateBehavioralIndicators.
    cbn [botnet.IPBehavior.ResponseTimes botnet.IPBehavior.RequestIntervals].
    split; [by apply push100_length|].
    destruct (negb _); [by apply push100_length | done].
  - rewrite lookup_insert_ne by done. apply Hinv.
Qed.

Lemma X15_AnalyzeRequest_rings_bounded_witness :
  let bd := (scenario.AnalyzeRepeated 3
               (botnet.NewBotnetDetector (float64.lit 8 10) (60 * time.Second))
               sample.t0 time.Second "203.0.113.5" "Mozilla/5.0" "/demo/" 0).2 in
  bool_decide (rings_bounded (botnet.AnalyzeRequest bd (sample.t0 + 3 * time.Second)
                                "203.0.113.5" "Mozilla/5.0" "/demo/" 0).2) = true.
Proof.
  intros bd. apply bool_decide_eq_true_2.
  apply (X15_AnalyzeRequest_rings_bounded bd (sample.t0 + 3 * time.Second)
           "203.0.113.5" "Mozilla/5.0" "/demo/" 0).
  apply (bool_decide_unpack _). vm_compute. exact I.
Defined.

(** *** The network and country of an address *)

Lemma fields_no_sep c s :
  http.exists_byte (Ascii.eqb c) s = false →
  strings.fields (String c EmptyString) O s = (s, []).
Proof.
  induction s as [|a s IH]; [done|].
  cbn [http.exists_byte strings.fields]. rewrite prefix_byte.
  intros H. apply orb_false_elim in H as [Ha Hs]. rewrite Ha, (IH Hs). done.
Qed.

Lemma fields_sep c p rest :
  http.exists_byte (Ascii.eqb c) p = false →
  strings.fields (String c EmptyString) O (p +:+ String c rest) =
  (p, (strings.fields (String c EmptyString) O rest).1
      :: (strings.fields (String c EmptyString) O rest).2).
Proof.
  induction p as [|a p IH].
  - intros _. rewrite append_nil_l. cbn [strings.fields]. rewrite prefix_byte.
    rewrite Ascii.eqb_refl. simpl. by destruct (strings.fields _ _ rest).
  - cbn [http.exists_byte]. intros H. apply orb_false_elim in H as [Ha Hp].
    rewrite append_cons. cbn [strings.fields]. rewrite prefix_byte, Ha, (IH Hp). done.
Qed.

Lemma Split_sep c p rest :
  http.exists_byte (Ascii.eqb c) p = false →
  strings.Split (p +:+ String c rest) (String c EmptyString) =
  p :: strings.Split rest (String c EmptyString).
Proof.
  intros H. unfold strings.Split. rewrite (fields_sep _ _ _ H).
  by destruct (strings.fields _ _ rest).
Qed.



(** ** The traffic monitor *)

Lemma send_chan alert tm :
  monitor.alertChan (monitor.send alert tm) =
    (if (length (monitor.alertChan tm) <? monitor.alertCap)%nat
     then monitor.alertChan tm ++ [alert] else monitor.alertChan tm) ∧
  monitor.requestCounts (monitor.send alert tm) = monitor.requestCounts tm ∧
  monitor.responseTimes (monitor.send alert tm) = monitor.responseTimes tm ∧
  monitor.errorCounts (monitor.send alert tm) = monitor.errorCounts tm ∧
  monitor.alertThreshold (monitor.send alert tm) = monitor.alertThreshold tm ∧
  monitor.windowDuration (monitor.send alert tm) = monitor.windowDuration tm.
Proof. unfold monitor.send. by destruct (_ <? _)%nat. Qed.

Lemma send_length alert tm :
  (length (monitor.alertChan tm) <= monitor.alertCap)%nat →
  (length (monitor.alertChan (monitor.send alert tm)) <= monitor.alertCap)%nat.
Proof.
  intros H. destruct (send_chan alert tm) as [-> _].
  destruct (Nat.ltb_spec (length (monitor.alertChan tm)) monitor.alertCap); [|done].
  rewrite length_app. simpl. lia.
Qed.

Lemma send_prefix alert tm :
  monitor.alertChan tm `prefix_of` monitor.alertChan (monitor.send alert tm).
Proof.
  destruct (send_chan alert tm) as [-> _].
  destruct (_ <? _)%nat; [by apply prefix_app_r|done].
Qed.

Lemma send_full alert tm :
  length (monitor.alertChan tm) = monitor.alertCap →
  monitor.send alert tm = tm.
Proof. intros H. unfold monitor.send. rewrite H. done. Qed.

Lemma checkAlerts_maps tm now ip :
  monitor.requestCounts (monitor.checkAlerts tm now ip) = monitor.requestCounts tm ∧
  monitor.responseTimes (monitor.checkAlerts tm now ip) = monitor.responseTimes tm ∧
  monitor.errorCounts (monitor.checkAlerts tm now ip) = monitor.errorCounts tm.
Proof.
  unfold monitor.checkAlerts. cbv zeta.
  set (tm1 := if _ <? _ then _ else tm).
  assert (monitor.requestCounts tm1 = monitor.requestCounts tm ∧
          monitor.responseTimes tm1 = monitor.responseTimes tm ∧
          monitor.errorCounts tm1 = monitor.errorCounts tm) as (H1 & H2 & H3).
  { subst tm1. destruct (_ <? _); [|done].
    match goal with |- context [monitor.send ?a tm] =>
      destruct (send_chan a tm) as (_ & ? & ? & ? & _) end. tauto. }
  destruct (monitor.responseTimes tm1 !! ip) as [rts|]; [|done].
  destruct (_ <? _)%nat; [|done].
  destruct (monitor.calculateAverageResponseTime rts <? _); [|done].
  match goal with |- context [monitor.send ?a tm1] =>
    destruct (send_chan a tm1) as (_ & -> & -> & -> & _) end. tauto.
Qed.

Lemma checkAlerts_chan tm now ip :
  (length (monitor.alertChan tm) <= monitor.alertCap)%nat →
  (length (monitor.alertChan (monitor.checkAlerts tm now ip)) <= monitor.alertCap)%nat ∧
  monitor.alertChan tm `prefix_of` monitor.alertChan (monitor.checkAlerts tm now ip) ∧
  (length (monitor.alertChan tm) = monitor.alertCap →
   monitor.alertChan (monitor.checkAlerts tm now ip) = monitor.alertChan tm).
Proof.
  intros Hlen. unfold monitor.checkAlerts. cbv zeta.
  set (tm1 := if _ <? _ then _ else tm).
  assert ((length (monitor.alertChan tm1) <= monitor.alertCap)%nat ∧
          monitor.alertChan tm `prefix_of` monitor.alertChan tm1 ∧
          (length (monitor.alertChan tm) = monitor.alertCap → tm1 = tm)) as (H1 & H2 & H3).
  { subst tm1. destruct (_ <? _); [|done].
    split; [by apply send_length|]. split; [apply send_prefix|apply send_full]. }
  destruct (monitor.responseTimes tm1 !! ip) as [rts|]; [|intuition congruence].
  destruct (_ <? _)%nat; [|intuition congruence].
  destruct (monitor.calculateAverageResponseTime rts <? _); [|intuition congruence].
  split; [by apply send_length|]. split.
  - etrans; [exact H2|apply send_prefix].
  - intros Hfull. rewrite send_full; [by rewrite H3|]. by rewrite H3.
Qed.

(** X17 (what the monitor holds).  [RecordRequest] keeps the pending
    alerts at [alertCap] at most and the response times of every key
    between one and a hundred; the alerts pending before stay, in order, at
    the head of the queue; and when the queue is full the new alerts are
    dropped. *)
Theorem X17_RecordRequest_bounded tm now req rt status :
  monitor_bounded tm →
  let tm' := monitor.RecordRequest tm now req rt status in
  monitor_bounded tm' ∧
  monitor.alertChan tm `prefix_of` monitor.alertChan tm' ∧
  (length (monitor.alertChan tm) = monitor.alertCap →
   monitor.alertChan tm' = monitor.alertChan tm).
Proof.
  intros [Hc Hr] tm'. subst tm'. unfold monitor_bounded, monitor.RecordRequest. cbv zeta.
  set (ip := monitor.getClientIP req).
  set (rts := if (100 <? _)%nat then _ else _).
  set (tm1 := {| monitor.requestCounts := _ |}).
  destruct (checkAlerts_chan tm1 now ip Hc) as (H1 & H2 & H3).
  destruct (checkAlerts_maps tm1 now ip) as (_ & Hrt & _).
  split; [split; [done|]|by split].
  intros k l. rewrite Hrt. subst tm1. simpl.
  destruct (decide (k = ip)) as [->|Hne].
  - rewrite lookup_insert_eq. intros [= <-]. subst rts.
    assert (length (default [] (monitor.responseTimes tm !! ip)) <= 100)%nat as Hl.
    { destruct (monitor.responseTimes tm !! ip) as [l0|] eqn:E; simpl; [|lia].
      by apply Hr in E as [_ ?]. }
    destruct (Nat.ltb_spec 100 (length (default [] (monitor.responseTimes tm !! ip) ++ [rt])))
      as [Hlt|Hge].
    + rewrite length_app in Hlt. simpl in Hlt.
      destruct (default [] (monitor.responseTimes tm !! ip)) as [|y l0]; simpl in *; [lia|].
      rewrite length_app. simpl. lia.
    + rewrite length_app in *. simpl in *. lia.
  - rewrite lookup_insert_ne by done. apply Hr.
Qed.

Lemma X17_RecordRequest_bounded_witness :
  let tm := monitor.RecordRequest (monitor.NewTrafficMonitor 1000 (float64.of_int 1)) sample.t0
              sample.direct time.Millisecond 200 in
  monitor_bounded (monitor.RecordRequest tm (sample.t0 + time.Second) sample.direct
                     time.Millisecond 200).
Proof.
  intros tm.
  destruct (X17_RecordRequest_bounded tm (sample.t0 + time.Second) sample.direct
              time.Millisecond 200) as [H _]; [|exact H].
  split; [vm_compute; lia | apply (bool_decide_unpack _); vm_compute; exact I].
Defined.

(** X18 (request counts and the rate alert).  Short of an overflow of the
    counter, [RecordRequest] adds one to the count of the key of the request
    and leaves the other counts alone.
    When the new count exceeds the threshold and the queue has room, an
    alert "high_request_rate" for that key, carrying the new count, is
    queued right behind the pending ones; when it does not, any alert added
    is of type "suspicious_response_time". *)
Theorem X18_RecordRequest_counts tm now req rt status :
  let key := monitor.getClientIP req in
  let n := default 0 (monitor.requestCounts tm !! key) in
  let tm' := monitor.RecordRequest tm now req rt status in
  n + 1 < 9223372036854775808 → 0 <= n →
  monitor.requestCounts tm' !! key = Some (n + 1) ∧
  (∀ k, k ≠ key → monitor.requestCounts tm' !! k = monitor.requestCounts tm !! k) ∧
  (monitor.alertThreshold tm < n + 1 →
   (length (monitor.alertChan tm) < monitor.alertCap)%nat →
   ∃ alert rest,
     monitor.alertChan tm' = monitor.alertChan tm ++ alert :: rest ∧
     monitor.Type_ alert = "high_request_rate" ∧
     monitor.IP alert = key ∧
     monitor.RequestCount alert = n + 1) ∧
  (n + 1 <= monitor.alertThreshold tm →
   ∀ alert, alert ∈ monitor.alertChan tm' →
            alert ∈ monitor.alertChan tm ∨ monitor.Type_ alert = "suspicious_response_time").
Proof.
  intros key n tm' Hn Hn0.
  subst tm'. unfold monitor.RecordRequest. cbv zeta. fold key. fold n.
  set (rts := if (100 <? _)%nat then _ else _).
  set (tm1 := {| monitor.requestCounts := _ |}).
  destruct (checkAlerts_maps tm1 now key) as (Hrc & _ & _).
  rewrite Hrc.
  assert (monitor.requestCounts tm1 !! key = Some (n + 1)) as Hk.
  { subst tm1. simpl. rewrite lookup_insert_eq. by rewrite add64_small by lia. }
  split; [done|].
  split; [intros k Hne; subst tm1; simpl; by rewrite lookup_insert_ne|].
  unfold monitor.checkAlerts. cbv zeta. rewrite Hk.
  change (default 0 (Some (n + 1))) with (n + 1).
  split.
  - intros Hth Hroom.
    destruct (Z.ltb_spec (monitor.alertThreshold tm1) (n + 1)) as [_|Hge];
      [|subst tm1; simpl in Hge; lia].
    match goal with |- context [monitor.send ?a tm1] => set (al := a);
      destruct (send_chan al tm1) as (Hch & _ & Hrt & _) end.
    assert (monitor.alertChan (monitor.send al tm1) = monitor.alertChan tm ++ [al]) as Hch'.
    { rewrite Hch. subst tm1. simpl.
      by destruct (Nat.ltb_spec (length (monitor.alertChan tm)) monitor.alertCap); [|lia]. }
    exists al.
    destruct (monitor.responseTimes (monitor.send al tm1) !! key) as [l|];
      [|exists []; by rewrite Hch'].
    destruct (10 <? length l)%nat; [|exists []; by rewrite Hch'].
    destruct (monitor.calculateAverageResponseTime l <? _); [|exists []; by rewrite Hch'].
    match goal with |- context [monitor.send ?a (monitor.send al tm1)] =>
      destruct (send_chan a (monitor.send al tm1)) as (-> & _); rewrite Hch';
      destruct (length (monitor.alertChan tm ++ [al]) <? monitor.alertCap)%nat;
        [exists [a]|exists []] end;
      (split; [|done]); by rewrite <- ?app_assoc.
  - intros Hth alert.
    destruct (Z.ltb_spec (monitor.alertThreshold tm1) (n + 1)) as [Hlt|_];
      [subst tm1; simpl in Hlt; lia|].
    change (monitor.alertChan tm) with (monitor.alertChan tm1).
    destruct (monitor.responseTimes tm1 !! key) as [l|]; [|by left].
    destruct (10 <? length l)%nat; [|by left].
    destruct (monitor.calculateAverageResponseTime l <? _); [|by left].
    match goal with |- context [monitor.send ?a tm1] =>
      destruct (send_chan a tm1) as (-> & _) end.
    destruct (length (monitor.alertChan tm1) <? monitor.alertCap)%nat; [|by left].
    rewrite elem_of_app, list_elem_of_singleton. intros [?| ->]; [by left|by right].
Qed.

Lemma X18_RecordRequest_counts_witness :
  let tm := monitor.NewTrafficMonitor 1000 (float64.of_int 1) in
  monitor.requestCounts (monitor.RecordRequest tm sample.t0 sample.direct
                           time.Millisecond 200) !! monitor.getClientIP sample.direct
    = Some (default 0 (monitor.requestCounts tm !! monitor.getClientIP sample.direct) + 1).
Proof.
  intros tm.
  destruct (X18_RecordRequest_counts tm sample.t0 sample.direct time.Millisecond 200)
    as [H _]; [vm_compute; reflexivity | vm_compute; discriminate | exact H].
Defined.

(** X19 (the sweep of the monitor filters by duration).  [cleanup]
    compares each stored response time, not its age, with the window: on a
    monitor whose stored response times are all shorter than the window it
    changes nothing. *)
Theorem X19_cleanup_keeps_short_response_times tm :
  map_Forall (fun _ l => l ≠ [] ∧ Forall (fun rt => rt < monitor.windowDuration tm) l)
             (monitor.responseTimes tm) →
  monitor.cleanup tm = tm.
Proof.
  intros H. unfold monitor.cleanup. destruct tm as [rc rts ec th sr wd ch]. simpl in *.
  f_equal. apply map_eq. intros ip. rewrite lookup_omap.
  destruct (rts !! ip) as [l|] eqn:E; [|done]. simpl.
  destruct (H ip l E) as [Hne Hall].
  assert (List.filter (fun rt => rt <? wd) l = l) as ->.
  { clear -Hall. induction Hall as [|x l Hx _ IH]; [done|]. simpl.
    rewrite (proj2 (Z.ltb_lt _ _) Hx). by rewrite IH. }
  by destruct l.
Qed.

Lemma X19_cleanup_keeps_short_response_times_witness :
  let tm := monitor.RecordRequest (monitor.NewTrafficMonitor 1000 (float64.of_int 1)) sample.t0
              sample.direct time.Millisecond 200 in
  monitor.cleanup tm = tm.
Proof.
  intros tm. apply (X19_cleanup_keeps_short_response_times tm).
  apply (bool_decide_unpack _). vm_compute. exact I.
Defined.

(** ** The pipeline, continued *)

(** *** The pipeline: what each verdict leaves untouched *)

(** Opens the stages of the middleware one after the other. *)
Ltac open_stage :=
  match goal with
  | |- context [blacklist.IsBlacklisted ?im ?now ?k ?srv] =>
      destruct (blacklist.IsBlacklisted im now k srv) as [[? ?] ?] eqn:?
  | |- context [@ratelimit.Allow ?L ?I ?l ?now ?k ?srv] =>
      destruct (@ratelimit.Allow L I l now k srv) as [[? ?] ?] eqn:?
  | |- context [blacklist.ShouldAutoBlacklist ?im ?now ?k ?n ?srv] =>
      destruct (blacklist.ShouldAutoBlacklist im now k n srv) as [? ?] eqn:?
  | |- context [blacklist.BlacklistIP ?im ?now ?k ?d ?srv] =>
      destruct (blacklist.BlacklistIP im now k d srv) as [[? ?] ?] eqn:?
  | |- context [filter.FilterRequest ?rf ?now ?req] =>
      destruct (filter.FilterRequest rf now req) as [? ?] eqn:?
  | |- context [botnet.AnalyzeRequest ?bd ?now ?k ?ua ?p ?rt] =>
      destruct (botnet.AnalyzeRequest bd now k ua p rt) as [? ?] eqn:?
  | |- context [if ?b then _ else _] => destruct b eqn:?
  end; cbn [fst snd negb].

(** X20 (a rejected request goes no further).  When the middleware
    rejects a request, the traffic monitor is unchanged and the handler is
    not consulted: the outcome is the same with any other handler.  After
    BLOCKED_IP or RATE_LIMITED the filter and the detector are unchanged,
    after BLOCKED_IP the limiter too, and after FILTERED the detector. *)
Theorem X20_ProtectionMiddleware_short_circuit ps next now req srv code status :
  let r := ddos.ProtectionMiddleware ps next now req srv in
  r.1.1 = ddos.DENY code status →
  ddos.trafficMonitor r.1.2 = ddos.trafficMonitor ps ∧
  (∀ next', ddos.ProtectionMiddleware ps next' now req srv = r) ∧
  (code = "BLOCKED_IP" ∨ code = "RATE_LIMITED" →
   ddos.requestFilter r.1.2 = ddos.requestFilter ps ∧
   ddos.botnetDetector r.1.2 = ddos.botnetDetector ps) ∧
  (code = "BLOCKED_IP" → ddos.rateLimiter r.1.2 = ddos.rateLimiter ps) ∧
  (code = "FILTERED" → ddos.botnetDetector r.1.2 = ddos.botnetDetector ps).
Proof.
  cbv zeta. unfold ddos.ProtectionMiddleware.
  repeat open_stage.
  all: try (destruct (next _ _ _ _) as [[[? ?] ?] ?]; cbn [fst snd]; discriminate).
  all: cbn [fst snd]; intros [= <- <-].
  all: repeat split; intros; try done.
  all: try match goal with H : _ ∨ _ |- _ => destruct H end; try discriminate.
Qed.

Lemma X20_ProtectionMiddleware_short_circuit_witness :
  let ps := sample.service 1000 in
  let r := ddos.ProtectionMiddleware ps sample.ok sample.t0 sample.curlTraversal
             sample.noRedis in
  ddos.trafficMonitor r.1.2 = ddos.trafficMonitor ps.
Proof.
  intros ps r.
  destruct (X20_ProtectionMiddleware_short_circuit ps sample.ok sample.t0
              sample.curlTraversal sample.noRedis "FILTERED" 400) as [H _];
    [vm_compute; reflexivity | exact H].
Defined.

(** *** The pipeline: the reputation gate *)

(** X21 (the reputation gate).  The middleware answers BLOCKED_IP with
    status 403 exactly when the blacklist is enabled in the configuration
    and [IsBlacklisted] answers true for the key of the request. *)
Theorem X21_ProtectionMiddleware_blocked_ip ps next now req srv :
  let key := ddos.getClientIP ps req in
  let r := ddos.ProtectionMiddleware ps next now req srv in
  r.1.1 = ddos.DENY "BLOCKED_IP" http.StatusForbidden ↔
  config.IPBlacklist.Enabled (config.ipBlacklist (ddos.config_ ps)) = true ∧
  (blacklist.IsBlacklisted (ddos.ipManager ps) now key srv).1.1 = true.
Proof.
  cbv zeta. unfold ddos.ProtectionMiddleware.
  repeat open_stage.
  all: try (destruct (next _ _ _ _) as [[[? ?] ?] ?]).
  all: cbn [fst snd]; split; [intros [=]|intros [? ?]]; try done.
Qed.

Lemma IsBlacklisted_manager im now ip srv :
  let im' := (blacklist.IsBlacklisted im now ip srv).1.2 in
  blacklist.threshold im' = blacklist.threshold im ∧
  blacklist.autoBlacklist im' = blacklist.autoBlacklist im ∧
  blacklist.whitelistedIPs im' = blacklist.whitelistedIPs im ∧
  blacklist.client im' = blacklist.client im ∧
  (blacklist.blacklistedIPs im' = blacklist.blacklistedIPs im ∨
   blacklist.blacklistedIPs im' = delete ip (blacklist.blacklistedIPs im)).
Proof.
  cbv zeta. unfold blacklist.IsBlacklisted.
  destruct (blacklist.IsWhitelisted im now ip srv) as [w srv1].
  destruct w; [cbn; auto 10|].
  destruct (blacklist.blacklistedIPs im !! ip) as [e|];
    [destruct (time.Before now e); [cbn; auto 10|]|];
    cbv zeta; cbn [blacklist.client blacklist.set_blacklistedIPs blacklist.redisPrefix];
    (destruct (blacklist.client im) eqn:Hc; [destruct (redis.Exists _ _ _)|]);
    cbn; auto 10.
Qed.

Lemma ShouldAutoBlacklist_threshold im now ip n srv :
  n <= blacklist.threshold im →
  (blacklist.ShouldAutoBlacklist im now ip n srv).1 = false.
Proof.
  intros H. unfold blacklist.ShouldAutoBlacklist.
  destruct (negb _); [done|].
  destruct (blacklist.IsWhitelisted im now ip srv) as [w srv1].
  destruct w; [done|]. simpl. apply Z.ltb_ge. lia.
Qed.

(** X22 (the rate-limit path passes the constant 100).  When the
    threshold of the manager is 100 or more, a request answered
    RATE_LIMITED adds no entry to the blacklist: every entry present
    afterwards was there before. *)
Theorem X22_rate_limited_never_blacklists ps next now req srv :
  let r := ddos.ProtectionMiddleware ps next now req srv in
  100 <= blacklist.threshold (ddos.ipManager ps) →
  r.1.1 = ddos.DENY "RATE_LIMITED" http.StatusTooManyRequests →
  ∀ k e, blacklist.blacklistedIPs (ddos.ipManager r.1.2) !! k = Some e →
         blacklist.blacklistedIPs (ddos.ipManager ps) !! k = Some e.
Proof.
  cbv zeta. intros Hth. unfold ddos.ProtectionMiddleware.
  set (key := ddos.getClientIP ps req).
  pose proof (IsBlacklisted_manager (ddos.ipManager ps) now key srv) as (Ht & _ & _ & _ & Hb).
  assert (∀ (im1 : blacklist.IPManager) k e,
            (blacklist.blacklistedIPs im1 = blacklist.blacklistedIPs (ddos.ipManager ps) ∨
             blacklist.blacklistedIPs im1 =
               delete key (blacklist.blacklistedIPs (ddos.ipManager ps))) →
            blacklist.blacklistedIPs im1 !! k = Some e →
            blacklist.blacklistedIPs (ddos.ipManager ps) !! k = Some e) as Hsub.
  { intros im1 k e [->| ->]; [done|]. rewrite lookup_delete_Some. tauto. }
  destruct (config.IPBlacklist.Enabled _);
    [destruct (blacklist.IsBlacklisted _ _ _ _) as [[blocked im1] srv1]|];
    cbn [fst snd] in *.
  - destruct blocked; [done|].
    destruct (ratelimit.Allow _ _ _ _) as [[allowed rl2] srv2]. cbn [negb].
    destruct allowed; cbn [negb].
    + repeat open_stage; try done.
      all: by destruct (next _ _ _ _) as [[[? ?] ?] ?].
    + pose proof (ShouldAutoBlacklist_threshold im1 now key 100 srv2 ltac:(lia)) as Ha.
      cbn [ddos.ipManager ddos.set_rateLimiter ddos.set_ipManager].
      destruct (blacklist.ShouldAutoBlacklist im1 now key 100 srv2) as [auto srv3].
      cbn [fst] in Ha. subst auto. cbn [fst snd ddos.ipManager ddos.set_ipManager].
      intros _ k e. by apply Hsub.
  - destruct (ratelimit.Allow _ _ _ _) as [[allowed rl2] srv2]. cbn [negb].
    destruct allowed; cbn [negb].
    + repeat open_stage; try done.
      all: by destruct (next _ _ _ _) as [[[? ?] ?] ?].
    + pose proof (ShouldAutoBlacklist_threshold (ddos.ipManager ps) now key 100 srv2
                    ltac:(lia)) as Ha.
      cbn [ddos.ipManager ddos.set_rateLimiter ddos.set_ipManager].
      destruct (blacklist.ShouldAutoBlacklist _ now key 100 srv2) as [auto srv3].
      cbn [fst] in Ha. subst auto. cbn [fst snd ddos.ipManager ddos.set_ipManager].
      done.
Qed.

Lemma X22_rate_limited_never_blacklists_witness :
  let ps := (scenario.ServeRepeated 10 (sample.service 1000) sample.ok sample.t0
               time.Millisecond sample.curl sample.noRedis).1.2 in
  let r := ddos.ProtectionMiddleware ps sample.ok (sample.t0 + 10 * time.Millisecond)
             sample.curl sample.noRedis in
  r.1.1 = ddos.DENY "RATE_LIMITED" http.StatusTooManyRequests ∧
  blacklist.blacklistedIPs (ddos.ipManager r.1.2) !! "198.51.100.9" = None.
Proof.
  intros ps r. split; [vm_compute; reflexivity|].
  destruct (blacklist.blacklistedIPs (ddos.ipManager r.1.2) !! "198.51.100.9")
    as [e|] eqn:E; [|reflexivity].
  apply (X22_rate_limited_never_blacklists ps sample.ok (sample.t0 + 10 * time.Millisecond)
           sample.curl sample.noRedis) in E.
  - vm_compute in E. discriminate E.
  - vm_compute. discriminate.
  - vm_compute. reflexivity.
Defined.

(** *** Alerts *)

(** [handleAlert] does nothing for an alert of another type than
    "high_request_rate" or with an empty key, and nothing for a key
    whitelisted in the manager; otherwise it records an expiry for the key
    of the alert; the other parts of the service are left alone. *)
Lemma handleAlert_effect ps now alert srv :
  let r := ddos.handleAlert ps now alert srv in
  let k := monitor.IP alert in
  (monitor.Type_ alert ≠ "high_request_rate" ∨ k = EmptyString → r = (ps, srv)) ∧
  (blacklist.whitelisted_local (ddos.ipManager ps) k = true → r = (ps, srv)) ∧
  (monitor.Type_ alert = "high_request_rate" → k ≠ EmptyString →
   blacklist.whitelisted_local (ddos.ipManager ps) k = false →
   blacklist.blacklistedIPs (ddos.ipManager r.1) !! k =
     Some (now + ddos.blacklistLease ps)) ∧
  ddos.rateLimiter r.1 = ddos.rateLimiter ps ∧
  ddos.requestFilter r.1 = ddos.requestFilter ps ∧
  ddos.botnetDetector r.1 = ddos.botnetDetector ps ∧
  ddos.trafficMonitor r.1 = ddos.trafficMonitor ps.
Proof.
  cbv zeta. unfold ddos.handleAlert.
  assert (ddos.set_ipManager (ddos.ipManager ps) ps = ps) as Hps by (by destruct ps).
  split; [|split; [|split]].
  - intros [Ht|Hk].
    + apply String.eqb_neq in Ht. by rewrite Ht.
    + rewrite Hk. by rewrite andb_false_r.
  - intros Hw. rewrite (BlacklistIP_whitelisted _ _ _ _ _ Hw). rewrite Hps.
    by destruct (_ && _).
  - intros Ht Hk Hw. apply String.eqb_eq in Ht. apply String.eqb_neq in Hk.
    rewrite Ht, Hk. cbn [negb andb].
    pose proof (BlacklistIP_records (ddos.ipManager ps) now (monitor.IP alert)
                  (ddos.blacklistLease ps) srv Hw) as Hr.
    destruct (blacklist.BlacklistIP _ _ _ _ _) as [[e im] srv1]. cbn [fst snd] in *.
    subst im. cbn. by rewrite lookup_insert_eq.
  - destruct (_ && _); [|done].
    by destruct (blacklist.BlacklistIP _ _ _ _ _) as [[e im] srv1].
Qed.

Lemma ProtectionMiddleware_blocked_local ps next now req srv e :
  config.IPBlacklist.Enabled (config.ipBlacklist (ddos.config_ ps)) = true →
  blacklist.client (ddos.ipManager ps) = None →
  blacklist.whitelisted_local (ddos.ipManager ps) (ddos.getClientIP ps req) = false →
  blacklist.blacklistedIPs (ddos.ipManager ps) !! ddos.getClientIP ps req = Some e →
  now < e →
  ddos.ProtectionMiddleware ps next now req srv =
    (ddos.DENY "BLOCKED_IP" http.StatusForbidden, ps, srv).
Proof.
  intros Hen Hc Hw He Hlt. unfold ddos.ProtectionMiddleware. rewrite Hen.
  unfold blacklist.IsBlacklisted, blacklist.IsWhitelisted. rewrite Hw, Hc, He.
  unfold time.Before. rewrite (proj2 (Z.ltb_lt _ _) Hlt).
  by destruct ps.
Qed.

Lemma ServeRepeated_blocked_local n ps next now step req srv e :
  config.IPBlacklist.Enabled (config.ipBlacklist (ddos.config_ ps)) = true →
  blacklist.client (ddos.ipManager ps) = None →
  blacklist.whitelisted_local (ddos.ipManager ps) (ddos.getClientIP ps req) = false →
  blacklist.blacklistedIPs (ddos.ipManager ps) !! ddos.getClientIP ps req = Some e →
  0 <= step →
  now + Z.of_nat n * step < e →
  scenario.ServeRepeated n ps next now step req srv =
    (replicate n (ddos.DENY "BLOCKED_IP" http.StatusForbidden), ps, srv).
Proof.
  intros Hen Hc Hw He Hstep. revert now.
  induction n as [|n IH]; intros now Hlt; [done|].
  cbn [scenario.ServeRepeated].
  rewrite (ProtectionMiddleware_blocked_local ps next now req srv e) by (try done; nia).
  rewrite IH; [done|]. unfold time.Add. nia.
Qed.

(** X23 (an alert blacklists the key for the lease).  Without Redis, when
    the blacklist is enabled and [handleAlert] handles a "high_request_rate"
    alert whose key is the key of the request [req], not empty and not
    whitelisted, it records for that key the expiry [now] plus the lease,
    the configured blacklist duration in seconds times one second as a
    product of 64 bits, which is the exact product for a duration of at
    most 9223372036 seconds either way; and [n] requests [req] sent every
    [step] from [now1] on, all before that expiry, are each answered
    BLOCKED_IP with status 403 and leave the service and the store exactly
    as they were. *)
Theorem X23_alert_blacklists_for_the_lease ps now alert srv next req n now1 step srv1 :
  let k := ddos.getClientIP ps req in
  let ps1 := (ddos.handleAlert ps now alert srv).1 in
  let seconds := config.IPBlacklist.BlacklistDuration (config.ipBlacklist (ddos.config_ ps)) in
  let lease := wrap64 (seconds * time.Second) in
  monitor.Type_ alert = "high_request_rate" →
  monitor.IP alert = k → k ≠ EmptyString →
  config.IPBlacklist.Enabled (config.ipBlacklist (ddos.config_ ps)) = true →
  blacklist.client (ddos.ipManager ps) = None →
  blacklist.whitelisted_local (ddos.ipManager ps) k = false →
  0 <= step → now1 + Z.of_nat n * step < now + lease →
  (- 9223372036 <= seconds <= 9223372036 → lease = seconds * time.Second) ∧
  blacklist.blacklistedIPs (ddos.ipManager ps1) !! k = Some (now + lease) ∧
  scenario.ServeRepeated n ps1 next now1 step req srv1 =
    (replicate n (ddos.DENY "BLOCKED_IP" http.StatusForbidden), ps1, srv1).
Proof.
  intros k ps1 seconds lease Ht Hk Hne Hen Hc Hw Hstep Hlt.
  split; [intros Hs; apply wrap64_small; unfold time.Second; lia|].
  assert (ddos.ipManager ps1 =
          blacklist.set_blacklistedIPs
            (<[k := now + lease]> (blacklist.blacklistedIPs (ddos.ipManager ps)))
            (ddos.ipManager ps) ∧
          ddos.config_ ps1 = ddos.config_ ps) as [Him Hcfg].
  { subst ps1. unfold ddos.handleAlert. rewrite Ht, Hk. fold k.
    apply String.eqb_neq in Hne. rewrite Hne. cbn [String.eqb negb andb].
    pose proof (BlacklistIP_records (ddos.ipManager ps) now k (ddos.blacklistLease ps) srv Hw)
      as Hr.
    destruct (blacklist.BlacklistIP _ _ _ _ _) as [[e im] srv']. cbn [fst snd] in *.
    by subst im. }
  assert (blacklist.blacklistedIPs (ddos.ipManager ps1) !! k = Some (now + lease)) as He.
  { rewrite Him. cbn. by rewrite lookup_insert_eq. }
  split; [done|].
  apply (ServeRepeated_blocked_local n ps1 next now1 step req srv1 (now + lease)).
  - by rewrite Hcfg.
  - by rewrite Him.
  - change (ddos.getClientIP ps1 req) with k. by rewrite Him.
  - done.
  - done.
  - done.
Qed.

Lemma X23_alert_blacklists_for_the_lease_witness :
  let ps := sample.service 1000 in
  let alert := {| monitor.Type_ := "high_request_rate"; monitor.Severity := "warning";
                  monitor.Message := "High request rate"; monitor.Timestamp := sample.t0;
                  monitor.IP := "203.0.113.5"; monitor.RequestCount := 1001;
                  monitor.ResponseTime := 0 |} in
  let ps1 := (ddos.handleAlert ps sample.t0 alert sample.noRedis).1 in
  monitor.getClientIP sample.forwarded = monitor.IP alert ∧
  scenario.ServeRepeated 5 ps1 sample.ok (sample.t0 + time.Second) time.Minute
    sample.forwarded sample.noRedis =
  (replicate 5 (ddos.DENY "BLOCKED_IP" http.StatusForbidden), ps1, sample.noRedis).
Proof.
  intros ps alert ps1. split; [reflexivity|].
  destruct (X23_alert_blacklists_for_the_lease ps sample.t0 alert sample.noRedis sample.ok
              sample.forwarded 5 (sample.t0 + time.Second) time.Minute sample.noRedis)
    as (_ & _ & H).
  - reflexivity.
  - vm_compute. reflexivity.
  - vm_compute. discriminate.
  - vm_compute. reflexivity.
  - vm_compute. reflexivity.
  - vm_compute. reflexivity.
  - vm_compute. discriminate.
  - vm_compute. reflexivity.
  - exact H.
Defined.

(** *** Start-up *)

Lemma whitelistAll_spec im now ips srv :
  let r := ddos.whitelistAll im now ips srv in
  blacklist.blacklistedIPs r.1 = blacklist.blacklistedIPs im ∧
  ∀ ip, blacklist.whitelisted_local r.1 ip =
        blacklist.whitelisted_local im ip || bool_decide (ip ∈ ips).
Proof.
  revert im srv. induction ips as [|ip0 ips IH]; intros im srv.
  - cbn [ddos.whitelistAll fst]. split; [done|]. intros ip.
    rewrite bool_decide_eq_false_2 by apply not_elem_of_nil. by rewrite orb_false_r.
  - cbn [ddos.whitelistAll].
    assert ((blacklist.WhitelistIP im now ip0 srv).1.2 =
            blacklist.set_whitelistedIPs (<[ip0 := true]> (blacklist.whitelistedIPs im)) im)
      as Him.
    { unfold blacklist.WhitelistIP.
      destruct (blacklist.client _); [destruct (redis.Set_ _ _ _ _ _)|]; done. }
    destruct (blacklist.WhitelistIP im now ip0 srv) as [[e im1] srv1]. cbn [fst snd] in Him.
    subst im1. destruct (IH (blacklist.set_whitelistedIPs
                               (<[ip0 := true]> (blacklist.whitelistedIPs im)) im) srv1)
      as [Hb Hw].
    split; [by rewrite Hb|]. intros ip. rewrite Hw.
    unfold blacklist.whitelisted_local. cbn [blacklist.whitelistedIPs blacklist.set_whitelistedIPs].
    destruct (decide (ip = ip0)) as [->|Hne].
    + rewrite lookup_insert_eq. cbn [default orb].
      rewrite (bool_decide_eq_true_2 (ip0 ∈ ip0 :: ips)) by (apply elem_of_cons; by left).
      by rewrite orb_true_r.
    + rewrite lookup_insert_ne by done.
      destruct (default false (blacklist.whitelistedIPs im !! ip)); [done|]. cbn [orb].
      apply bool_decide_ext. rewrite elem_of_cons. tauto.
Qed.

(** X24 (reputation at start-up).  In the service built by
    [NewProtectionService] the keys whitelisted in the manager are exactly
    the addresses of the configured whitelist, whether or not that
    whitelist is enabled and whether or not Redis replies; the blacklist of
    the manager is empty, whatever addresses the configured blacklist
    lists; and [IsBlacklisted] answers false for every configured
    whitelist address. *)
Theorem X24_NewProtectionService_reputation Compile cfg now srv :
  let ps := (ddos.NewProtectionService Compile cfg now srv).1 in
  (∀ ip, blacklist.whitelisted_local (ddos.ipManager ps) ip = true ↔
         ip ∈ config.IPWhitelist.IPs (config.ipWhitelist cfg)) ∧
  blacklist.blacklistedIPs (ddos.ipManager ps) = ∅ ∧
  (∀ ip now' srv', ip ∈ config.IPWhitelist.IPs (config.ipWhitelist cfg) →
     (blacklist.IsBlacklisted (ddos.ipManager ps) now' ip srv').1.1 = false).
Proof.
  cbv zeta. unfold ddos.NewProtectionService.
  match goal with |- context [ddos.whitelistAll ?im now ?ips ?s] =>
    pose proof (whitelistAll_spec im now ips s) as [Hb Hw];
    destruct (ddos.whitelistAll im now ips s) as [im' srv1] end.
  cbn [fst snd ddos.ipManager] in *.
  assert (∀ ip, blacklist.whitelisted_local im' ip = true ↔
                ip ∈ config.IPWhitelist.IPs (config.ipWhitelist cfg)) as Hiff.
  { intros ip. rewrite Hw. unfold blacklist.whitelisted_local. cbn.
    rewrite lookup_empty. cbn. apply bool_decide_eq_true. }
  split; [done|]. split; [by rewrite Hb|].
  intros ip now' srv' Hin. apply Hiff in Hin.
  by rewrite (IsBlacklisted_whitelisted _ _ _ _ Hin).
Qed.

(** *** The management operation on the rate limits, continued *)

(** X25 (what an update of the rate limits does to the limiter).  Without
    Redis the new token-bucket limiter reports the new burst and has
    forgotten every bucket: for a positive number of requests per minute the
    next call for any key is allowed exactly when the burst is at least
    one.  With Redis, and a configured window of at most 9223372036 seconds
    either way, whose nanoseconds are a duration of 64 bits, the reported
    limits are the new requests per minute and the configured window size:
    the burst of the update is not used. *)
Theorem X25_UpdateRateLimitConfig_resets ps requestsPerMinute burstSize :
  let ps' := (ddos.UpdateRateLimitConfig ps requestsPerMinute burstSize).2 in
  (ddos.redisClient ps = None →
   (ddos.GetRateLimitConfig ps').2 = burstSize ∧
   (0 < requestsPerMinute →
    ∀ now key srv,
      (ratelimit.Allow (ddos.rateLimiter ps') now key srv).1.1 = (1 <=? burstSize))) ∧
  (ddos.redisClient ps ≠ None →
   - 9223372036 <= config.RateLimit.WindowSize (config.rateLimit (ddos.config_ ps))
     <= 9223372036 →
   ddos.GetRateLimitConfig ps' =
     (requestsPerMinute,
      config.RateLimit.WindowSize (config.rateLimit (ddos.config_ ps)))).
Proof.
  cbv zeta. unfold ddos.UpdateRateLimitConfig, ddos.initRateLimiter, ddos.newRateLimiter,
    ddos.GetRateLimitConfig.
  cbn [snd ddos.rateLimiter ddos.set_rateLimiter ddos.set_config ddos.config_
       ddos.redisClient config.rateLimit config.RateLimit.RequestsPerMinute
       config.RateLimit.BurstSize config.RateLimit.WindowSize].
  split.
  - intros ->. split; [done|]. intros _ now key srv.
    cbn [ratelimit.Allow ddos.LimiterValue_Limiter ratelimit.TokenBucket_Limiter].
    unfold ratelimit.TokenBucketLimiter.Allow, ratelimit.TokenBucketLimiter.New.
    cbn [ratelimit.TokenBucketLimiter.limiters ratelimit.TokenBucketLimiter.limit
         ratelimit.TokenBucketLimiter.burst].
    rewrite lookup_empty. unfold rate.Allow, rate.NewLimiter.
    cbn [rate.last rate.burst rate.tokens rate.limit]. unfold time.Sub.
    rewrite Z.sub_diag.
    set (refilled := Qmin _ _).
    assert (refilled == inject_Z burstSize)%Q as Href.
    { subst refilled. apply Q.min_l. unfold Qdiv. rewrite Qmult_0_l. lra. }
    assert (Qle_bool 1 refilled = (1 <=? burstSize)) as Hb.
    { destruct (Z.leb_spec 1 burstSize) as [H|H].
      - apply Qle_bool_iff. rewrite Href. change 1%Q with (inject_Z 1).
        by rewrite <- Zle_Qle.
      - destruct (Qle_bool 1 refilled) eqn:E; [|done]. apply Qle_bool_iff in E.
        rewrite Href in E. change 1%Q with (inject_Z 1) in E.
        rewrite <- Zle_Qle in E. lia. }
    rewrite Hb. by destruct (1 <=? burstSize).
  - destruct (ddos.redisClient ps); [|done]. intros _ Hw.
    cbn [ratelimit.GetLimit ratelimit.GetBurst ddos.LimiterValue_Limiter
         ratelimit.Redis_Limiter].
    unfold ratelimit.RedisLimiter.GetLimit, ratelimit.RedisLimiter.GetBurst,
      ratelimit.RedisLimiter.New.
    cbn [ratelimit.RedisLimiter.limit ratelimit.RedisLimiter.window].
    f_equal. rewrite wrap64_small by (unfold time.Second; lia).
    by apply Seconds_whole.
Qed.

Lemma X25_UpdateRateLimitConfig_resets_witness :
  let ps := (scenario.ServeRepeated 10 (sample.service 1000) sample.ok sample.t0
               time.Millisecond sample.curl sample.noRedis).1.2 in
  let ps' := (ddos.UpdateRateLimitConfig ps 60 10).2 in
  (ratelimit.Allow (ddos.rateLimiter ps') (sample.t0 + 10 * time.Millisecond)
     "198.51.100.9" sample.noRedis).1.1 = true.
Proof.
  intros ps ps'.
  destruct (X25_UpdateRateLimitConfig_resets ps 60 10) as [H _].
  destruct H as [_ H]; [reflexivity|].
  exact (H ltac:(lia) (sample.t0 + 10 * time.Millisecond) "198.51.100.9" sample.noRedis).
Defined.

(** *** The key of a request *)

Lemma Cut_sep c p rest :
  http.exists_byte (Ascii.eqb c) p = false →
  strings.Cut (p +:+ String c rest) (String c EmptyString) = (p, rest, true).
Proof.
  induction p as [|a p IH].
  - intros _. rewrite append_nil_l. cbn [strings.Cut]. rewrite prefix_byte.
    by rewrite Ascii.eqb_refl.
  - cbn [http.exists_byte]. intros H. apply orb_false_elim in H as [Ha Hp].
    rewrite append_cons. cbn [strings.Cut]. rewrite prefix_byte, Ha, (IH Hp). done.
Qed.

(** X26 (where the key of a request comes from).  A forwarded-for value
    that is not empty decides the key: it is the value trimmed when it has
    no comma, and what precedes its first comma, trimmed, otherwise; to
    trim is to cut the white space of Unicode off both ends.  Without
    forwarding headers the key is the remote address up to its first
    colon. *)
Theorem X26_getClientIP_sources ps req :
  let xff := http.Get (http.Header_ req) "X-Forwarded-For" in
  (xff ≠ EmptyString → http.exists_byte (Ascii.eqb ",") xff = false →
   ddos.getClientIP ps req = strings.TrimSpace xff) ∧
  (∀ first rest, http.exists_byte (Ascii.eqb ",") first = false →
     xff = first +:+ "," +:+ rest →
     ddos.getClientIP ps req = strings.TrimSpace first) ∧
  (∀ host rest,
     xff = EmptyString → http.Get (http.Header_ req) "X-Real-IP" = EmptyString →
     http.exists_byte (Ascii.eqb ":") host = false →
     http.RemoteAddr req = host +:+ ":" +:+ rest →
     ddos.getClientIP ps req = host).
Proof.
  cbv zeta. unfold ddos.getClientIP.
  set (xff := http.Get (http.Header_ req) "X-Forwarded-For").
  split; [|split].
  - intros Hne Hc. apply String.eqb_neq in Hne. rewrite Hne. cbn [negb].
    unfold strings.Split. by rewrite (fields_no_sep _ _ Hc).
  - intros first rest Hc ->.
    assert (String.eqb (first +:+ "," +:+ rest) EmptyString = false) as ->.
    { destruct first; [by rewrite append_nil_l | by rewrite append_cons]. }
    cbn [negb]. change ("," +:+ rest) with (String "," rest).
    by rewrite (Split_sep _ _ _ Hc).
  - intros host rest -> -> Hc ->. cbn [String.eqb negb].
    change (":" +:+ rest) with (String ":" rest).
    by rewrite (Cut_sep _ _ _ Hc).
Qed.

Lemma X26_getClientIP_sources_witness :
  ddos.getClientIP (sample.service 1000) sample.padded = "203.0.113.5" ∧
  ddos.getClientIP (sample.service 1000) sample.proxied = "203.0.113.5" ∧
  ddos.getClientIP (sample.service 1000) sample.direct = "203.0.113.5".
Proof.
  split; [|split].
  - destruct (X26_getClientIP_sources (sample.service 1000) sample.padded) as (H & _ & _).
    rewrite H; [reflexivity | discriminate | reflexivity].
  - destruct (X26_getClientIP_sources (sample.service 1000) sample.proxied) as (_ & H & _).
    apply (H "203.0.113.5" " 10.0.0.1"); reflexivity.
  - destruct (X26_getClientIP_sources (sample.service 1000) sample.direct) as (_ & _ & H).
    apply (H "203.0.113.5" "40000"); reflexivity.
Defined.

(** ** The health checker *)

(** *** The circuit breakers of the health checker *)

Lemma RecordFailure_run_closed cb ts :
  health.CircuitBreaker.state cb = health.StateClosed →
  0 <= health.CircuitBreaker.failureCount cb →
  health.CircuitBreaker.failureCount cb < health.CircuitBreaker.failureThreshold cb →
  health.CircuitBreaker.failureThreshold cb < 9223372036854775808 →
  health.CircuitBreaker.state (fold_left health.RecordFailure ts cb) =
    if health.CircuitBreaker.failureThreshold cb
         <=? health.CircuitBreaker.failureCount cb + Z.of_nat (length ts)
    then health.StateOpen else health.StateClosed.
Proof.
  revert cb. induction ts as [|t ts IH]; intros cb Hst H0 Hlt Hth.
  - simpl. rewrite Z.add_0_r. destruct (Z.leb_spec (health.CircuitBreaker.failureThreshold cb)
      (health.CircuitBreaker.failureCount cb)); [lia|done].
  - cbn [fold_left length].
    set (cb1 := health.RecordFailure cb t).
    assert (health.CircuitBreaker.failureCount cb1 = health.CircuitBreaker.failureCount cb + 1)
      as Hc by (subst cb1; cbn; rewrite add64_small; lia).
    assert (health.CircuitBreaker.failureThreshold cb1 = health.CircuitBreaker.failureThreshold cb)
      as Ht by done.
    destruct (Z.leb_spec (health.CircuitBreaker.failureThreshold cb)
                (health.CircuitBreaker.failureCount cb + 1)) as [Hge|Hlt'].
    + assert (health.CircuitBreaker.state cb1 = health.StateOpen) as Ho.
      { subst cb1. cbn. rewrite Hst, add64_small by lia.
        destruct (Z.leb_spec (health.CircuitBreaker.failureThreshold cb)
                    (health.CircuitBreaker.failureCount cb + 1)); [done|lia]. }
      assert (∀ l c, health.CircuitBreaker.state c = health.StateOpen →
                health.CircuitBreaker.state (fold_left health.RecordFailure l c)
                  = health.StateOpen) as Hopen.
      { clear. induction l as [|x l IHl]; intros c Hc; [done|].
        simpl. apply IHl. cbn. by rewrite Hc. }
      rewrite (Hopen _ _ Ho).
      destruct (Z.leb_spec (health.CircuitBreaker.failureThreshold cb)
                  (health.CircuitBreaker.failureCount cb + Z.of_nat (S (length ts))));
        [done|lia].
    + rewrite IH.
      * rewrite Ht, Hc. by replace (health.CircuitBreaker.failureCount cb + 1 + Z.of_nat (length ts))
          with (health.CircuitBreaker.failureCount cb + Z.of_nat (S (length ts))) by lia.
      * subst cb1. cbn. rewrite Hst, add64_small by lia.
        destruct (Z.leb_spec (health.CircuitBreaker.failureThreshold cb)
                    (health.CircuitBreaker.failureCount cb + 1)); [lia|done].
      * lia.
      * lia.
      * by rewrite Ht.
Qed.

(** X27 (a breaker opens at the threshold).  After a success, which
    leaves a closed breaker closed, a run of failures opens the breaker
    exactly when the run is at least as long as the failure threshold. *)
Theorem X27_breaker_opens_at_threshold cb ts :
  health.CircuitBreaker.state cb = health.StateClosed →
  1 <= health.CircuitBreaker.failureThreshold cb < 9223372036854775808 →
  let fresh := health.RecordSuccess cb in
  health.CircuitBreaker.state fresh = health.StateClosed ∧
  health.CircuitBreaker.state (fold_left health.RecordFailure ts fresh) =
    if health.CircuitBreaker.failureThreshold cb <=? Z.of_nat (length ts)
    then health.StateOpen else health.StateClosed.
Proof.
  intros Hst Hth fresh.
  assert (health.CircuitBreaker.state fresh = health.StateClosed) as Hf
    by (subst fresh; cbn; by rewrite Hst).
  split; [done|].
  assert (health.CircuitBreaker.failureCount fresh = 0) as Hc by done.
  assert (health.CircuitBreaker.failureThreshold fresh =
          health.CircuitBreaker.failureThreshold cb) as Ht by done.
  rewrite RecordFailure_run_closed; rewrite ?Hc, ?Ht; try done; lia.
Qed.

Lemma X27_breaker_opens_at_threshold_witness :
  let fresh := health.RecordSuccess sample.breaker in
  health.CircuitBreaker.state
    (fold_left health.RecordFailure [sample.t0; sample.t0 + 1; sample.t0 + 2] fresh)
    = health.StateOpen ∧
  health.CircuitBreaker.state
    (fold_left health.RecordFailure [sample.t0; sample.t0 + 1] fresh)
    = health.StateClosed.
Proof.
  intros fresh. split.
  - destruct (X27_breaker_opens_at_threshold sample.breaker
                [sample.t0; sample.t0 + 1; sample.t0 + 2]) as [_ H];
      [reflexivity | vm_compute; split; [discriminate | reflexivity] | exact H].
  - destruct (X27_breaker_opens_at_threshold sample.breaker [sample.t0; sample.t0 + 1])
      as [_ H]; [reflexivity | vm_compute; split; [discriminate | reflexivity] | exact H].
Defined.

Lemma breaker_step_open cb ev :
  health.CircuitBreaker.state cb = health.StateOpen →
  is_update ev = false →
  health.CircuitBreaker.state (breaker_step cb ev) = health.StateOpen.
Proof. intros Hst Hev. destruct ev as [now| |now]; cbn; rewrite ?Hst; done. Qed.

(** X28 (an open breaker waits for the periodic update).  Whatever
    checks succeed or fail in between, an open breaker stays open until
    [updateCircuitBreakers] runs; that update makes it half-open exactly
    when the breaker would let a check run, that is when more than the
    timeout has passed since the last failure. *)
Theorem X28_open_breaker_waits_for_update cb evs :
  health.CircuitBreaker.state cb = health.StateOpen →
  forallb (fun ev => negb (is_update ev)) evs = true →
  health.CircuitBreaker.state (breaker_run cb evs) = health.StateOpen ∧
  ∀ now, health.CircuitBreaker.state (health.updateCircuitBreaker (breaker_run cb evs) now) =
         if health.CanExecute (breaker_run cb evs) now
         then health.StateHalfOpen else health.StateOpen.
Proof.
  intros Hst Hevs.
  assert (health.CircuitBreaker.state (breaker_run cb evs) = health.StateOpen) as Ho.
  { revert cb Hst Hevs. induction evs as [|ev evs IH]; intros cb Hst Hevs; [done|].
    cbn [forallb] in Hevs. apply andb_true_iff in Hevs as [Hev Hevs].
    unfold breaker_run. cbn [fold_left]. apply IH; [|done].
    apply breaker_step_open; [done|]. by apply negb_true_iff. }
  split; [done|]. intros now.
  unfold health.updateCircuitBreaker, health.CanExecute. rewrite Ho.
  by destruct (_ <? _).
Qed.

Lemma X28_open_breaker_waits_for_update_witness :
  let cb := breaker_run sample.breaker
              [Failed sample.t0; Failed (sample.t0 + 1); Failed (sample.t0 + 2)] in
  health.CircuitBreaker.state
    (breaker_run cb [Succeeded; Failed (sample.t0 + 10 * time.Second); Succeeded])
    = health.StateOpen.
Proof.
  intros cb.
  destruct (X28_open_breaker_waits_for_update cb
              [Succeeded; Failed (sample.t0 + 10 * time.Second); Succeeded]) as [H _];
    [reflexivity | reflexivity | exact H].
Defined.

(** After at most [n] events a registered breaker has counted at most [n]
    successes, and while half-open it has let through no call, or one that
    succeeded. *)
Lemma breaker_step_registered cb ev n :
  0 <= n < 4611686018427387904 →
  (health.CircuitBreaker.successThreshold cb = 2 ∧
   health.CircuitBreaker.halfOpenMaxCalls cb = 3 ∧
   0 <= health.CircuitBreaker.successCount cb <= n ∧
   (health.CircuitBreaker.state cb = health.StateHalfOpen →
    health.CircuitBreaker.halfOpenCalls cb = 0 ∨
    (health.CircuitBreaker.halfOpenCalls cb = 1 ∧
     health.CircuitBreaker.successCount cb = 1))) →
  let cb' := breaker_step cb ev in
  health.CircuitBreaker.successThreshold cb' = 2 ∧
  health.CircuitBreaker.halfOpenMaxCalls cb' = 3 ∧
  0 <= health.CircuitBreaker.successCount cb' <= n + 1 ∧
  (health.CircuitBreaker.state cb' = health.StateHalfOpen →
   health.CircuitBreaker.halfOpenCalls cb' = 0 ∨
   (health.CircuitBreaker.halfOpenCalls cb' = 1 ∧
    health.CircuitBreaker.successCount cb' = 1)).
Proof.
  intros Hn (Hs & Hm & Hc & Hh). destruct ev as [now| |now]; cbn [breaker_step].
  - unfold health.RecordFailure. cbn. repeat split; try done; try lia.
  - unfold health.RecordSuccess. cbv zeta.
    rewrite (add64_small (health.CircuitBreaker.successCount cb) 1) by lia.
    destruct (health.CircuitBreaker.state cb) eqn:Hst; cbn; rewrite ?Hst;
      try (repeat split; try done; lia).
    rewrite Hs.
    destruct (Z.leb_spec 2 (health.CircuitBreaker.successCount cb + 1)) as [Hge|Hlt]; cbn.
    + repeat split; try done; lia.
    + repeat split; try done; try lia. intros _. right.
      destruct (Hh eq_refl) as [->|[_ ?]]; [|lia]. split; [done|lia].
  - unfold health.updateCircuitBreaker.
    destruct (health.CircuitBreaker.state cb) eqn:Hst;
      [|destruct (_ <? _)|]; cbn; rewrite ?Hst; repeat split; try done; try lia.
    all: intros; try done; by left.
Qed.

(** X29 (a half-open breaker never refuses).  For the breaker that
    [RegisterHealthCheck] creates, after any sequence of failures,
    successes and updates (fewer than 2^62 of them), whenever the breaker is
    half-open it lets the next check run. *)
Theorem X29_half_open_breaker_never_refuses hc check evs now :
  Z.of_nat (length evs) < 4611686018427387904 →
  ∃ cb0,
    health.circuitBreakers (health.RegisterHealthCheck hc check) !! health.Name check
      = Some cb0 ∧
    (health.CircuitBreaker.state (breaker_run cb0 evs) = health.StateHalfOpen →
     health.CanExecute (breaker_run cb0 evs) now = true).
Proof.
  intros Hlen. eexists. split; [cbn; by rewrite lookup_insert_eq|].
  set (cb0 := {| health.CircuitBreaker.name := _ |}).
  assert (∀ evs cb n,
    0 <= n → n + Z.of_nat (length evs) < 4611686018427387904 →
    (health.CircuitBreaker.successThreshold cb = 2 ∧
     health.CircuitBreaker.halfOpenMaxCalls cb = 3 ∧
     0 <= health.CircuitBreaker.successCount cb <= n ∧
     (health.CircuitBreaker.state cb = health.StateHalfOpen →
      health.CircuitBreaker.halfOpenCalls cb = 0 ∨
      (health.CircuitBreaker.halfOpenCalls cb = 1 ∧
       health.CircuitBreaker.successCount cb = 1))) →
    health.CircuitBreaker.halfOpenMaxCalls (breaker_run cb evs) = 3 ∧
    (health.CircuitBreaker.state (breaker_run cb evs) = health.StateHalfOpen →
     health.CircuitBreaker.halfOpenCalls (breaker_run cb evs) = 0 ∨
     health.CircuitBreaker.halfOpenCalls (breaker_run cb evs) = 1)) as Hrun.
  { clear. induction evs as [|ev evs IH]; intros cb n Hn Hlen Hinv.
    - cbn. destruct Hinv as (_ & ? & _ & Hh). split; [done|]. intros Hst.
      destruct (Hh Hst) as [|[? _]]; tauto.
    - unfold breaker_run. cbn [fold_left]. cbn [length] in Hlen.
      apply (IH _ (n + 1)); [lia|lia|].
      apply breaker_step_registered; [lia|done]. }
  destruct (Hrun evs cb0 0) as [Hm Hh]; [lia|lia| |].
  { subst cb0. cbn. repeat split; try done. }
  intros Hst. unfold health.CanExecute. rewrite Hst, Hm.
  destruct (Hh Hst) as [-> | ->]; done.
Qed.

Lemma X29_half_open_breaker_never_refuses_witness :
  let evs := [Failed sample.t0; Failed (sample.t0 + 1); Failed (sample.t0 + 2);
              Updated (sample.t0 + 10 * time.Second); Succeeded] in
  ∃ cb0,
    health.circuitBreakers
      (health.RegisterHealthCheck
         (health.NewHealthChecker (30 * time.Second) (5 * time.Second)) sample.uptimeCheck)
      !! "uptime" = Some cb0 ∧
    (health.CircuitBreaker.state (breaker_run cb0 evs) = health.StateHalfOpen →
     health.CanExecute (breaker_run cb0 evs) (sample.t0 + 11 * time.Second) = true).
Proof.
  intros evs.
  apply (X29_half_open_breaker_never_refuses
           (health.NewHealthChecker (30 * time.Second) (5 * time.Second))
           sample.uptimeCheck evs (sample.t0 + 11 * time.Second)).
  vm_compute. reflexivity.
Defined.

(** *** The health report *)

(** A run reads the breaker of its own name and writes no other. *)
Lemma runHealthCheck_local h1 h2 now name check :
  health.circuitBreakers h1 !! name = health.circuitBreakers h2 !! name →
  (health.runHealthCheck h1 now name check).1 = (health.runHealthCheck h2 now name check).1 ∧
  ∀ name', name' ≠ name →
    health.circuitBreakers (health.runHealthCheck h1 now name check).2 !! name' =
    health.circuitBreakers h1 !! name'.
Proof.
  intros H. unfold health.runHealthCheck. rewrite H.
  destruct (health.circuitBreakers h2 !! name) as [cb|]; [|done].
  destruct (negb _); [done|].
  destruct (health.Check check now); (split; [done|]); intros name' Hne; cbn;
    by rewrite lookup_insert_ne.
Qed.

Lemma GetHealthStatus_fold hc now m :
  Z.of_nat (size m) < 9223372036854775808 →
  let acc :=
    map_fold (health.recordCheck now)
      (∅, {| health.HealthSummary.TotalChecks := 0; health.HealthSummary.HealthyChecks := 0;
             health.HealthSummary.UnhealthyChecks := 0;
             health.HealthSummary.CriticalFailures := 0 |}, hc) m in
  (∀ name, acc.1.1 !! name =
           (fun check => (health.runHealthCheck hc now name check).1) <$> m !! name) ∧
  (∀ name, m !! name = None →
           health.circuitBreakers acc.2 !! name = health.circuitBreakers hc !! name) ∧
  health.HealthSummary.TotalChecks acc.1.2 = Z.of_nat (size m) ∧
  health.HealthSummary.HealthyChecks acc.1.2 + health.HealthSummary.UnhealthyChecks acc.1.2
    = health.HealthSummary.TotalChecks acc.1.2 ∧
  0 <= health.HealthSummary.HealthyChecks acc.1.2 ∧
  0 <= health.HealthSummary.CriticalFailures acc.1.2
    <= health.HealthSummary.UnhealthyChecks acc.1.2 ∧
  (health.HealthSummary.UnhealthyChecks acc.1.2 = 0 ↔
   map_Forall (fun _ res => health.CheckResult.Status res = "healthy") acc.1.1) ∧
  (0 < health.HealthSummary.CriticalFailures acc.1.2 ↔
   map_Exists (fun _ res => health.CheckResult.Status res ≠ "healthy" ∧
                            health.CheckResult.IsCritical res = true) acc.1.1).
Proof.
  cbv zeta. revert m.
  apply (map_fold_weak_ind (fun acc m =>
    Z.of_nat (size m) < 9223372036854775808 →
    (∀ name, acc.1.1 !! name =
             (fun check => (health.runHealthCheck hc now name check).1) <$> m !! name) ∧
    (∀ name, m !! name = None →
             health.circuitBreakers acc.2 !! name = health.circuitBreakers hc !! name) ∧
    health.HealthSummary.TotalChecks acc.1.2 = Z.of_nat (size m) ∧
    health.HealthSummary.HealthyChecks acc.1.2 + health.HealthSummary.UnhealthyChecks acc.1.2
      = health.HealthSummary.TotalChecks acc.1.2 ∧
    0 <= health.HealthSummary.HealthyChecks acc.1.2 ∧
    0 <= health.HealthSummary.CriticalFailures acc.1.2
      <= health.HealthSummary.UnhealthyChecks acc.1.2 ∧
    (health.HealthSummary.UnhealthyChecks acc.1.2 = 0 ↔
     map_Forall (fun _ res => health.CheckResult.Status res = "healthy") acc.1.1) ∧
    (0 < health.HealthSummary.CriticalFailures acc.1.2 ↔
     map_Exists (fun _ res => health.CheckResult.Status res ≠ "healthy" ∧
                              health.CheckResult.IsCritical res = true) acc.1.1))).
  - intros _. cbn. repeat split; try done; try lia.
    all: try apply map_Forall_empty.
    all: intros H; by apply map_Exists_empty in H.
  - intros i x m [[results summary] hca] Hi IH Hsize.
    rewrite map_size_insert_None in Hsize by done.
    destruct IH as (Hres & Hcb & Ht & Hsum & Hh & Hc & Hu & Hcr); [lia|].
    cbn [fst snd] in *.
    assert (results !! i = None) as Hri by (by rewrite Hres, Hi).
    destruct (runHealthCheck_local hca hc now i x (Hcb i Hi)) as [Hr1 Hr2].
    unfold health.recordCheck.
    destruct (health.runHealthCheck hca now i x) as [res hc'] eqn:E. cbn [fst snd] in *.
    rewrite map_size_insert_None by done.
    split; [|split; [|split; [|split; [|split; [|split; [|split]]]]]].
    + intros name. destruct (decide (name = i)) as [->|Hne].
      * by rewrite !lookup_insert_eq, Hr1.
      * by rewrite !lookup_insert_ne.
    + intros name Hn. apply lookup_insert_None in Hn as [Hn Hne].
      rewrite Hr2 by done. by apply Hcb.
    + cbn. rewrite add64_small by lia. lia.
    + cbn. destruct (String.eqb _ _); rewrite !add64_small by lia; lia.
    + cbn. destruct (String.eqb _ _); rewrite ?add64_small by lia; lia.
    + cbn. destruct (String.eqb _ _), (health.CheckResult.IsCritical res); cbn;
        rewrite ?add64_small by lia; lia.
    + cbn. rewrite map_Forall_insert by done. rewrite <- Hu.
      destruct (String.eqb_spec (health.CheckResult.Status res) "healthy") as [Hs|Hs].
      * tauto.
      * rewrite add64_small by lia. split; [lia|tauto].
    + cbn. rewrite map_Exists_insert by done. rewrite <- Hcr.
      destruct (String.eqb_spec (health.CheckResult.Status res) "healthy") as [Hs|Hs]; cbn.
      * split; [tauto|]. intros [[? _]|?]; [done|tauto].
      * destruct (health.CheckResult.IsCritical res); cbn.
        -- rewrite add64_small by lia. split; [by left|lia].
        -- split; [tauto|]. intros [[_ ?]|?]; [done|tauto].
Qed.

(** X30 (the health report).  With fewer than 2^63 checks,
    [GetHealthStatus] reports for each registered check the result of
    running it on the breakers as they were before the call; the total is
    the number of checks, the healthy and unhealthy counts add up to it,
    the critical failures are at most the unhealthy count; the status is
    "healthy" exactly when every result is healthy, and "critical" exactly
    when some result that is not healthy belongs to a critical check. *)
Theorem X30_GetHealthStatus_report hc now :
  Z.of_nat (size (health.checks hc)) < 9223372036854775808 →
  let st := (health.GetHealthStatus hc now).1 in
  let summary := health.HealthStatus.Summary st in
  (∀ name, health.HealthStatus.Checks st !! name =
           (fun check => (health.runHealthCheck hc now name check).1)
             <$> health.checks hc !! name) ∧
  health.HealthSummary.TotalChecks summary = Z.of_nat (size (health.checks hc)) ∧
  health.HealthSummary.HealthyChecks summary + health.HealthSummary.UnhealthyChecks summary
    = health.HealthSummary.TotalChecks summary ∧
  0 <= health.HealthSummary.CriticalFailures summary
    <= health.HealthSummary.UnhealthyChecks summary ∧
  (health.HealthStatus.Status st = "healthy" ↔
   map_Forall (fun _ res => health.CheckResult.Status res = "healthy")
     (health.HealthStatus.Checks st)) ∧
  (health.HealthStatus.Status st = "critical" ↔
   map_Exists (fun _ res => health.CheckResult.Status res ≠ "healthy" ∧
                            health.CheckResult.IsCritical res = true)
     (health.HealthStatus.Checks st)).
Proof.
  intros Hsize. cbv zeta. unfold health.GetHealthStatus.
  pose proof (GetHealthStatus_fold hc now (health.checks hc) Hsize)
    as (Hres & _ & Ht & Hsum & Hh & Hc & Hu & Hcr).
  destruct (map_fold _ _ _) as [[results summary] hc']. cbn [fst snd] in *.
  cbn [health.HealthStatus.Checks health.HealthStatus.Summary health.HealthStatus.Status].
  split; [done|]. split; [done|]. split; [done|]. split; [done|].
  rewrite <- Hu, <- Hcr.
  destruct (Z.ltb_spec 0 (health.HealthSummary.CriticalFailures summary)) as [H1|H1].
  - split; [split; [done|lia]|done].
  - destruct (Z.ltb_spec 0 (health.HealthSummary.UnhealthyChecks summary)) as [H2|H2].
    + split; [split; [done|lia]|split; [done|lia]].
    + split; [split; [lia|done]|split; [done|lia]].
Qed.

Lemma X30_GetHealthStatus_report_witness :
  let st := (health.GetHealthStatus sample.checker (sample.t0 + time.Second)).1 in
  health.HealthSummary.TotalChecks (health.HealthStatus.Summary st) =
  Z.of_nat (size (health.checks sample.checker)).
Proof.
  intros st.
  destruct (X30_GetHealthStatus_report sample.checker (sample.t0 + time.Second))
    as (_ & H & _); [vm_compute; reflexivity | exact H].
Defined.
